(** * SRP_data: product model, product collection and analyzer

    A shallow embedding of [projet_SRP/models.py] and
    [projet_SRP/analyzer.py].  Python values keep their shape: [float] is
    the IEEE 754 binary64 type of the kernel ([PrimFloat]), [int] is [Z],
    [str] is [string], insertion-ordered dictionaries are association
    lists updated in place, sets of strings are [gset string], and the
    filter dictionary of [get_filtered_products], which is only read by
    key, is a [gmap].  Exceptions are values of [Exc]; a method that can
    raise returns [res]. *)

From Stdlib Require Import ZArith List String Ascii Bool Lia Floats Uint63.
From Stdlib Require Import Sorting.Sorted.
From stdpp Require Import base option list strings gmap pretty.

Open Scope string_scope.
Open Scope Z_scope.

(** ** The Python runtime the package relies on *)

Module Py.

(** Exceptions raised by the modelled code. [ValidationError] is
    pydantic's: one [(field, message)] pair per offending field. *)
Inductive Exc : Type :=
| ValidationError (errors : list (string * string))
| ValueError (msg : string)
| TypeError
| AttributeError
| KeyError (key : string).

Inductive res (A : Type) : Type :=
| Ok (a : A)
| Raise (e : Exc).
Arguments Ok {A} a.
Arguments Raise {A} e.

Definition bind {A B} (m : res A) (k : A -> res B) : res B :=
  match m with
  | Ok a => k a
  | Raise e => Raise e
  end.

Notation "x <-- m ;; k" := (bind m (fun x => k))
  (at level 100, m at next level, right associativity).

(** A list comprehension [[x for x in l if cond(x)]] whose condition may
    raise: the first raising element aborts the comprehension. *)
Fixpoint filterM {A} (cond : A -> res bool) (l : list A) : res (list A) :=
  match l with
  | [] => Ok []
  | x :: l' =>
      b <-- cond x ;;
      r <-- filterM cond l' ;;
      Ok (if b then x :: r else r)
  end.

(** *** float *)

Definition float0 : float := 0%float.

(** [float(n)] for the lengths and counts the code divides by.  The
    conversion goes through the 63-bit integers, so it is the Python one
    for [0 <= n < 2^63], far more than a list can hold. *)
Definition float_of_int (n : Z) : float := PrimFloat.of_uint63 (Uint63.of_Z n).

(** [x > y] is [y < x]. *)
Definition fgtb (x y : float) : bool := PrimFloat.ltb y x.
Definition fgeb (x y : float) : bool := PrimFloat.leb y x.

Definition is_nan (x : float) : bool := negb (PrimFloat.eqb x x).

(** The builtin [sum] over floats: from the integer [0], left to right. *)
Definition sum (l : list float) : float := fold_left PrimFloat.add l float0.

Definition len {A} (l : list A) : Z := Z.of_nat (length l).

(** The comparison of a float with an integer, which Python carries out
    on the exact values (the integer is not rounded to a float). *)
Definition float_compare_int (x : float) (n : Z) : option comparison :=
  match Prim2SF x with
  | S754_nan => None
  | S754_infinity s => Some (if s then Lt else Gt)
  | S754_zero _ => Some (0 ?= n)
  | S754_finite s m e =>
      let v := if s then Z.neg m else Z.pos m in
      Some (if 0 <=? e then (v * 2 ^ e ?= n) else (v ?= n * 2 ^ (- e)))
  end.

Definition float_ge_int (x : float) (n : Z) : bool :=
  match float_compare_int x n with
  | Some Gt | Some Eq => true
  | _ => false
  end.

Definition float_le_int (x : float) (n : Z) : bool :=
  match float_compare_int x n with
  | Some Lt | Some Eq => true
  | _ => false
  end.

(** *** str *)

(** [needle in hay] on strings. *)
Fixpoint contains (needle hay : string) : bool :=
  String.prefix needle hay ||
  match hay with
  | EmptyString => false
  | String _ hay' => contains needle hay'
  end.

(** [f"{n:02d}"] for a non-negative [n]. *)
Definition format_02d (n : Z) : string :=
  if n <? 10 then String.append "0" (pretty n) else pretty n.

(** *** dict, in insertion order *)

Definition dict (K V : Type) : Type := list (K * V).

Section Dict.
Context {K V : Type} `{EqDecision K}.

Fixpoint dict_get (k : K) (d : dict K V) : option V :=
  match d with
  | [] => None
  | (k', v) :: d' => if decide (k = k') then Some v else dict_get k d'
  end.

(** [d[k] = v]: an existing key keeps its place, a new one goes last. *)
Fixpoint dict_set (k : K) (v : V) (d : dict K V) : dict K V :=
  match d with
  | [] => [(k, v)]
  | (k', v') :: d' =>
      if decide (k = k') then (k', v) :: d' else (k', v') :: dict_set k v d'
  end.

Definition dict_keys (d : dict K V) : list K := map fst d.

End Dict.

(** *** sorting *)

(** [sorted(l, key=key, reverse=True)]: a stable sort that only asks
    whether one key is less than another.  Each element, taken from the
    last to the first, goes in front of the already sorted rest and
    moves right past the elements with a strictly greater key.  This is
    the list Python returns when [<] orders the keys (a strict weak
    order: integers, floats that are not NaN).  With a NaN among the
    keys the list Python returns depends on the comparisons its sort
    happens to make; it is still a permutation of [l], but it need not
    be this one. *)
Section Sort.
Context {A K : Type} (lt : K -> K -> bool) (key : A -> K).

Fixpoint insert_desc (x : A) (l : list A) : list A :=
  match l with
  | [] => [x]
  | y :: l' => if lt (key x) (key y) then y :: insert_desc x l' else x :: l
  end.

Definition sorted_desc (l : list A) : list A := foldr insert_desc [] l.

End Sort.

(** *** collections.Counter *)

Definition Counter_incr (c : dict string Z) (k : string) : dict string Z :=
  match dict_get k c with
  | Some n => dict_set k (n + 1) c
  | None => dict_set k 1 c
  end.

Definition Counter (l : list string) : dict string Z :=
  fold_left Counter_incr l [].

Definition most_common (n : nat) (c : dict string Z) : list (string * Z) :=
  take n (sorted_desc Z.ltb snd c).

(** [set(l)] for strings. *)
Definition set_of (l : list string) : gset string := list_to_set l.

(** The values found behind [Any] in the statistics bundles and in
    filter dictionaries. [VSet] is a [list(set(...))], whose order Python
    leaves to the hash of the strings; [VIssuerCounts] is a list of
    [{"issuer": i, "count": c}] dictionaries. *)
Inductive Val : Type :=
| VNone
| VInt (n : Z)
| VFloat (x : float)
| VStr (s : string)
| VSet (s : gset string)
| VCounter (c : dict string Z)
| VIssuerCounts (l : list (string * Z)).

End Py.
Import Py.

(** ** models.py *)

Module models.

Inductive RiskLevel : Type := VERY_LOW | LOW | MEDIUM | HIGH | VERY_HIGH.
Inductive ProductType : Type :=
  BOND | NOTE | CERTIFICATE | WARRANT | OPTION | FUTURE | SWAP | OTHER.
Inductive Currency : Type := EUR | USD | GBP | CHF | JPY.
Inductive Country : Type := FRANCE | BELGIUM.

#[global] Instance RiskLevel_eq_dec : EqDecision RiskLevel.
Proof. solve_decision. Defined.
#[global] Instance ProductType_eq_dec : EqDecision ProductType.
Proof. solve_decision. Defined.
#[global] Instance Currency_eq_dec : EqDecision Currency.
Proof. solve_decision. Defined.
#[global] Instance Country_eq_dec : EqDecision Country.
Proof. solve_decision. Defined.

(** An enumeration as the code uses it: its members in definition order
    (the order of [for m in E]) and the string [m.value] of each. *)
Class PyEnum (E : Type) : Type := {
  members : list E;
  value : E -> string
}.

#[global] Instance RiskLevel_enum : PyEnum RiskLevel := {|
  members := [VERY_LOW; LOW; MEDIUM; HIGH; VERY_HIGH];
  value m := match m with
             | VERY_LOW => "1" | LOW => "2" | MEDIUM => "3"
             | HIGH => "4" | VERY_HIGH => "5"
             end
|}.

#[global] Instance ProductType_enum : PyEnum ProductType := {|
  members := [BOND; NOTE; CERTIFICATE; WARRANT; OPTION; FUTURE; SWAP; OTHER];
  value m := match m with
             | BOND => "bond" | NOTE => "note" | CERTIFICATE => "certificate"
             | WARRANT => "warrant" | OPTION => "option" | FUTURE => "future"
             | SWAP => "swap" | OTHER => "other"
             end
|}.

#[global] Instance Currency_enum : PyEnum Currency := {|
  members := [EUR; USD; GBP; CHF; JPY];
  value m := match m with
             | EUR => "EUR" | USD => "USD" | GBP => "GBP"
             | CHF => "CHF" | JPY => "JPY"
             end
|}.

#[global] Instance Country_enum : PyEnum Country := {|
  members := [FRANCE; BELGIUM];
  value m := match m with FRANCE => "FR" | BELGIUM => "BE" end
|}.

(** [E(v)]: the member whose value is [v]. *)
Definition enum_of_value {E} `{PyEnum E} (v : string) : option E :=
  List.find (fun m => String.eqb (value m) v) members.

(** [datetime.date], compared field by field. *)
Record date : Type := mkdate { year : Z; month : Z; day : Z }.

Definition date_ltb (a b : date) : bool :=
  (year a <? year b)
  || ((year a =? year b)
      && ((month a <? month b) || ((month a =? month b) && (day a <? day b)))).

Definition date_eqb (a b : date) : bool :=
  (year a =? year b) && (month a =? month b) && (day a =? day b).

Definition date_leb (a b : date) : bool := date_ltb a b || date_eqb a b.

(** [datetime.datetime]: an instant. *)
Definition datetime : Type := Z.

Record SRPProduct : Type := {
  product_id : string;
  product_name : string;
  issuer : string;
  country : Country;
  currency : Currency;
  issue_date : date;
  maturity_date : option date;
  nominal_value : float;
  coupon_rate : option float;
  product_type : ProductType;
  underlying_asset : option string;
  risk_level : RiskLevel;
  rating : option string;
  isin : option string;
  cusip : option string;
  min_investment : option float;
  max_investment : option float;
  liquidity : option string;
  fees : option float;
  created_at : datetime;
  updated_at : datetime
}.

(** *** The validators of [SRPProduct] *)

Definition validate_nominal_value (v : float) : res float :=
  if PrimFloat.leb v 0
  then Raise (ValueError "La valeur nominale doit être positive")
  else Ok v.

Definition validate_coupon_rate (v : option float) : res (option float) :=
  match v with
  | Some x =>
      if PrimFloat.ltb x 0 || fgtb x 100
      then Raise (ValueError "Le taux de coupon doit être entre 0 et 100%")
      else Ok v
  | None => Ok v
  end.

(** [values_issue_date] is [values.get('issue_date')]: the issue date when
    that field was validated before, nothing when it was refused. *)
Definition validate_maturity_date (v : option date)
    (values_issue_date : option date) : res (option date) :=
  match v, values_issue_date with
  | Some m, Some i =>
      if date_leb m i
      then Raise (ValueError
        "La date d'échéance doit être postérieure à la date d'émission")
      else Ok v
  | _, _ => Ok v
  end.

(** *** Construction, as pydantic runs it

    The keyword arguments of [SRPProduct(...)]: [None] for a field that
    is not given; enumeration fields by their value.  Every argument is
    of the type its field declares: what pydantic does with an argument
    of another type (a conversion, or an error under that field) is not
    part of this model. *)
Record RawFields : Type := {
  raw_product_id : option string;
  raw_product_name : option string;
  raw_issuer : option string;
  raw_country : option string;
  raw_currency : option string;
  raw_issue_date : option date;
  raw_maturity_date : option date;
  raw_nominal_value : option float;
  raw_coupon_rate : option float;
  raw_product_type : option string;
  raw_underlying_asset : option string;
  raw_risk_level : option string;
  raw_rating : option string;
  raw_isin : option string;
  raw_cusip : option string;
  raw_min_investment : option float;
  raw_max_investment : option float;
  raw_liquidity : option string;
  raw_fees : option float;
  raw_created_at : option datetime;
  raw_updated_at : option datetime
}.

(** The outcome of one field: its validated value, or the message of the
    error recorded for it. *)
Definition fres (A : Type) : Type := (string + A)%type.

Definition field_value {A} (f : fres A) : option A :=
  match f with inr a => Some a | inl _ => None end.

Definition field_error {A} (name : string) (f : fres A) : list (string * string) :=
  match f with inr _ => [] | inl msg => [(name, msg)] end.

(** [Field(...)]: the field is required. *)
Definition required {A} (v : option A) : fres A :=
  match v with Some a => inr a | None => inl "field required" end.

(** The message for a value that no member has: it lists the values
    that are permitted, each as [repr] prints it. *)
Definition not_a_member {E} `{PyEnum E} : string :=
  String.append "value is not a valid enumeration member; permitted: "
    (String.concat ", "
       (map (fun m : E => String.append "'" (String.append (value m) "'")) members)).

Definition required_enum {E} `{PyEnum E} (v : option string) : fres E :=
  match v with
  | None => inl "field required"
  | Some s =>
      match enum_of_value s with
      | Some m => inr m
      | None => inl (not_a_member (E := E))
      end
  end.

(** A [@validator]: a [ValueError] becomes the field's error. *)
Definition run_validator {A} (r : res A) : fres A :=
  match r with
  | Ok a => inr a
  | Raise (ValueError msg) => inl msg
  | Raise _ => inl ""
  end.

(** The call [SRPProduct(...)] on [raw]. The fields are validated in the order of their
    declaration; each error is recorded under its field's name and a
    [ValidationError] with all of them is raised at the end. [now_created]
    and [now_updated] are the two readings of [datetime.now]. *)
Definition SRPProduct_new (now_created now_updated : datetime)
    (raw : RawFields) : res SRPProduct :=
  let f_product_id := required (raw_product_id raw) in
  let f_product_name := required (raw_product_name raw) in
  let f_issuer := required (raw_issuer raw) in
  let f_country : fres Country := required_enum (raw_country raw) in
  let f_currency : fres Currency := required_enum (raw_currency raw) in
  let f_issue_date := required (raw_issue_date raw) in
  let f_maturity_date :=
    run_validator
      (validate_maturity_date (raw_maturity_date raw) (field_value f_issue_date)) in
  let f_nominal_value :=
    match required (raw_nominal_value raw) with
    | inr v => run_validator (validate_nominal_value v)
    | inl msg => inl msg
    end in
  let f_coupon_rate := run_validator (validate_coupon_rate (raw_coupon_rate raw)) in
  let f_product_type : fres ProductType := required_enum (raw_product_type raw) in
  let f_risk_level : fres RiskLevel := required_enum (raw_risk_level raw) in
  let errors :=
   (field_error "product_id" f_product_id
    ++ field_error "product_name" f_product_name
    ++ field_error "issuer" f_issuer
    ++ field_error "country" f_country
    ++ field_error "currency" f_currency
    ++ field_error "issue_date" f_issue_date
    ++ field_error "maturity_date" f_maturity_date
    ++ field_error "nominal_value" f_nominal_value
    ++ field_error "coupon_rate" f_coupon_rate
    ++ field_error "product_type" f_product_type
    ++ field_error "risk_level" f_risk_level)%list in
  let built : option SRPProduct :=
    v_product_id ← field_value f_product_id;
    v_product_name ← field_value f_product_name;
    v_issuer ← field_value f_issuer;
    v_country ← field_value f_country;
    v_currency ← field_value f_currency;
    v_issue_date ← field_value f_issue_date;
    v_maturity_date ← field_value f_maturity_date;
    v_nominal_value ← field_value f_nominal_value;
    v_coupon_rate ← field_value f_coupon_rate;
    v_product_type ← field_value f_product_type;
    v_risk_level ← field_value f_risk_level;
    Some {|
      product_id := v_product_id;
      product_name := v_product_name;
      issuer := v_issuer;
      country := v_country;
      currency := v_currency;
      issue_date := v_issue_date;
      maturity_date := v_maturity_date;
      nominal_value := v_nominal_value;
      coupon_rate := v_coupon_rate;
      product_type := v_product_type;
      underlying_asset := raw_underlying_asset raw;
      risk_level := v_risk_level;
      rating := raw_rating raw;
      isin := raw_isin raw;
      cusip := raw_cusip raw;
      min_investment := raw_min_investment raw;
      max_investment := raw_max_investment raw;
      liquidity := raw_liquidity raw;
      fees := raw_fees raw;
      created_at := default now_created (raw_created_at raw);
      updated_at := default now_updated (raw_updated_at raw)
    |} in
  match built with
  | Some product => Ok product
  | None => Raise (ValidationError errors)
  end.

(** *** SRPProductList *)

Record SRPProductList : Type := {
  products : list SRPProduct;
  total_count : Z;
  countries : list Country;
  currencies : list Currency;
  date_range : dict string date
}.

Definition SRPProductList_new : SRPProductList := {|
  products := [];
  total_count := 0;
  countries := [];
  currencies := [];
  date_range := []
|}.

Definition add_product (self : SRPProductList) (product : SRPProduct)
    : SRPProductList :=
  let products' := (products self ++ [product])%list in
  {| products := products';
     total_count := len products';
     countries :=
       if bool_decide (country product ∈ countries self)
       then countries self
       else (countries self ++ [country product])%list;
     currencies :=
       if bool_decide (currency product ∈ currencies self)
       then currencies self
       else (currencies self ++ [currency product])%list;
     date_range := date_range self |}.

Definition get_products_by_country (self : SRPProductList) (c : Country)
    : list SRPProduct :=
  List.filter (fun p => bool_decide (country p = c)) (products self).

Definition get_products_by_currency (self : SRPProductList) (c : Currency)
    : list SRPProduct :=
  List.filter (fun p => bool_decide (currency p = c)) (products self).

Definition get_products_by_risk_level (self : SRPProductList) (r : RiskLevel)
    : list SRPProduct :=
  List.filter (fun p => bool_decide (risk_level p = r)) (products self).

(** *** SRPAnalysis *)

(** One statistics bundle: a [Dict[str, Any]]. *)
Abbreviation Stats := (dict string Val).

(** One element of [top_issuers]: a dictionary with exactly these keys. *)
Record IssuerEntry : Type := {
  e_issuer : string;
  e_count : Z;
  e_total_value : float;
  e_average_value : float;
  e_countries : gset string;
  e_currencies : gset string;
  e_product_types : gset string
}.

Record SRPAnalysis : Type := {
  total_products : Z;
  total_value : float;
  average_nominal_value : float;
  by_country : dict Country Stats;
  by_currency : dict Currency Stats;
  by_risk_level : dict RiskLevel Stats;
  by_product_type : dict ProductType Stats;
  top_issuers : list IssuerEntry;
  monthly_evolution : dict string Stats
}.

Definition SRPAnalysis_new : SRPAnalysis := {|
  total_products := 0;
  total_value := 0%float;
  average_nominal_value := 0%float;
  by_country := [];
  by_currency := [];
  by_risk_level := [];
  by_product_type := [];
  top_issuers := [];
  monthly_evolution := []
|}.

End models.
Import models.

(** ** analyzer.py *)

Module analyzer.

(** The analyzer object: the collection it last took and the analysis it
    keeps.  The analysis is created once, by [__init__]. *)
Record SRPAnalyzer : Type := {
  self_products : SRPProductList;
  self_analysis : SRPAnalysis
}.

(** [SRPAnalyzer(products)]; a model instance is always true, so
    [products or SRPProductList()] is [products] unless it is [None]. *)
Definition SRPAnalyzer_new (products : option SRPProductList) : SRPAnalyzer := {|
  self_products := default SRPProductList_new products;
  self_analysis := SRPAnalysis_new
|}.

Definition with_analysis (self : SRPAnalyzer) (f : SRPAnalysis -> SRPAnalysis)
    : SRPAnalyzer :=
  {| self_products := self_products self;
     self_analysis := f (self_analysis self) |}.

Definition nominal_values (l : list SRPProduct) : list float :=
  map nominal_value l.

Definition country_values (l : list SRPProduct) : gset string :=
  set_of (map (fun p => value (country p)) l).

Definition currency_values (l : list SRPProduct) : gset string :=
  set_of (map (fun p => value (currency p)) l).

Definition product_type_values (l : list SRPProduct) : gset string :=
  set_of (map (fun p => value (product_type p)) l).

Definition risk_distribution (l : list SRPProduct) : dict string Z :=
  Counter (map (fun p => value (risk_level p)) l).

(** [total / n].  The code divides by the length of a list it has found
    not empty or by a count that was incremented, so [n >= 1] and no
    [ZeroDivisionError] is raised. *)
Definition average (total : float) (n : Z) : float :=
  PrimFloat.div total (float_of_int n).

Definition _get_top_issuers (l : list SRPProduct) (limit : nat)
    : list (string * Z) :=
  most_common limit (Counter (map issuer l)).

Definition _calculate_average_coupon (l : list SRPProduct) : option float :=
  let coupons := omap coupon_rate l in
  match coupons with
  | [] => None
  | _ => Some (average (sum coupons) (len coupons))
  end.

Definition _analyze_basic_stats (self : SRPAnalyzer) : SRPAnalyzer :=
  let l := products (self_products self) in
  with_analysis self (fun a =>
    let total := sum (nominal_values l) in
    {| total_products := len l;
       total_value := total;
       average_nominal_value :=
         match l with
         | [] => average_nominal_value a
         | _ => average total (len l)
         end;
       by_country := by_country a;
       by_currency := by_currency a;
       by_risk_level := by_risk_level a;
       by_product_type := by_product_type a;
       top_issuers := top_issuers a;
       monthly_evolution := monthly_evolution a |}).

Definition country_stats (l : list SRPProduct) : Stats :=
  [ ("count", VInt (len l));
    ("total_value", VFloat (sum (nominal_values l)));
    ("average_value", VFloat (average (sum (nominal_values l)) (len l)));
    ("currencies", VSet (currency_values l));
    ("product_types", VSet (product_type_values l));
    ("risk_distribution", VCounter (risk_distribution l));
    ("top_issuers", VIssuerCounts (_get_top_issuers l 5)) ].

Definition currency_stats (l : list SRPProduct) : Stats :=
  [ ("count", VInt (len l));
    ("total_value", VFloat (sum (nominal_values l)));
    ("average_value", VFloat (average (sum (nominal_values l)) (len l)));
    ("countries", VSet (country_values l));
    ("product_types", VSet (product_type_values l));
    ("risk_distribution", VCounter (risk_distribution l)) ].

Definition risk_stats (l : list SRPProduct) : Stats :=
  [ ("count", VInt (len l));
    ("total_value", VFloat (sum (nominal_values l)));
    ("average_value", VFloat (average (sum (nominal_values l)) (len l)));
    ("countries", VSet (country_values l));
    ("currencies", VSet (currency_values l));
    ("product_types", VSet (product_type_values l));
    ("top_issuers", VIssuerCounts (_get_top_issuers l 3)) ].

Definition type_stats (l : list SRPProduct) : Stats :=
  [ ("count", VInt (len l));
    ("total_value", VFloat (sum (nominal_values l)));
    ("average_value", VFloat (average (sum (nominal_values l)) (len l)));
    ("countries", VSet (country_values l));
    ("currencies", VSet (currency_values l));
    ("risk_distribution", VCounter (risk_distribution l));
    ("average_coupon",
      match _calculate_average_coupon l with
      | Some x => VFloat x
      | None => VNone
      end) ].

(** The loop shared by the four [_analyze_by_*] methods: for each member
    of the enumeration, in order, the products of that member; when there
    are some, their bundle is stored under the member in the dictionary
    the analysis already holds. *)
Definition breakdown {E} `{EqDecision E} `{PyEnum E}
    (dim : SRPProduct -> E) (stats : list SRPProduct -> Stats)
    (l : list SRPProduct) (d : dict E Stats) : dict E Stats :=
  fold_left
    (fun d m =>
       match List.filter (fun p => bool_decide (dim p = m)) l with
       | [] => d
       | part => dict_set m (stats part) d
       end)
    members d.

Definition _analyze_by_country (self : SRPAnalyzer) : SRPAnalyzer :=
  let l := products (self_products self) in
  with_analysis self (fun a =>
    {| total_products := total_products a;
       total_value := total_value a;
       average_nominal_value := average_nominal_value a;
       by_country := breakdown country country_stats l (by_country a);
       by_currency := by_currency a;
       by_risk_level := by_risk_level a;
       by_product_type := by_product_type a;
       top_issuers := top_issuers a;
       monthly_evolution := monthly_evolution a |}).

Definition _analyze_by_currency (self : SRPAnalyzer) : SRPAnalyzer :=
  let l := products (self_products self) in
  with_analysis self (fun a =>
    {| total_products := total_products a;
       total_value := total_value a;
       average_nominal_value := average_nominal_value a;
       by_country := by_country a;
       by_currency := breakdown currency currency_stats l (by_currency a);
       by_risk_level := by_risk_level a;
       by_product_type := by_product_type a;
       top_issuers := top_issuers a;
       monthly_evolution := monthly_evolution a |}).

Definition _analyze_by_risk_level (self : SRPAnalyzer) : SRPAnalyzer :=
  let l := products (self_products self) in
  with_analysis self (fun a =>
    {| total_products := total_products a;
       total_value := total_value a;
       average_nominal_value := average_nominal_value a;
       by_country := by_country a;
       by_currency := by_currency a;
       by_risk_level := breakdown risk_level risk_stats l (by_risk_level a);
       by_product_type := by_product_type a;
       top_issuers := top_issuers a;
       monthly_evolution := monthly_evolution a |}).

Definition _analyze_by_product_type (self : SRPAnalyzer) : SRPAnalyzer :=
  let l := products (self_products self) in
  with_analysis self (fun a =>
    {| total_products := total_products a;
       total_value := total_value a;
       average_nominal_value := average_nominal_value a;
       by_country := by_country a;
       by_currency := by_currency a;
       by_risk_level := by_risk_level a;
       by_product_type := breakdown product_type type_stats l (by_product_type a);
       top_issuers := top_issuers a;
       monthly_evolution := monthly_evolution a |}).

(** The accumulator a [defaultdict] creates for a new issuer. *)
Record IssuerAcc : Type := {
  a_count : Z;
  a_total_value : float;
  a_countries : gset string;
  a_currencies : gset string;
  a_product_types : gset string
}.

Definition IssuerAcc_new : IssuerAcc := {|
  a_count := 0;
  a_total_value := 0%float;
  a_countries := ∅;
  a_currencies := ∅;
  a_product_types := ∅
|}.

Definition issuer_step (stats : dict string IssuerAcc) (p : SRPProduct)
    : dict string IssuerAcc :=
  let acc := default IssuerAcc_new (dict_get (issuer p) stats) in
  dict_set (issuer p)
    {| a_count := a_count acc + 1;
       a_total_value := PrimFloat.add (a_total_value acc) (nominal_value p);
       a_countries := {[ value (country p) ]} ∪ a_countries acc;
       a_currencies := {[ value (currency p) ]} ∪ a_currencies acc;
       a_product_types := {[ value (product_type p) ]} ∪ a_product_types acc |}
    stats.

Definition issuer_stats (l : list SRPProduct) : dict string IssuerAcc :=
  fold_left issuer_step l [].

Definition issuer_entry (item : string * IssuerAcc) : IssuerEntry :=
  let '(name, acc) := item in
  {| e_issuer := name;
     e_count := a_count acc;
     e_total_value := a_total_value acc;
     e_average_value := average (a_total_value acc) (a_count acc);
     e_countries := a_countries acc;
     e_currencies := a_currencies acc;
     e_product_types := a_product_types acc |}.

(** The list [top_issuers] before it is sorted. *)
Definition issuer_entries (l : list SRPProduct) : list IssuerEntry :=
  map issuer_entry (issuer_stats l).

(** [top_issuers.sort(key=..., reverse=True)] and [top_issuers[:10]].
    The order is the code's when no total is a NaN, which is so when
    every nominal value is positive; see [sorted_desc]. *)
Definition ranked_issuers (l : list SRPProduct) : list IssuerEntry :=
  take 10 (sorted_desc PrimFloat.ltb e_total_value (issuer_entries l)).

Definition _analyze_top_issuers (self : SRPAnalyzer) : SRPAnalyzer :=
  let l := products (self_products self) in
  with_analysis self (fun a =>
    {| total_products := total_products a;
       total_value := total_value a;
       average_nominal_value := average_nominal_value a;
       by_country := by_country a;
       by_currency := by_currency a;
       by_risk_level := by_risk_level a;
       by_product_type := by_product_type a;
       top_issuers := ranked_issuers l;
       monthly_evolution := monthly_evolution a |}).

Record MonthAcc : Type := {
  m_count : Z;
  m_total_value : float;
  m_countries : gset string;
  m_currencies : gset string
}.

Definition MonthAcc_new : MonthAcc := {|
  m_count := 0;
  m_total_value := 0%float;
  m_countries := ∅;
  m_currencies := ∅
|}.

(** [f"{d.year}-{d.month:02d}"]. *)
Definition month_key (d : date) : string :=
  String.append (pretty (year d)) (String.append "-" (format_02d (month d))).

Definition month_step (stats : dict string MonthAcc) (p : SRPProduct)
    : dict string MonthAcc :=
  let k := month_key (issue_date p) in
  let acc := default MonthAcc_new (dict_get k stats) in
  dict_set k
    {| m_count := m_count acc + 1;
       m_total_value := PrimFloat.add (m_total_value acc) (nominal_value p);
       m_countries := {[ value (country p) ]} ∪ m_countries acc;
       m_currencies := {[ value (currency p) ]} ∪ m_currencies acc |}
    stats.

Definition monthly_stats (l : list SRPProduct) : dict string MonthAcc :=
  fold_left month_step l [].

Definition month_bundle (acc : MonthAcc) : Stats :=
  [ ("count", VInt (m_count acc));
    ("total_value", VFloat (m_total_value acc));
    ("average_value",
      if 0 <? m_count acc
      then VFloat (average (m_total_value acc) (m_count acc))
      else VInt 0);
    ("countries", VSet (m_countries acc));
    ("currencies", VSet (m_currencies acc)) ].

Definition _analyze_temporal_evolution (self : SRPAnalyzer) : SRPAnalyzer :=
  let l := products (self_products self) in
  with_analysis self (fun a =>
    {| total_products := total_products a;
       total_value := total_value a;
       average_nominal_value := average_nominal_value a;
       by_country := by_country a;
       by_currency := by_currency a;
       by_risk_level := by_risk_level a;
       by_product_type := by_product_type a;
       top_issuers := top_issuers a;
       monthly_evolution :=
         fold_left (fun d item => dict_set (fst item) (month_bundle (snd item)) d)
           (monthly_stats l) (monthly_evolution a) |}).

(** [self.analyze_products(products)]: the analyzer afterwards and the
    analysis returned, which is the one the analyzer keeps.  A model
    instance is always true, so [products or self.products] is [products]
    unless it is [None], also for a collection without records. *)
Definition analyze_products (self : SRPAnalyzer)
    (products_arg : option SRPProductList) : SRPAnalyzer * SRPAnalysis :=
  let self :=
    {| self_products := default (self_products self) products_arg;
       self_analysis := self_analysis self |} in
  match products (self_products self) with
  | [] => (self, self_analysis self)
  | _ =>
      let self := _analyze_basic_stats self in
      let self := _analyze_by_country self in
      let self := _analyze_by_currency self in
      let self := _analyze_by_risk_level self in
      let self := _analyze_by_product_type self in
      let self := _analyze_top_issuers self in
      let self := _analyze_temporal_evolution self in
      (self, self_analysis self)
  end.

(** *** get_filtered_products *)

(** [s == v] for a string [s]: false for a value that is not a string. *)
Definition str_eq (s : string) (v : Val) : bool :=
  match v with
  | VStr t => String.eqb s t
  | _ => false
  end.

(** [x >= v] and [x <= v] for a float [x]: a [TypeError] when [v] is not
    a number. *)
Definition float_ge (x : float) (v : Val) : res bool :=
  match v with
  | VFloat b => Ok (fgeb x b)
  | VInt n => Ok (float_ge_int x n)
  | _ => Raise TypeError
  end.

Definition float_le (x : float) (v : Val) : res bool :=
  match v with
  | VFloat b => Ok (PrimFloat.leb x b)
  | VInt n => Ok (float_le_int x n)
  | _ => Raise TypeError
  end.

Section Filtering.

(** [str.lower], which the interpreter provides. *)
Variable lower : string -> string.

(** [v.lower() in s.lower()]: an [AttributeError] when [v] has no
    [lower]. *)
Definition lower_in (v : Val) (s : string) : res bool :=
  match v with
  | VStr t => Ok (contains (lower t) (lower s))
  | _ => Raise AttributeError
  end.

Definition get_filtered_products (self : SRPAnalyzer)
    (filters : option (gmap string Val)) : res (list SRPProduct) :=
  let filters : gmap string Val := default ∅ filters in
  let l := products (self_products self) in
  let l :=
    match filters !! "country" with
    | Some v => List.filter (fun p => str_eq (value (country p)) v) l
    | None => l
    end in
  let l :=
    match filters !! "currency" with
    | Some v => List.filter (fun p => str_eq (value (currency p)) v) l
    | None => l
    end in
  let l :=
    match filters !! "product_type" with
    | Some v => List.filter (fun p => str_eq (value (product_type p)) v) l
    | None => l
    end in
  let l :=
    match filters !! "risk_level" with
    | Some v => List.filter (fun p => str_eq (value (risk_level p)) v) l
    | None => l
    end in
  l <-- match filters !! "min_nominal_value" with
        | Some v => filterM (fun p => float_ge (nominal_value p) v) l
        | None => Ok l
        end ;;
  l <-- match filters !! "max_nominal_value" with
        | Some v => filterM (fun p => float_le (nominal_value p) v) l
        | None => Ok l
        end ;;
  match filters !! "issuer" with
  | Some v => filterM (fun p => lower_in v (issuer p)) l
  | None => Ok l
  end.

End Filtering.

(** *** generate_report

    The document is kept as the sequence of its parts, each with the
    values put in its slots; the markup and the layout of the numbers
    are left out. *)
Inductive Block : Type :=
| Header (generated : datetime)
| GeneralStats (n : Z) (total average : float)
| CountrySection (rows : list (string * Val * Val * Val))
| CurrencySection (rows : list (string * Val * Val))
| RiskSection (rows : list (string * string * Val * Val))
| IssuersSection (rows : list (string * Z * float * float)).

Inductive Report : Type :=
| NoData
| Html (blocks : list Block).

(** [stats[k]]. *)
Definition item (k : string) (stats : Stats) : res Val :=
  match dict_get k stats with
  | Some v => Ok v
  | None => Raise (KeyError k)
  end.

(** [f"{v:,.0f}"]: the value must be a number. *)
Definition format_f (v : Val) : res Val :=
  match v with
  | VFloat _ | VInt _ => Ok v
  | VStr _ => Raise (ValueError "Unknown format code 'f' for object of type 'str'")
  | _ => Raise TypeError
  end.

Fixpoint mapM {A B} (f : A -> res B) (l : list A) : res (list B) :=
  match l with
  | [] => Ok []
  | x :: l' =>
      y <-- f x ;;
      r <-- mapM f l' ;;
      Ok (y :: r)
  end.

Definition _generate_country_section (self : SRPAnalyzer) : res Block :=
  rows <-- mapM (fun '(c, stats) =>
                   n <-- item "count" stats ;;
                   t <-- bind (item "total_value" stats) format_f ;;
                   a <-- bind (item "average_value" stats) format_f ;;
                   Ok (value c, n, t, a))
                (by_country (self_analysis self)) ;;
  Ok (CountrySection rows).

Definition _generate_currency_section (self : SRPAnalyzer) : res Block :=
  rows <-- mapM (fun '(c, stats) =>
                   n <-- item "count" stats ;;
                   t <-- bind (item "total_value" stats) format_f ;;
                   Ok (value c, n, t))
                (by_currency (self_analysis self)) ;;
  Ok (CurrencySection rows).

Definition risk_labels : dict string string :=
  [ ("1", "Très faible"); ("2", "Faible"); ("3", "Moyen");
    ("4", "Élevé"); ("5", "Très élevé") ].

Definition _generate_risk_section (self : SRPAnalyzer) : res Block :=
  rows <-- mapM (fun '(r, stats) =>
                   let label := default "Inconnu" (dict_get (value r) risk_labels) in
                   n <-- item "count" stats ;;
                   t <-- bind (item "total_value" stats) format_f ;;
                   Ok (value r, label, n, t))
                (by_risk_level (self_analysis self)) ;;
  Ok (RiskSection rows).

Definition _generate_issuers_section (self : SRPAnalyzer) : Block :=
  IssuersSection
    (map (fun e => (e_issuer e, e_count e, e_total_value e, e_average_value e))
       (take 10 (top_issuers (self_analysis self)))).

(** A section that is added only [if d:], that is when [d] is not empty. *)
Definition when_nonempty {A B} (d : list A) (section : res B) : res (list B) :=
  match d with
  | [] => Ok []
  | _ => b <-- section ;; Ok [b]
  end.

Definition _generate_html_report (now : datetime) (self : SRPAnalyzer)
    : res (list Block) :=
  let a := self_analysis self in
  let html :=
    [ Header now;
      GeneralStats (total_products a) (total_value a) (average_nominal_value a) ] in
  s1 <-- when_nonempty (by_country a) (_generate_country_section self) ;;
  s2 <-- when_nonempty (by_currency a) (_generate_currency_section self) ;;
  s3 <-- when_nonempty (by_risk_level a) (_generate_risk_section self) ;;
  s4 <-- when_nonempty (top_issuers a) (Ok (_generate_issuers_section self)) ;;
  Ok (html ++ s1 ++ s2 ++ s3 ++ s4)%list.

(** [self.generate_report()]; [now] is the reading of [datetime.now] that
    dates the header.  Writing the document to a file is left out. *)
Definition generate_report (now : datetime) (self : SRPAnalyzer) : res Report :=
  if total_products (self_analysis self) =? 0
  then Ok NoData
  else blocks <-- _generate_html_report now self ;; Ok (Html blocks).

(** *** get_products_summary *)

(** [f"{n:04d}"] for a non-negative [n]. *)
Definition format_04d (n : Z) : string :=
  if n <? 10 then String.append "000" (pretty n)
  else if n <? 100 then String.append "00" (pretty n)
  else if n <? 1000 then String.append "0" (pretty n)
  else pretty n.

(** [d.isoformat()]: [YYYY-MM-DD]. *)
Definition isoformat (d : date) : string :=
  String.append (format_04d (year d))
    (String.append "-"
       (String.append (format_02d (month d))
          (String.append "-" (format_02d (day d))))).

(** [min] and [max] over dates of which [d] comes first: the best so far
    is replaced by a date that is strictly less, or strictly greater. *)
Definition min_date (d : date) (ds : list date) : date :=
  fold_left (fun best x => if date_ltb x best then x else best) ds d.

Definition max_date (d : date) (ds : list date) : date :=
  fold_left (fun best x => if date_ltb best x then x else best) ds d.

Definition risk_level_values (l : list SRPProduct) : gset string :=
  set_of (map (fun p => value (risk_level p)) l).

(** The values of the summary: numbers, the [list(set(...))] of strings
    and the dictionary of the two dates. *)
Inductive SummaryVal : Type :=
| SInt (n : Z)
| SFloat (x : float)
| SSet (s : gset string)
| SDict (d : dict string string).

Definition get_products_summary (self : SRPAnalyzer) : dict string SummaryVal :=
  match products (self_products self) with
  | [] => []
  | p :: ps =>
      let l := p :: ps in
      [ ("total_count", SInt (len l));
        ("date_range",
          SDict [ ("start", isoformat (min_date (issue_date p) (map issue_date ps)));
                  ("end", isoformat (max_date (issue_date p) (map issue_date ps))) ]);
        ("countries", SSet (country_values l));
        ("currencies", SSet (currency_values l));
        ("product_types", SSet (product_type_values l));
        ("risk_levels", SSet (risk_level_values l));
        ("total_nominal_value", SFloat (sum (nominal_values l)));
        ("average_nominal_value",
          SFloat (average (sum (nominal_values l)) (len l))) ]
  end.

End analyzer.
Import analyzer.

(** ** Sample records, from the test suite *)

Module samples.

Definition raw_bond : RawFields := {|
  raw_product_id := Some "TEST_001";
  raw_product_name := Some "Test Product 1";
  raw_issuer := Some "Test Bank A";
  raw_country := Some "FR";
  raw_currency := Some "EUR";
  raw_issue_date := Some (mkdate 2024 8 15);
  raw_maturity_date := None;
  raw_nominal_value := Some 10000%float;
  raw_coupon_rate := None;
  raw_product_type := Some "bond";
  raw_underlying_asset := None;
  raw_risk_level := Some "3";
  raw_rating := None;
  raw_isin := None;
  raw_cusip := None;
  raw_min_investment := None;
  raw_max_investment := None;
  raw_liquidity := None;
  raw_fees := None;
  raw_created_at := None;
  raw_updated_at := None
|}.

Definition bond : SRPProduct := {|
  product_id := "TEST_001";
  product_name := "Test Product 1";
  issuer := "Test Bank A";
  country := FRANCE;
  currency := EUR;
  issue_date := mkdate 2024 8 15;
  maturity_date := None;
  nominal_value := 10000%float;
  coupon_rate := None;
  product_type := BOND;
  underlying_asset := None;
  risk_level := MEDIUM;
  rating := None;
  isin := None;
  cusip := None;
  min_investment := None;
  max_investment := None;
  liquidity := None;
  fees := None;
  created_at := 0;
  updated_at := 0
|}.

Definition note : SRPProduct := {|
  product_id := "TEST_002";
  product_name := "Test Product 2";
  issuer := "Test Bank B";
  country := BELGIUM;
  currency := USD;
  issue_date := mkdate 2024 8 16;
  maturity_date := None;
  nominal_value := 15000%float;
  coupon_rate := None;
  product_type := NOTE;
  underlying_asset := None;
  risk_level := LOW;
  rating := None;
  isin := None;
  cusip := None;
  min_investment := None;
  max_investment := None;
  liquidity := None;
  fees := None;
  created_at := 0;
  updated_at := 0
|}.

(** A certificate of [bond]'s size from a third bank. *)
Definition certificate : SRPProduct := {|
  product_id := "TEST_003";
  product_name := "Test Product 3";
  issuer := "Test Bank C";
  country := FRANCE;
  currency := EUR;
  issue_date := mkdate 2024 9 2;
  maturity_date := None;
  nominal_value := 10000%float;
  coupon_rate := Some 2.5%float;
  product_type := CERTIFICATE;
  underlying_asset := None;
  risk_level := HIGH;
  rating := None;
  isin := None;
  cusip := None;
  min_investment := None;
  max_investment := None;
  liquidity := None;
  fees := None;
  created_at := 0;
  updated_at := 0
|}.

Definition collection (l : list SRPProduct) : SRPProductList :=
  fold_left add_product l SRPProductList_new.

(** [raw] with another identifier, name and issuer. *)
Definition with_strings (raw : RawFields) (id name iss : string) : RawFields := {|
  raw_product_id := Some id;
  raw_product_name := Some name;
  raw_issuer := Some iss;
  raw_country := raw_country raw;
  raw_currency := raw_currency raw;
  raw_issue_date := raw_issue_date raw;
  raw_maturity_date := raw_maturity_date raw;
  raw_nominal_value := raw_nominal_value raw;
  raw_coupon_rate := raw_coupon_rate raw;
  raw_product_type := raw_product_type raw;
  raw_underlying_asset := raw_underlying_asset raw;
  raw_risk_level := raw_risk_level raw;
  raw_rating := raw_rating raw;
  raw_isin := raw_isin raw;
  raw_cusip := raw_cusip raw;
  raw_min_investment := raw_min_investment raw;
  raw_max_investment := raw_max_investment raw;
  raw_liquidity := raw_liquidity raw;
  raw_fees := raw_fees raw;
  raw_created_at := raw_created_at raw;
  raw_updated_at := raw_updated_at raw
|}.

(** [raw] with another nominal value and coupon rate. *)
Definition with_numbers (raw : RawFields) (nominal : float) (coupon : option float)
    : RawFields := {|
  raw_product_id := raw_product_id raw;
  raw_product_name := raw_product_name raw;
  raw_issuer := raw_issuer raw;
  raw_country := raw_country raw;
  raw_currency := raw_currency raw;
  raw_issue_date := raw_issue_date raw;
  raw_maturity_date := raw_maturity_date raw;
  raw_nominal_value := Some nominal;
  raw_coupon_rate := coupon;
  raw_product_type := raw_product_type raw;
  raw_underlying_asset := raw_underlying_asset raw;
  raw_risk_level := raw_risk_level raw;
  raw_rating := raw_rating raw;
  raw_isin := raw_isin raw;
  raw_cusip := raw_cusip raw;
  raw_min_investment := raw_min_investment raw;
  raw_max_investment := raw_max_investment raw;
  raw_liquidity := raw_liquidity raw;
  raw_fees := raw_fees raw;
  raw_created_at := raw_created_at raw;
  raw_updated_at := raw_updated_at raw
|}.

End samples.
Import samples.

(** ** Order facts about binary64

    The comparisons of floats are specified through [Prim2SF]; a float
    that is not a NaN has a place on a line of integer triples, and [<]
    is the strict order of that line. *)

Module FloatOrder.

(** The place of a float that is not a NaN on a line of integer triples. *)
Definition sf_key (f : spec_float) : Z * Z * Z :=
  match f with
  | S754_infinity true => (-2, 0, 0)
  | S754_finite true m e => (-1, - e, Z.neg m)
  | S754_zero _ => (0, 0, 0)
  | S754_nan => (0, 0, 0)
  | S754_finite false m e => (1, e, Z.pos m)
  | S754_infinity false => (2, 0, 0)
  end.

Definition lex3 (a b : Z * Z * Z) : comparison :=
  let '(a1, a2, a3) := a in
  let '(b1, b2, b3) := b in
  match a1 ?= b1 with
  | Eq => match a2 ?= b2 with
          | Eq => a3 ?= b3
          | c => c
          end
  | c => c
  end.

Lemma SFcompare_lex3 f g :
  f <> S754_nan -> g <> S754_nan ->
  SFcompare f g = Some (lex3 (sf_key f) (sf_key g)).
Proof.
  intros Hf Hg.
  destruct f as [[]|[]| |[] m e], g as [[]|[]| |[] m' e']; try congruence; try reflexivity.
  cbn. rewrite Z.compare_opp.
  destruct (Z.compare_spec e e'), (Z.compare_spec e' e); try lia; reflexivity.
Qed.

Definition lt3 (a b : Z * Z * Z) : Prop :=
  a.1.1 < b.1.1 \/ (a.1.1 = b.1.1 /\ (a.1.2 < b.1.2 \/ (a.1.2 = b.1.2 /\ a.2 < b.2))).

Lemma lex3_Lt a b : lex3 a b = Lt <-> lt3 a b.
Proof.
  destruct a as [[a1 a2] a3], b as [[b1 b2] b3]. unfold lex3, lt3; simpl.
  destruct (Z.compare_spec a1 b1), (Z.compare_spec a2 b2), (Z.compare_spec a3 b3);
    split; intros; try lia; try congruence.
Qed.

Lemma lex3_Eq a b : lex3 a b = Eq <-> a = b.
Proof.
  destruct a as [[a1 a2] a3], b as [[b1 b2] b3]. unfold lex3; simpl.
  destruct (Z.compare_spec a1 b1), (Z.compare_spec a2 b2), (Z.compare_spec a3 b3);
    split; intros; try congruence; try (exfalso; inversion H2; lia); try (f_equal; [f_equal|]; lia).
Qed.

Lemma lex3_Gt a b : lex3 a b = Gt <-> lt3 b a.
Proof.
  destruct a as [[a1 a2] a3], b as [[b1 b2] b3]. unfold lex3, lt3; simpl.
  destruct (Z.compare_spec a1 b1), (Z.compare_spec a2 b2), (Z.compare_spec a3 b3);
    split; intros; try lia; try congruence.
Qed.

Lemma is_nan_false x : is_nan x = false <-> Prim2SF x <> S754_nan.
Proof.
  unfold is_nan. rewrite negb_false_iff, FloatAxioms.eqb_spec. unfold SFeqb.
  split.
  - intros H E. rewrite E in H. discriminate.
  - intros H. rewrite (SFcompare_lex3 _ _ H H).
    assert (lex3 (sf_key (Prim2SF x)) (sf_key (Prim2SF x)) = Eq) as -> by (by apply lex3_Eq).
    reflexivity.
Qed.

Lemma ltb_lt3 x y :
  PrimFloat.ltb x y = true <->
  Prim2SF x <> S754_nan /\ Prim2SF y <> S754_nan /\ lt3 (sf_key (Prim2SF x)) (sf_key (Prim2SF y)).
Proof.
  rewrite FloatAxioms.ltb_spec. unfold SFltb. split.
  - intros H.
    assert (Prim2SF x <> S754_nan) as Hx.
    { intros E. rewrite E in H. discriminate. }
    assert (Prim2SF y <> S754_nan) as Hy.
    { intros E. rewrite E in H. destruct (Prim2SF x) as [[]|[]| |[]]; discriminate. }
    rewrite (SFcompare_lex3 _ _ Hx Hy) in H.
    repeat split; try done. apply lex3_Lt.
    destruct (lex3 _ _); congruence.
  - intros (Hx & Hy & H). rewrite (SFcompare_lex3 _ _ Hx Hy).
    apply lex3_Lt in H. by rewrite H.
Qed.

Lemma ltb_false_lt3 x y :
  is_nan x = false -> is_nan y = false ->
  PrimFloat.ltb x y = false <-> ~ lt3 (sf_key (Prim2SF x)) (sf_key (Prim2SF y)).
Proof.
  intros Hx%is_nan_false Hy%is_nan_false. split.
  - intros H Hlt. assert (PrimFloat.ltb x y = true) by (apply ltb_lt3; done). congruence.
  - intros H. destruct (PrimFloat.ltb x y) eqn:E; [|done].
    apply ltb_lt3 in E. tauto.
Qed.

Lemma ltb_trans x y z :
  PrimFloat.ltb x y = true -> PrimFloat.ltb y z = true -> PrimFloat.ltb x z = true.
Proof.
  rewrite !ltb_lt3. unfold lt3. intros (? & ? & ?) (? & ? & ?). repeat split; try done. lia.
Qed.

Lemma ltb_irrefl x : PrimFloat.ltb x x = false.
Proof.
  destruct (PrimFloat.ltb x x) eqn:E; [|done].
  apply ltb_lt3 in E. unfold lt3 in E. lia.
Qed.

Lemma ltb_asym x y : PrimFloat.ltb x y = true -> PrimFloat.ltb y x = false.
Proof.
  intros H. destruct (PrimFloat.ltb y x) eqn:E; [|done].
  pose proof (ltb_trans _ _ _ H E) as H'. rewrite ltb_irrefl in H'. done.
Qed.

(** Among floats that are not NaN, "not less than" is transitive. *)
Lemma ltb_false_trans x y z :
  is_nan x = false -> is_nan y = false -> is_nan z = false ->
  PrimFloat.ltb x y = false -> PrimFloat.ltb y z = false -> PrimFloat.ltb x z = false.
Proof.
  intros Hx Hy Hz. rewrite !ltb_false_lt3 by done. unfold lt3. lia.
Qed.

Lemma leb_false_ltb x y :
  is_nan x = false -> is_nan y = false ->
  PrimFloat.leb x y = false -> PrimFloat.ltb y x = true.
Proof.
  intros Hx Hy. pose proof Hx as Hx'; pose proof Hy as Hy'.
  apply is_nan_false in Hx', Hy'.
  rewrite FloatAxioms.leb_spec. unfold SFleb. rewrite (SFcompare_lex3 _ _ Hx' Hy').
  intros H. apply ltb_lt3. repeat split; try done.
  apply lex3_Gt. destruct (lex3 _ _); congruence.
Qed.

(** Floats that are zero, positive or the positive infinity. *)
Definition sf_nonneg (f : spec_float) : Prop :=
  match f with
  | S754_zero _ | S754_infinity false | S754_finite false _ _ => True
  | _ => False
  end.

Lemma shr_1_nonneg mrs : 0 <= shr_m mrs -> 0 <= shr_m (shr_1 mrs).
Proof. destruct mrs as [[|[p|p|]|p] r s]; simpl; lia. Qed.

Lemma iter_pos_invariant {A} (P : A -> Prop) (f : A -> A) :
  (forall x, P x -> P (f x)) -> forall p x, P x -> P (SpecFloat.iter_pos f p x).
Proof.
  intros Hf p. induction p as [p IH|p IH|]; intros x Hx; simpl; auto.
Qed.

Lemma shr_fexp_nonneg prec emax m e l :
  0 <= m -> 0 <= shr_m (shr_fexp prec emax m e l).1.
Proof.
  intros Hm. unfold shr_fexp, shr.
  assert (0 <= shr_m (shr_record_of_loc m l)) as H0.
  { destruct l as [|[]]; simpl; lia. }
  destruct (fexp _ _ _ - e); simpl; try done.
  apply (iter_pos_invariant (fun r => 0 <= shr_m r)); [apply shr_1_nonneg | done].
Qed.

Lemma round_nearest_even_nonneg m l : 0 <= m -> 0 <= round_nearest_even m l.
Proof.
  intros Hm. destruct l as [|[]]; simpl; try lia.
  destruct (Z.even m); lia.
Qed.

Lemma binary_round_aux_nonneg prec emax m e l :
  0 <= m -> sf_nonneg (binary_round_aux prec emax false m e l).
Proof.
  intros Hm. unfold binary_round_aux.
  pose proof (shr_fexp_nonneg prec emax m e l Hm) as H1.
  destruct (shr_fexp prec emax m e l) as [mrs' e']. simpl in H1.
  pose proof (shr_fexp_nonneg prec emax _ e' loc_Exact
                (round_nearest_even_nonneg _ (loc_of_shr_record mrs') H1)) as H2.
  destruct (shr_fexp prec emax _ e' loc_Exact) as [mrs'' e'']. simpl in H2.
  destruct (shr_m mrs'') as [|p|p]; simpl;
    [done | destruct (e'' <=? emax - prec); done | lia].
Qed.

Lemma SFadd_nonneg prec emax x y :
  sf_nonneg x -> sf_nonneg y -> sf_nonneg (SFadd prec emax x y).
Proof.
  destruct x as [[]|[]| |[] mx ex], y as [[]|[]| |[] my ey]; simpl; try done.
  intros _ _. unfold binary_round.
  destruct (shl_align _ _ _) as [mz ez].
  apply binary_round_aux_nonneg. lia.
Qed.

Definition nonneg (x : float) : Prop := sf_nonneg (Prim2SF x).

Lemma nonneg_zero : nonneg 0%float.
Proof. exact I. Qed.

Lemma add_nonneg x y : nonneg x -> nonneg y -> nonneg (PrimFloat.add x y).
Proof. unfold nonneg. rewrite FloatAxioms.add_spec. apply SFadd_nonneg. Qed.

Lemma ltb_zero_nonneg x : PrimFloat.ltb 0 x = true -> nonneg x.
Proof.
  intros (_ & _ & H)%ltb_lt3. unfold nonneg.
  change (Prim2SF 0) with (S754_zero false) in H. unfold lt3 in H.
  destruct (Prim2SF x) as [[]|[]| |[] m e]; simpl in *; try done; lia.
Qed.

Lemma nonneg_not_nan x : nonneg x -> is_nan x = false.
Proof.
  intros H. apply is_nan_false. intros E. unfold nonneg in H. by rewrite E in H.
Qed.

Lemma fold_add_nonneg (l : list float) (acc : float) :
  nonneg acc -> Forall (fun x => PrimFloat.ltb 0 x = true) l ->
  nonneg (fold_left PrimFloat.add l acc).
Proof.
  revert acc. induction l as [|x l IH]; intros acc Hacc Hl; simpl; [done|].
  inversion Hl; subst. apply IH; [|done].
  apply add_nonneg; [done|]. by apply ltb_zero_nonneg.
Qed.

End FloatOrder.

(** ** SRPProduct: what construction guarantees *)

Example raw_bond_constructs : SRPProduct_new 0 0 raw_bond = Ok bond.
Proof. reflexivity. Qed.

(** A country value in lower case belongs to no member. *)
Example required_enum_message :
  required_enum (E := Country) (Some "fr")
  = inl "value is not a valid enumeration member; permitted: 'FR', 'BE'".
Proof. reflexivity. Qed.

Lemma date_leb_false_ltb (a b : date) : date_leb a b = false -> date_ltb b a = true.
Proof.
  unfold date_leb, date_ltb, date_eqb. destruct a as [y m d], b as [y' m' d']; simpl.
  intros H.
  destruct (Z.ltb_spec y y'), (Z.eqb_spec y y'), (Z.ltb_spec m m'), (Z.eqb_spec m m'),
    (Z.ltb_spec d d'), (Z.eqb_spec d d'); simpl in H; try discriminate; try lia;
  destruct (Z.ltb_spec y' y), (Z.eqb_spec y' y), (Z.ltb_spec m' m), (Z.eqb_spec m' m),
    (Z.ltb_spec d' d); simpl; try reflexivity; lia.
Qed.

(** A constructed record is made of the values its validators returned. *)
Lemma SRPProduct_new_fields now1 now2 raw p :
  SRPProduct_new now1 now2 raw = Ok p ->
  (exists v, raw_nominal_value raw = Some v /\ validate_nominal_value v = Ok (nominal_value p))
  /\ validate_coupon_rate (raw_coupon_rate raw) = Ok (coupon_rate p)
  /\ raw_issue_date raw = Some (issue_date p)
  /\ validate_maturity_date (raw_maturity_date raw) (Some (issue_date p))
     = Ok (maturity_date p).
Proof.
  unfold SRPProduct_new. intros H.
  destruct (raw_product_id raw); simpl in H; [|discriminate].
  destruct (raw_product_name raw); simpl in H; [|discriminate].
  destruct (raw_issuer raw); simpl in H; [|discriminate].
  destruct (required_enum (raw_country raw)) as [|c]; simpl in H; [discriminate|].
  destruct (required_enum (raw_currency raw)) as [|cu]; simpl in H; [discriminate|].
  destruct (raw_issue_date raw) as [i|]; simpl in H; [|discriminate].
  destruct (validate_maturity_date (raw_maturity_date raw) (Some i)) as [m|e] eqn:Hm;
    simpl in H; [|destruct e; discriminate].
  destruct (raw_nominal_value raw) as [v|]; simpl in H; [|discriminate].
  destruct (validate_nominal_value v) as [v'|e] eqn:Hv; simpl in H;
    [|destruct e; discriminate].
  destruct (validate_coupon_rate (raw_coupon_rate raw)) as [cr|e] eqn:Hc; simpl in H;
    [|destruct e; discriminate].
  destruct (required_enum (raw_product_type raw)) as [|pt]; simpl in H; [discriminate|].
  destruct (required_enum (raw_risk_level raw)) as [|rl]; simpl in H; [discriminate|].
  injection H as <-. simpl. split; [by exists v|done].
Qed.

(** The maturity date of a constructed record is later than its issue
    date. *)
Lemma SRPProduct_new_maturity now1 now2 raw p m :
  SRPProduct_new now1 now2 raw = Ok p ->
  maturity_date p = Some m ->
  date_ltb (issue_date p) m = true.
Proof.
  intros (_ & _ & _ & H)%SRPProduct_new_fields Hm.
  unfold validate_maturity_date in H.
  destruct (raw_maturity_date raw) as [m'|]; [|congruence].
  destruct (date_leb m' (issue_date p)) eqn:E; [discriminate|].
  injection H as H. rewrite <- H in Hm. injection Hm as <-.
  by apply date_leb_false_ltb.
Qed.

(** A nominal value that is a number is positive in a constructed
    record; a coupon rate that is a number lies in [0, 100]. *)
Lemma SRPProduct_new_nominal now1 now2 raw p :
  SRPProduct_new now1 now2 raw = Ok p ->
  is_nan (nominal_value p) = false ->
  PrimFloat.ltb 0 (nominal_value p) = true.
Proof.
  intros ((v & _ & H) & _)%SRPProduct_new_fields Hnan.
  unfold validate_nominal_value in H.
  destruct (PrimFloat.leb v 0) eqn:E; [discriminate|].
  injection H as H. rewrite <- H in *.
  apply FloatOrder.leb_false_ltb; [done | reflexivity | done].
Qed.

Lemma SRPProduct_new_coupon now1 now2 raw p c :
  SRPProduct_new now1 now2 raw = Ok p ->
  coupon_rate p = Some c ->
  PrimFloat.ltb c 0 = false /\ PrimFloat.ltb 100 c = false.
Proof.
  intros (_ & H & _)%SRPProduct_new_fields Hc.
  unfold validate_coupon_rate in H.
  destruct (raw_coupon_rate raw) as [x|]; [|congruence].
  destruct (PrimFloat.ltb x 0 || fgtb x 100) eqn:E; [discriminate|].
  injection H as H. rewrite <- H in Hc. injection Hc as <-.
  apply orb_false_iff in E. done.
Qed.

(** C1. Construction does not reject a nominal value or a coupon rate that
    is a NaN: with [nominal_value=float('nan')] and
    [coupon_rate=float('nan')] the record is built, and in it neither
    [nominal_value > 0] nor [0 <= coupon_rate <= 100] holds. *)
Theorem SRPProduct_new_accepts_nan :
  exists p,
    SRPProduct_new 0 0 (with_numbers raw_bond nan (Some nan)) = Ok p
    /\ nominal_value p = nan
    /\ fgtb (nominal_value p) 0 = false
    /\ coupon_rate p = Some nan
    /\ fgeb nan 0 && PrimFloat.leb nan 100 = false.
Proof. eexists. repeat split; reflexivity. Qed.

(** C2. Construction does not reject empty strings: with [product_id=""],
    [product_name=""] and [issuer=""] the record is built, and
    [add_product] stores it. *)
Theorem SRPProduct_new_accepts_empty_strings :
  exists p,
    SRPProduct_new 0 0 (with_strings raw_bond "" "" "") = Ok p
    /\ product_id p = "" /\ product_name p = "" /\ issuer p = ""
    /\ products (add_product SRPProductList_new p) = [p].
Proof. eexists. repeat split; reflexivity. Qed.

(** The strings of a record are never looked at: whatever raw fields
    construct a record still do with any other identifier, name and
    issuer. *)
Lemma SRPProduct_new_any_strings now1 now2 raw p id name iss :
  SRPProduct_new now1 now2 raw = Ok p ->
  exists q,
    SRPProduct_new now1 now2 (with_strings raw id name iss) = Ok q
    /\ product_id q = id /\ product_name q = name /\ issuer q = iss.
Proof.
  unfold SRPProduct_new. intros H.
  destruct (raw_product_id raw); simpl in H; [|discriminate].
  destruct (raw_product_name raw); simpl in H; [|discriminate].
  destruct (raw_issuer raw); simpl in H; [|discriminate].
  simpl.
  destruct (required_enum (raw_country raw)) as [|c]; simpl in *; [discriminate|].
  destruct (required_enum (raw_currency raw)) as [|cu]; simpl in *; [discriminate|].
  destruct (raw_issue_date raw) as [i|]; simpl in *; [|discriminate].
  destruct (run_validator (validate_maturity_date (raw_maturity_date raw) (Some i)));
    simpl in *; [discriminate|].
  destruct (raw_nominal_value raw) as [v|]; simpl in *; [|discriminate].
  destruct (run_validator (validate_nominal_value v)); simpl in *; [discriminate|].
  destruct (run_validator (validate_coupon_rate (raw_coupon_rate raw))); simpl in *;
    [discriminate|].
  destruct (required_enum (raw_product_type raw)) as [|pt]; simpl in *; [discriminate|].
  destruct (required_enum (raw_risk_level raw)) as [|rl]; simpl in *; [discriminate|].
  eexists. repeat split; reflexivity.
Qed.

(** ** SRPProductList *)

(** C10. [add_product] is a total function that appends the record to the
    collection whatever its identifier, and sets [total_count] to the
    number of stored records; adding a record twice stores it twice. *)
Theorem add_product_appends (l : SRPProductList) (p : SRPProduct) :
  products (add_product l p) = (products l ++ [p])%list
  /\ total_count (add_product l p) = len (products (add_product l p))
  /\ products (add_product (add_product l p) p) = (products l ++ [p; p])%list
  /\ total_count (add_product (add_product l p) p) = len (products l) + 2.
Proof.
  repeat split; simpl; try reflexivity.
  - by rewrite <- app_assoc.
  - unfold len. rewrite !length_app. simpl. lia.
Qed.

(** ** Dictionaries *)

Section DictFacts.
Context {K V : Type} `{EqDecision K}.
Implicit Types (k : K) (v : V) (d : dict K V).

Lemma dict_get_set_eq k v d : dict_get k (dict_set k v d) = Some v.
Proof.
  induction d as [|[k' v'] d IH]; simpl.
  - by rewrite decide_True.
  - destruct (decide (k = k')) as [->|Hne]; simpl.
    + by rewrite decide_True.
    + by rewrite decide_False.
Qed.

Lemma dict_get_set_ne k k' v d :
  k <> k' -> dict_get k (dict_set k' v d) = dict_get k d.
Proof.
  intros Hne. induction d as [|[k'' v''] d IH]; simpl.
  - by rewrite decide_False.
  - destruct (decide (k' = k'')) as [->|Hne']; simpl.
    + by rewrite !decide_False.
    + destruct (decide (k = k'')); done.
Qed.

End DictFacts.

(** ** The four breakdowns *)

Section Breakdown.
Context {E : Type} `{EqDecision E} `{PyEnum E}.
Variables (dim : SRPProduct -> E) (stats : list SRPProduct -> Stats).

Definition partition_of (l : list SRPProduct) (m : E) : list SRPProduct :=
  List.filter (fun p => bool_decide (dim p = m)) l.

Definition breakdown_step (l : list SRPProduct) (d : dict E Stats) (m : E)
    : dict E Stats :=
  match partition_of l m with
  | [] => d
  | part => dict_set m (stats part) d
  end.

Lemma breakdown_fold l ms d m :
  NoDup ms ->
  dict_get m (fold_left (breakdown_step l) ms d)
  = match partition_of l m with
    | [] => dict_get m d
    | part => if bool_decide (m ∈ ms) then Some (stats part) else dict_get m d
    end.
Proof.
  intros Hnd. revert d. induction Hnd as [|m' ms Hnotin Hnd IH]; intros d; simpl.
  - by destruct (partition_of l m).
  - rewrite IH. destruct (partition_of l m) as [|q part] eqn:Hm.
    + unfold breakdown_step. destruct (decide (m = m')) as [->|Hne].
      * by rewrite Hm.
      * destruct (partition_of l m'); [done|]. by rewrite dict_get_set_ne.
    + destruct (decide (m = m')) as [->|Hne].
      * rewrite (bool_decide_true (m' ∈ m' :: ms)) by apply list_elem_of_here.
        rewrite bool_decide_false by done.
        unfold breakdown_step. rewrite Hm. by rewrite dict_get_set_eq.
      * assert (bool_decide (m ∈ m' :: ms) = bool_decide (m ∈ ms)) as ->.
        { apply bool_decide_ext. rewrite elem_of_cons. tauto. }
        destruct (bool_decide (m ∈ ms)); [done|].
        unfold breakdown_step. destruct (partition_of l m'); [done|].
        by rewrite dict_get_set_ne.
Qed.

(** What [breakdown] leaves under a member of the enumeration: the bundle
    of its products when there are some, and otherwise whatever the
    dictionary held before. *)
Lemma breakdown_get l d m :
  NoDup (members (E := E)) -> m ∈ members (E := E) ->
  dict_get m (breakdown dim stats l d)
  = match partition_of l m with
    | [] => dict_get m d
    | part => Some (stats part)
    end.
Proof.
  intros Hnd Hin. unfold breakdown.
  change (dict_get m (fold_left (breakdown_step l) members d) = 
    match partition_of l m with [] => dict_get m d | part => Some (stats part) end).
  rewrite breakdown_fold by done. by rewrite bool_decide_true.
Qed.

End Breakdown.

Lemma Country_members_ok : NoDup (members (E := Country)) /\ forall m : Country, m ∈ members.
Proof.
  split; [apply (bool_decide_unpack _); reflexivity|].
  intros []; apply (bool_decide_unpack _); reflexivity.
Qed.

Lemma Currency_members_ok : NoDup (members (E := Currency)) /\ forall m : Currency, m ∈ members.
Proof.
  split; [apply (bool_decide_unpack _); reflexivity|].
  intros []; apply (bool_decide_unpack _); reflexivity.
Qed.

Lemma RiskLevel_members_ok :
  NoDup (members (E := RiskLevel)) /\ forall m : RiskLevel, m ∈ members.
Proof.
  split; [apply (bool_decide_unpack _); reflexivity|].
  intros []; apply (bool_decide_unpack _); reflexivity.
Qed.

Lemma ProductType_members_ok :
  NoDup (members (E := ProductType)) /\ forall m : ProductType, m ∈ members.
Proof.
  split; [apply (bool_decide_unpack _); reflexivity|].
  intros []; apply (bool_decide_unpack _); reflexivity.
Qed.

(** ** analyze_products *)

Lemma match_nonempty {A B} (l : list A) (x y : B) :
  l <> [] -> match l with [] => x | _ :: _ => y end = y.
Proof. by destruct l. Qed.

(** The analysis of a collection that has records, from any state of the
    analyzer: three scalars, the issuer ranking and four dictionaries
    that are updated, not rebuilt.  The collection is the one given to
    the call or, without one, the one the analyzer holds. *)
Lemma analyze_products_fields (a : SRPAnalyzer) (arg : option SRPProductList) :
  let l := default (self_products a) arg in
  products l <> [] ->
  let r := snd (analyze_products a arg) in
  let old := self_analysis a in
  total_products r = len (products l)
  /\ total_value r = sum (nominal_values (products l))
  /\ average_nominal_value r
     = average (sum (nominal_values (products l))) (len (products l))
  /\ by_country r = breakdown country country_stats (products l) (by_country old)
  /\ by_currency r = breakdown currency currency_stats (products l) (by_currency old)
  /\ by_risk_level r = breakdown risk_level risk_stats (products l) (by_risk_level old)
  /\ by_product_type r
     = breakdown product_type type_stats (products l) (by_product_type old)
  /\ top_issuers r = ranked_issuers (products l).
Proof.
  cbv zeta. intros Hne. unfold analyze_products. cbv zeta.
  change (self_products
            {| self_products := default (self_products a) arg;
               self_analysis := self_analysis a |})
    with (default (self_products a) arg).
  rewrite match_nonempty by done.
  change (snd (?x, ?y)) with y.
  split; [reflexivity|]. split; [reflexivity|]. split.
  { transitivity
      (match products (default (self_products a) arg) with
       | [] => average_nominal_value (self_analysis a)
       | _ :: _ =>
           average (sum (nominal_values (products (default (self_products a) arg))))
             (len (products (default (self_products a) arg)))
       end); [reflexivity | by rewrite match_nonempty]. }
  repeat split; reflexivity.
Qed.

Lemma analyze_products_nonempty (a : SRPAnalyzer) (l : SRPProductList) :
  products l <> [] ->
  let r := snd (analyze_products a (Some l)) in
  let old := self_analysis a in
  total_products r = len (products l)
  /\ total_value r = sum (nominal_values (products l))
  /\ average_nominal_value r
     = average (sum (nominal_values (products l))) (len (products l))
  /\ by_country r = breakdown country country_stats (products l) (by_country old)
  /\ by_currency r = breakdown currency currency_stats (products l) (by_currency old)
  /\ by_risk_level r = breakdown risk_level risk_stats (products l) (by_risk_level old)
  /\ by_product_type r
     = breakdown product_type type_stats (products l) (by_product_type old)
  /\ top_issuers r = ranked_issuers (products l).
Proof. exact (analyze_products_fields a (Some l)). Qed.

(** The analysis a new analyzer returns for a collection without
    records is the initial one. *)
Lemma analyze_products_new_empty po (l : SRPProductList) :
  products l = [] ->
  snd (analyze_products (SRPAnalyzer_new po) (Some l)) = SRPAnalysis_new.
Proof. intros Hl. unfold analyze_products. simpl. by rewrite Hl. Qed.

Lemma len_pos {A} (x : A) (l : list A) : (0 <? len (x :: l)) = true.
Proof. apply Z.ltb_lt. unfold len. simpl length. lia. Qed.

(** The figures of a new analyzer, for every collection. *)
Lemma analyze_products_new_basic_stats (po : option SRPProductList) (l : SRPProductList) :
  let r := snd (analyze_products (SRPAnalyzer_new po) (Some l)) in
  total_products r = len (products l)
  /\ total_value r = sum (nominal_values (products l))
  /\ average_nominal_value r
     = if 0 <? total_products r
       then average (total_value r) (total_products r)
       else 0%float.
Proof.
  cbv zeta.
  assert (products l = [] \/ products l <> []) as [Hl|Hne]
    by (destruct (products l); [by left | by right]).
  - rewrite analyze_products_new_empty by done. rewrite Hl. repeat split; reflexivity.
  - destruct (analyze_products_nonempty (SRPAnalyzer_new po) l Hne)
      as (H1 & H2 & H3 & _).
    rewrite H1, H2, H3. repeat split.
    destruct (products l) as [|p ps]; [done|]. by rewrite len_pos.
Qed.

(** What an analyzer in any state returns for a collection without
    records: the analysis it keeps, untouched. *)
Lemma analyze_products_early_return (a : SRPAnalyzer) (l : SRPProductList) :
  products l = [] -> snd (analyze_products a (Some l)) = self_analysis a.
Proof.
  intros Hl. unfold analyze_products. cbv zeta.
  change (self_products
            {| self_products := default (self_products a) (Some l);
               self_analysis := self_analysis a |})
    with l.
  by rewrite Hl.
Qed.

(** C3. [analyze_products] does not return the figures of the collection
    for every collection.  From any state of the analyzer it does for a
    collection that has records, and a new analyzer does for every
    collection: [total_products] is the number of records, [total_value]
    the sum of their nominal values, [average_nominal_value] the
    quotient when [total_products > 0] and [0] otherwise.  But an
    analyzer that analysed a bond before returns, for a collection
    without records, the count, the total and the mean of the bond. *)
Theorem analyze_products_basic_stats :
  (forall (a : SRPAnalyzer) (l : SRPProductList),
     products l <> [] ->
     let r := snd (analyze_products a (Some l)) in
     total_products r = len (products l)
     /\ total_value r = sum (nominal_values (products l))
     /\ average_nominal_value r
        = if 0 <? total_products r
          then average (total_value r) (total_products r)
          else 0%float)
  /\ (forall (po : option SRPProductList) (l : SRPProductList),
        let r := snd (analyze_products (SRPAnalyzer_new po) (Some l)) in
        total_products r = len (products l)
        /\ total_value r = sum (nominal_values (products l))
        /\ average_nominal_value r
           = if 0 <? total_products r
             then average (total_value r) (total_products r)
             else 0%float)
  /\ (let used :=
         fst (analyze_products (SRPAnalyzer_new None) (Some (collection [bond]))) in
       let r := snd (analyze_products used (Some SRPProductList_new)) in
       len (products SRPProductList_new) = 0
       /\ sum (nominal_values (products SRPProductList_new)) = 0%float
       /\ total_products r = 1
       /\ total_value r = 10000%float
       /\ average_nominal_value r = 10000%float).
Proof.
  split; [|split].
  - intros a l Hne. cbv zeta.
    destruct (analyze_products_nonempty a l Hne) as (H1 & H2 & H3 & _).
    rewrite H1, H2, H3. repeat split.
    destruct (products l) as [|p ps]; [done|]. by rewrite len_pos.
  - exact analyze_products_new_basic_stats.
  - cbv zeta. rewrite analyze_products_early_return by reflexivity.
    repeat split; vm_compute; reflexivity.
Qed.

(** C7. The analysis of a collection without records is not always the
    zero-valued one.  No error is raised: the call returns the analysis
    the analyzer keeps, untouched.  On a new analyzer (the collection
    given to the call, or to the constructor) that is the initial
    analysis: the three scalars are zero, and the five dictionaries and
    the issuer ranking are empty.  On an analyzer that analysed a bond
    before it is the analysis of the bond, with its figures, its bundles
    and its issuer. *)
Theorem analyze_products_empty_collection :
  (forall (a : SRPAnalyzer) (l : SRPProductList),
     products l = [] -> snd (analyze_products a (Some l)) = self_analysis a)
  /\ (forall (po : option SRPProductList) (n : Z) (cs : list Country)
        (cus : list Currency) (dr : dict string date),
        let empty := {| products := []; total_count := n; countries := cs;
                        currencies := cus; date_range := dr |} in
        let r := snd (analyze_products (SRPAnalyzer_new po) (Some empty)) in
        r = snd (analyze_products (SRPAnalyzer_new (Some empty)) None)
        /\ total_products r = 0
        /\ total_value r = 0%float
        /\ average_nominal_value r = 0%float
        /\ by_country r = [] /\ by_currency r = [] /\ by_risk_level r = []
        /\ by_product_type r = [] /\ monthly_evolution r = []
        /\ top_issuers r = [])
  /\ (let used :=
         fst (analyze_products (SRPAnalyzer_new None) (Some (collection [bond]))) in
       let r := snd (analyze_products used (Some SRPProductList_new)) in
       products SRPProductList_new = []
       /\ total_products r = 1
       /\ total_value r = 10000%float
       /\ average_nominal_value r = 10000%float
       /\ dict_keys (by_country r) = [FRANCE]
       /\ dict_keys (by_currency r) = [EUR]
       /\ dict_keys (by_risk_level r) = [MEDIUM]
       /\ dict_keys (by_product_type r) = [BOND]
       /\ dict_keys (monthly_evolution r) = ["2024-08"]
       /\ map e_issuer (top_issuers r) = ["Test Bank A"]).
Proof.
  split; [exact analyze_products_early_return|]. split.
  - intros po n cs cus dr. repeat split.
  - cbv zeta. rewrite analyze_products_early_return by reflexivity.
    repeat split; vm_compute; reflexivity.
Qed.

(** C8. The analysis depends on what the analyzer analysed before.  After
    the analysis of a French bond, the analysis of a collection holding
    one Belgian note still has the bundle of France, which a new analyzer
    does not report; and the analysis of an empty collection returns the
    figures of the bond. *)
Theorem analyze_products_keeps_earlier_results :
  let used := fst (analyze_products (SRPAnalyzer_new None) (Some (collection [bond]))) in
  let fresh := SRPAnalyzer_new None in
  let r_used := snd (analyze_products used (Some (collection [note]))) in
  let r_fresh := snd (analyze_products fresh (Some (collection [note]))) in
  r_used <> r_fresh
  /\ dict_keys (by_country r_used) = [FRANCE; BELGIUM]
  /\ dict_keys (by_country r_fresh) = [BELGIUM]
  /\ total_products (snd (analyze_products used (Some SRPProductList_new))) = 1
  /\ total_products (snd (analyze_products fresh (Some SRPProductList_new))) = 0.
Proof.
  cbv zeta. split; [|repeat split; vm_compute; reflexivity].
  intros Heq. apply (f_equal (fun r => dict_keys (by_country r))) in Heq.
  vm_compute in Heq. discriminate.
Qed.

(** ** The statistics bundles *)

(** The sets of a bundle hold the values seen in the partition. *)
Lemma elem_of_country_values l v :
  v ∈ country_values l <-> exists p, p ∈ l /\ value (country p) = v.
Proof.
  unfold country_values, set_of. rewrite elem_of_list_to_set, list_elem_of_In, in_map_iff.
  setoid_rewrite list_elem_of_In.
  split; [intros (p & Hv & Hp) | intros (p & Hp & Hv)]; exists p; done.
Qed.

Lemma elem_of_currency_values l v :
  v ∈ currency_values l <-> exists p, p ∈ l /\ value (currency p) = v.
Proof.
  unfold currency_values, set_of. rewrite elem_of_list_to_set, list_elem_of_In, in_map_iff.
  setoid_rewrite list_elem_of_In.
  split; [intros (p & Hv & Hp) | intros (p & Hp & Hv)]; exists p; done.
Qed.

Lemma elem_of_product_type_values l v :
  v ∈ product_type_values l <-> exists p, p ∈ l /\ value (product_type p) = v.
Proof.
  unfold product_type_values, set_of.
  rewrite elem_of_list_to_set, list_elem_of_In, in_map_iff.
  setoid_rewrite list_elem_of_In.
  split; [intros (p & Hv & Hp) | intros (p & Hp & Hv)]; exists p; done.
Qed.

(** A [Counter] gives each key the number of its occurrences, and has no
    entry for a key that does not occur. *)
Lemma Counter_snoc l k : Counter (l ++ [k]) = Counter_incr (Counter l) k.
Proof. unfold Counter. by rewrite fold_left_app. Qed.

Lemma Counter_get l k :
  dict_get k (Counter l)
  = let n := len (List.filter (String.eqb k) l) in
    if n =? 0 then None else Some n.
Proof.
  cbv zeta. unfold len. induction l as [|x l IH] using rev_ind; [done|].
  rewrite Counter_snoc, List.filter_app, length_app. unfold Counter_incr.
  set (n := length (List.filter (String.eqb k) l)) in *.
  simpl List.filter. destruct (String.eqb_spec k x) as [<-|Hne]; simpl length.
  - rewrite IH.
    assert ((Z.of_nat (n + 1) =? 0) = false) as -> by (apply Z.eqb_neq; lia).
    destruct (Z.eqb_spec (Z.of_nat n) 0) as [E|E];
      rewrite dict_get_set_eq; f_equal; lia.
  - rewrite Nat.add_0_r, <- IH.
    destruct (dict_get x (Counter l)); by rewrite dict_get_set_ne.
Qed.

(** The three figures every bundle starts with. *)
Definition has_figures (b : Stats) (part : list SRPProduct) : Prop :=
  dict_get "count" b = Some (VInt (len part))
  /\ dict_get "total_value" b = Some (VFloat (sum (nominal_values part)))
  /\ dict_get "average_value" b
     = Some (VFloat (average (sum (nominal_values part)) (len part))).

Lemma partition_nonempty {E} `{EqDecision E} (dim : SRPProduct -> E) l m :
  partition_of dim l m <> [] -> l <> [].
Proof. by intros H ->. Qed.

(** C5, as the code has it. For every non-empty partition of a
    categorical dimension the bundle holds the count, the sum and the
    mean of the nominal values.  The bundles of countries, currencies and
    product types hold besides the sets of values seen for the two other
    dimensions that are not the risk level, and a risk-level frequency
    distribution; the bundle of a risk level holds the sets of countries,
    currencies and product types seen, and no risk distribution. *)
Theorem breakdown_bundles (a : SRPAnalyzer) (l : SRPProductList) :
  let r := snd (analyze_products a (Some l)) in
  (forall c : Country,
     let part := partition_of country (products l) c in
     part <> [] ->
     exists b, dict_get c (by_country r) = Some b /\ has_figures b part
       /\ dict_get "currencies" b = Some (VSet (currency_values part))
       /\ dict_get "product_types" b = Some (VSet (product_type_values part))
       /\ dict_get "risk_distribution" b = Some (VCounter (risk_distribution part))
       /\ dict_keys b = ["count"; "total_value"; "average_value"; "currencies";
                         "product_types"; "risk_distribution"; "top_issuers"])
  /\ (forall c : Currency,
     let part := partition_of currency (products l) c in
     part <> [] ->
     exists b, dict_get c (by_currency r) = Some b /\ has_figures b part
       /\ dict_get "countries" b = Some (VSet (country_values part))
       /\ dict_get "product_types" b = Some (VSet (product_type_values part))
       /\ dict_get "risk_distribution" b = Some (VCounter (risk_distribution part))
       /\ dict_keys b = ["count"; "total_value"; "average_value"; "countries";
                         "product_types"; "risk_distribution"])
  /\ (forall k : RiskLevel,
     let part := partition_of risk_level (products l) k in
     part <> [] ->
     exists b, dict_get k (by_risk_level r) = Some b /\ has_figures b part
       /\ dict_get "countries" b = Some (VSet (country_values part))
       /\ dict_get "currencies" b = Some (VSet (currency_values part))
       /\ dict_get "product_types" b = Some (VSet (product_type_values part))
       /\ dict_get "risk_distribution" b = None
       /\ dict_keys b = ["count"; "total_value"; "average_value"; "countries";
                         "currencies"; "product_types"; "top_issuers"])
  /\ (forall t : ProductType,
     let part := partition_of product_type (products l) t in
     part <> [] ->
     exists b, dict_get t (by_product_type r) = Some b /\ has_figures b part
       /\ dict_get "countries" b = Some (VSet (country_values part))
       /\ dict_get "currencies" b = Some (VSet (currency_values part))
       /\ dict_get "risk_distribution" b = Some (VCounter (risk_distribution part))
       /\ dict_keys b = ["count"; "total_value"; "average_value"; "countries";
                         "currencies"; "risk_distribution"; "average_coupon"]).
Proof.
  cbv zeta. repeat split; intros m Hpart;
    pose proof (partition_nonempty _ _ _ Hpart) as Hne;
    destruct (analyze_products_nonempty a l Hne) as (_ & _ & _ & Hc & Hcu & Hr & Ht & _).
  - exists (country_stats (partition_of country (products l) m)).
    rewrite Hc, breakdown_get by apply Country_members_ok.
    fold (partition_of country (products l) m).
    destruct (partition_of country (products l) m); [done|]. repeat split.
  - exists (currency_stats (partition_of currency (products l) m)).
    rewrite Hcu, breakdown_get by apply Currency_members_ok.
    fold (partition_of currency (products l) m).
    destruct (partition_of currency (products l) m); [done|]. repeat split.
  - exists (risk_stats (partition_of risk_level (products l) m)).
    rewrite Hr, breakdown_get by apply RiskLevel_members_ok.
    fold (partition_of risk_level (products l) m).
    destruct (partition_of risk_level (products l) m); [done|]. repeat split.
  - exists (type_stats (partition_of product_type (products l) m)).
    rewrite Ht, breakdown_get by apply ProductType_members_ok.
    fold (partition_of product_type (products l) m).
    destruct (partition_of product_type (products l) m); [done|]. repeat split.
Qed.

Lemma breakdown_bundles_witness :
  let r := snd (analyze_products (SRPAnalyzer_new None) (Some (collection [bond; note]))) in
  (exists b, dict_get FRANCE (by_country r) = Some b
     /\ dict_get "count" b = Some (VInt 1)
     /\ dict_get "risk_distribution" b = Some (VCounter [("3", 1)]))
  /\ (exists b, dict_get MEDIUM (by_risk_level r) = Some b
     /\ dict_get "total_value" b = Some (VFloat 10000)
     /\ dict_get "risk_distribution" b = None).
Proof.
  cbv zeta.
  destruct (breakdown_bundles (SRPAnalyzer_new None) (collection [bond; note]))
    as (Hc & _ & Hr & _).
  split.
  - destruct (Hc FRANCE) as (b & Hb & (Hn & _) & _ & _ & Hd & _); [discriminate|].
    exists b. repeat split; assumption.
  - destruct (Hr MEDIUM) as (b & Hb & (_ & Hv & _) & _ & _ & _ & Hd & _); [discriminate|].
    exists b. repeat split; assumption.
Defined.

(** The claim as the specification states it fails on the bundle of a
    risk level, which has no risk-level frequency distribution. *)
Lemma risk_bundle_has_no_risk_distribution :
  let r := snd (analyze_products (SRPAnalyzer_new None) (Some (collection [bond]))) in
  exists b,
    dict_get MEDIUM (by_risk_level r) = Some b
    /\ dict_keys b = ["count"; "total_value"; "average_value"; "countries";
                      "currencies"; "product_types"; "top_issuers"]
    /\ dict_get "risk_distribution" b = None.
Proof. cbv zeta. eexists. split; [vm_compute; reflexivity|]. split; reflexivity. Qed.

(** ** get_filtered_products *)

Lemma filterM_pure {A} (cond : A -> res bool) (f : A -> bool) (l : list A) :
  (forall x, cond x = Ok (f x)) -> filterM cond l = Ok (List.filter f l).
Proof.
  intros Hc. induction l as [|x l IH]; simpl; [done|].
  rewrite Hc, IH. simpl. by destruct (f x).
Qed.

Lemma filter_filter {A} (f g : A -> bool) (l : list A) :
  List.filter f (List.filter g l) = List.filter (fun x => g x && f x) l.
Proof.
  induction l as [|x l IH]; simpl; [done|].
  destruct (g x); simpl; [destruct (f x)|]; by rewrite IH.
Qed.

Lemma filter_true {A} (l : list A) : List.filter (fun _ => true) l = l.
Proof. induction l as [|x l IH]; simpl; by rewrite ?IH. Qed.

Lemma filter_sublist {A} (f : A -> bool) (l : list A) : List.filter f l `sublist_of` l.
Proof.
  induction l as [|x l IH]; simpl; [done|].
  destruct (f x); by constructor.
Qed.

(** The predicates a filter dictionary asks for, in the words of the
    specification: each key that is present constrains one attribute, a
    key that is absent constrains nothing. *)
Definition holds (constraint : option Val) (test : Val -> bool) : bool :=
  match constraint with
  | Some v => test v
  | None => true
  end.

Definition at_least (x : float) (bound : Val) : bool :=
  match bound with
  | VFloat b => PrimFloat.leb b x
  | VInt n => float_ge_int x n
  | _ => false
  end.

Definition at_most (x : float) (bound : Val) : bool :=
  match bound with
  | VFloat b => PrimFloat.leb x b
  | VInt n => float_le_int x n
  | _ => false
  end.

Definition is_number (v : Val) : Prop :=
  match v with
  | VFloat _ | VInt _ => True
  | _ => False
  end.

Definition is_string (v : Val) : Prop :=
  match v with
  | VStr _ => True
  | _ => False
  end.


(** The bounds are numbers and the issuer pattern is a string. *)
Definition well_typed (filters : gmap string Val) : Prop :=
  (forall v, filters !! "min_nominal_value" = Some v -> is_number v)
  /\ (forall v, filters !! "max_nominal_value" = Some v -> is_number v)
  /\ (forall v, filters !! "issuer" = Some v -> is_string v).

Section FilteringFacts.
Variable lower : string -> string.

Definition issuer_contains (s : string) (pattern : Val) : bool :=
  match pattern with
  | VStr t => contains (lower t) (lower s)
  | _ => false
  end.

Definition satisfies (filters : gmap string Val) (p : SRPProduct) : bool :=
  holds (filters !! "country") (str_eq (value (country p)))
  && holds (filters !! "currency") (str_eq (value (currency p)))
  && holds (filters !! "product_type") (str_eq (value (product_type p)))
  && holds (filters !! "risk_level") (str_eq (value (risk_level p)))
  && holds (filters !! "min_nominal_value") (at_least (nominal_value p))
  && holds (filters !! "max_nominal_value") (at_most (nominal_value p))
  && holds (filters !! "issuer") (issuer_contains (issuer p)).

Lemma stage_pure (c : option Val) (test : SRPProduct -> Val -> bool) l :
  match c with
  | Some v => List.filter (fun p => test p v) l
  | None => l
  end = List.filter (fun p => holds c (test p)) l.
Proof. destruct c; simpl; [done | by rewrite filter_true]. Qed.

Lemma stage_raising (c : option Val) (cond : SRPProduct -> Val -> res bool)
    (test : SRPProduct -> Val -> bool) (ok : Val -> Prop) l :
  (forall v, c = Some v -> ok v) ->
  (forall p v, ok v -> cond p v = Ok (test p v)) ->
  match c with
  | Some v => filterM (fun p => cond p v) l
  | None => Ok l
  end = Ok (List.filter (fun p => holds c (test p)) l).
Proof.
  intros Hc Hcond. destruct c as [v|]; simpl; [|by rewrite filter_true].
  apply filterM_pure. intros p. apply Hcond. by apply Hc.
Qed.

Lemma get_filtered_products_typed self filters :
  well_typed filters ->
  get_filtered_products lower self (Some filters)
  = Ok (List.filter (satisfies filters) (products (self_products self))).
Proof.
  intros (Hmin & Hmax & Hiss). unfold get_filtered_products. simpl default.
  cbv zeta.
  rewrite !stage_pure.
  rewrite (stage_raising _ (fun p => float_ge (nominal_value p))
             (fun p => at_least (nominal_value p)) is_number _ Hmin)
    by (by intros p []).
  simpl bind.
  rewrite (stage_raising _ (fun p => float_le (nominal_value p))
             (fun p => at_most (nominal_value p)) is_number _ Hmax)
    by (by intros p []).
  simpl bind.
  rewrite (stage_raising _ (fun p v => lower_in lower v (issuer p))
             (fun p => issuer_contains (issuer p)) is_string _ Hiss)
    by (by intros p []).
  rewrite !filter_filter. f_equal. apply List.filter_ext. intros p.
  unfold satisfies. by rewrite !andb_assoc.
Qed.


End FilteringFacts.


(** [str.lower] on ASCII letters, for the examples. *)
Definition lower_ascii (s : string) : string :=
  string_of_list_ascii
    (map (fun c => let n := nat_of_ascii c in
                   if (65 <=? n)%nat && (n <=? 90)%nat then ascii_of_nat (n + 32) else c)
       (list_ascii_of_string s)).

Definition sample_filters : gmap string Val :=
  <["country" := VStr "FR"]>
    (<["min_nominal_value" := VInt 1000]>
       (<["issuer" := VStr "BANK"]> (<["sort_by" := VStr "name"]> ∅))).


(** A value of another type under a recognized key is not a predicate
    of the specification: the comparison or the call of [lower] raises
    as soon as a record is tested. *)
Example get_filtered_products_ill_typed :
  let self := fst (analyze_products (SRPAnalyzer_new None) (Some (collection [bond]))) in
  get_filtered_products lower_ascii self (Some {[ "issuer" := VNone ]})
  = Raise AttributeError
  /\ get_filtered_products lower_ascii self (Some {[ "min_nominal_value" := VStr "1000" ]})
     = Raise TypeError
  /\ get_filtered_products lower_ascii (SRPAnalyzer_new None)
       (Some {[ "issuer" := VNone ]})
     = Ok [].
Proof. cbv zeta. repeat split; vm_compute; reflexivity. Qed.

(** ** generate_report *)

(** A bundle the report can print: it has a count, and the figures that
    are laid out as numbers are numbers. *)
Definition numeric (b : Stats) (k : string) : Prop :=
  exists v, dict_get k b = Some v /\ is_number v.

Definition printable (with_average : bool) (b : Stats) : Prop :=
  is_Some (dict_get "count" b)
  /\ numeric b "total_value"
  /\ (with_average = true -> numeric b "average_value").

Definition renderable (a : SRPAnalysis) : Prop :=
  Forall (fun e => printable true e.2) (by_country a)
  /\ Forall (fun e => printable false e.2) (by_currency a)
  /\ Forall (fun e => printable false e.2) (by_risk_level a).

Definition country_row (e : Country * Stats) (row : string * Val * Val * Val) : Prop :=
  let '(name, n, t, avg) := row in
  name = value e.1
  /\ dict_get "count" e.2 = Some n
  /\ dict_get "total_value" e.2 = Some t
  /\ dict_get "average_value" e.2 = Some avg.

Definition currency_row (e : Currency * Stats) (row : string * Val * Val) : Prop :=
  let '(name, n, t) := row in
  name = value e.1
  /\ dict_get "count" e.2 = Some n
  /\ dict_get "total_value" e.2 = Some t.

Definition risk_row (e : RiskLevel * Stats) (row : string * string * Val * Val) : Prop :=
  let '(name, label, n, t) := row in
  name = value e.1
  /\ dict_get name risk_labels = Some label
  /\ dict_get "count" e.2 = Some n
  /\ dict_get "total_value" e.2 = Some t.

Definition issuer_row (e : IssuerEntry) : string * Z * float * float :=
  (e_issuer e, e_count e, e_total_value e, e_average_value e).

(** The section of a dimension: present when its dictionary has keys. *)
Definition section_if {A} (d : list A) (b : Block) : list Block :=
  match d with
  | [] => []
  | _ => [b]
  end.

(** The fields of the analysis the report reads. *)
Definition same_rendered_fields (a a' : SRPAnalysis) : Prop :=
  total_products a = total_products a'
  /\ total_value a = total_value a'
  /\ average_nominal_value a = average_nominal_value a'
  /\ by_country a = by_country a'
  /\ by_currency a = by_currency a'
  /\ by_risk_level a = by_risk_level a'
  /\ top_issuers a = top_issuers a'.

Lemma mapM_Forall2 {A B} (f : A -> res B) (R : A -> B -> Prop) (P : A -> Prop) l :
  (forall x, P x -> exists y, f x = Ok y /\ R x y) ->
  Forall P l -> exists rows, mapM f l = Ok rows /\ Forall2 R l rows.
Proof.
  intros Hf Hl. induction Hl as [|x l Hx Hl IH]; simpl.
  - exists []. by split.
  - destruct (Hf x Hx) as (y & -> & Hy). destruct IH as (rows & -> & Hrows).
    exists (y :: rows). split; [done | by constructor].
Qed.

Lemma item_numeric b k :
  numeric b k -> exists v, bind (item k b) format_f = Ok v /\ dict_get k b = Some v.
Proof.
  intros (v & Hv & Hn). exists v. unfold item. rewrite Hv. simpl.
  by destruct v.
Qed.

Lemma risk_label_defined (k : RiskLevel) :
  dict_get (value k) risk_labels = Some (default "Inconnu" (dict_get (value k) risk_labels)).
Proof. by destruct k. Qed.

Lemma country_section_renders self :
  Forall (fun e => printable true e.2) (by_country (self_analysis self)) ->
  exists rows, _generate_country_section self = Ok (CountrySection rows)
    /\ Forall2 country_row (by_country (self_analysis self)) rows.
Proof.
  intros H. unfold _generate_country_section.
  match goal with |- context [mapM ?f _] =>
    assert (forall e, printable true e.2 -> exists row, f e = Ok row /\ country_row e row)
      as Hf
  end.
  { intros [c b] ([n Hn] & Ht & Ha). simpl in *.
    destruct (item_numeric _ _ Ht) as (t & -> & Ht').
    destruct (item_numeric _ _ (Ha eq_refl)) as (a & -> & Ha').
    unfold item at 1. rewrite Hn. simpl. by eexists. }
  destruct (mapM_Forall2 _ _ _ _ Hf H) as (rows & -> & Hrows). by exists rows.
Qed.

Lemma currency_section_renders self :
  Forall (fun e => printable false e.2) (by_currency (self_analysis self)) ->
  exists rows, _generate_currency_section self = Ok (CurrencySection rows)
    /\ Forall2 currency_row (by_currency (self_analysis self)) rows.
Proof.
  intros H. unfold _generate_currency_section.
  match goal with |- context [mapM ?f _] =>
    assert (forall e, printable false e.2 -> exists row, f e = Ok row /\ currency_row e row)
      as Hf
  end.
  { intros [c b] ([n Hn] & Ht & _). simpl in *.
    destruct (item_numeric _ _ Ht) as (t & -> & Ht').
    unfold item at 1. rewrite Hn. simpl. by eexists. }
  destruct (mapM_Forall2 _ _ _ _ Hf H) as (rows & -> & Hrows). by exists rows.
Qed.

Lemma risk_section_renders self :
  Forall (fun e => printable false e.2) (by_risk_level (self_analysis self)) ->
  exists rows, _generate_risk_section self = Ok (RiskSection rows)
    /\ Forall2 risk_row (by_risk_level (self_analysis self)) rows.
Proof.
  intros H. unfold _generate_risk_section.
  match goal with |- context [mapM ?f _] =>
    assert (forall e, printable false e.2 -> exists row, f e = Ok row /\ risk_row e row)
      as Hf
  end.
  { intros [k b] ([n Hn] & Ht & _). simpl in *.
    destruct (item_numeric _ _ Ht) as (t & -> & Ht').
    unfold item at 1. rewrite Hn. simpl. eexists. split; [done|].
    simpl. repeat split; try done. apply risk_label_defined. }
  destruct (mapM_Forall2 _ _ _ _ Hf H) as (rows & -> & Hrows). by exists rows.
Qed.

Lemma when_nonempty_Ok {A} (d : list A) (section : res Block) (b : Block) :
  section = Ok b -> when_nonempty d section = Ok (section_if d b).
Proof. intros ->. by destruct d. Qed.

(** Every bundle the engine builds can be printed, so every analysis it
    returns can be rendered. *)
Lemma dict_set_Forall {K V} `{EqDecision K} (Q : V -> Prop) (k : K) (v : V)
    (d : dict K V) :
  Forall (fun e => Q e.2) d -> Q v -> Forall (fun e => Q e.2) (dict_set k v d).
Proof.
  intros Hd Hv. induction Hd as [|[k' v'] d Hx Hd IH]; simpl.
  - by repeat constructor.
  - destruct (decide (k = k')); by constructor.
Qed.

Lemma breakdown_Forall {E} `{EqDecision E} `{PyEnum E} (Q : Stats -> Prop)
    (dim : SRPProduct -> E) (stats : list SRPProduct -> Stats) l d :
  (forall part, Q (stats part)) ->
  Forall (fun e => Q e.2) d -> Forall (fun e => Q e.2) (breakdown dim stats l d).
Proof.
  intros Hstats. unfold breakdown. generalize (members (E := E)) as ms.
  intros ms. revert d. induction ms as [|m ms IH]; intros d Hd; simpl; [done|].
  apply IH. destruct (List.filter _ l); [done|]. by apply dict_set_Forall.
Qed.

Lemma printable_stats (with_average : bool) (stats : list SRPProduct -> Stats) :
  (forall part, exists n t a rest,
     stats part = ("count", VInt n) :: ("total_value", VFloat t)
                  :: ("average_value", VFloat a) :: rest) ->
  forall part, printable with_average (stats part).
Proof.
  intros Hs part. destruct (Hs part) as (n & t & a & rest & ->).
  split; [by eexists|]. split; [|intros _]; eexists; by split.
Qed.

Lemma renderable_new : renderable SRPAnalysis_new.
Proof. repeat split; constructor. Qed.

Lemma analyze_products_renderable (a : SRPAnalyzer) (arg : option SRPProductList) :
  renderable (self_analysis a) ->
  renderable (self_analysis (fst (analyze_products a arg)))
  /\ self_analysis (fst (analyze_products a arg)) = snd (analyze_products a arg).
Proof.
  intros (Hc & Hcu & Hr).
  assert (self_analysis (fst (analyze_products a arg)) = snd (analyze_products a arg))
    as Hsame.
  { unfold analyze_products. cbv zeta. by destruct (products _). }
  split; [|done]. rewrite Hsame.
  assert (products (default (self_products a) arg) = []
          \/ products (default (self_products a) arg) <> []) as [Hnil|Hne]
    by (destruct (products _); [by left | by right]).
  - unfold analyze_products. cbv zeta.
    change (self_products
              {| self_products := default (self_products a) arg;
                 self_analysis := self_analysis a |})
      with (default (self_products a) arg).
    rewrite Hnil. by repeat split.
  - destruct (analyze_products_fields a arg Hne) as (_ & _ & _ & H1 & H2 & H3 & _).
    unfold renderable. rewrite H1, H2, H3.
    repeat split; apply breakdown_Forall; try done;
      apply printable_stats; intros part; by do 4 eexists.
Qed.

(** C9, as the code has it. The report reads nothing but the analysis the
    analyzer keeps, and of it neither the product types nor the months.
    When [total_products] is zero the document is the single "no data"
    paragraph, without header or statistics.  Otherwise it is a header
    with the generation time and the overall statistics, followed by the
    sections of countries, currencies and risk levels, each with one
    subsection per key and each only when its dictionary is not empty,
    and by the issuer table, with up to ten rows, when the ranking is not
    empty; what is empty is left out, without a placeholder. *)
Theorem generate_report_sections (now : datetime) (self : SRPAnalyzer) :
  renderable (self_analysis self) ->
  let a := self_analysis self in
  (total_products a = 0 -> generate_report now self = Ok NoData)
  /\ (total_products a <> 0 ->
      exists countries currencies risks,
        generate_report now self
        = Ok (Html ([ Header now;
                      GeneralStats (total_products a) (total_value a)
                        (average_nominal_value a) ]
                    ++ section_if (by_country a) (CountrySection countries)
                    ++ section_if (by_currency a) (CurrencySection currencies)
                    ++ section_if (by_risk_level a) (RiskSection risks)
                    ++ section_if (top_issuers a)
                         (IssuersSection (map issuer_row (take 10 (top_issuers a))))))
        /\ Forall2 country_row (by_country a) countries
        /\ Forall2 currency_row (by_currency a) currencies
        /\ Forall2 risk_row (by_risk_level a) risks)
  /\ (forall other,
        same_rendered_fields (self_analysis other) a ->
        generate_report now other = generate_report now self).
Proof.
  intros (Hc & Hcu & Hr). cbv zeta. split; [|split].
  - intros H0. unfold generate_report. by rewrite H0.
  - intros Hn. unfold generate_report.
    destruct (Z.eqb_spec (total_products (self_analysis self)) 0); [done|].
    destruct (country_section_renders self Hc) as (cs & Hcs & Hcs').
    destruct (currency_section_renders self Hcu) as (cus & Hcus & Hcus').
    destruct (risk_section_renders self Hr) as (rs & Hrs & Hrs').
    exists cs, cus, rs. split; [|done].
    unfold _generate_html_report.
    rewrite (when_nonempty_Ok _ _ _ Hcs), (when_nonempty_Ok _ _ _ Hcus),
      (when_nonempty_Ok _ _ _ Hrs), (when_nonempty_Ok _ _ _ eq_refl).
    reflexivity.
  - intros other (H1 & H2 & H3 & H4 & H5 & H6 & H7).
    unfold generate_report, _generate_html_report, _generate_country_section,
      _generate_currency_section, _generate_risk_section, _generate_issuers_section.
    by rewrite H1, H2, H3, H4, H5, H6, H7.
Qed.

Lemma generate_report_sections_witness :
  let self := fst (analyze_products (SRPAnalyzer_new None) (Some (collection [bond]))) in
  renderable (self_analysis self)
  /\ generate_report 2024 self
     = Ok (Html [ Header 2024;
                  GeneralStats 1 10000 10000;
                  CountrySection [("FR", VInt 1, VFloat 10000, VFloat 10000)];
                  CurrencySection [("EUR", VInt 1, VFloat 10000)];
                  RiskSection [("3", "Moyen", VInt 1, VFloat 10000)];
                  IssuersSection [("Test Bank A", 1, 10000%float, 10000%float)] ])
  /\ generate_report 2024 (SRPAnalyzer_new None) = Ok NoData.
Proof.
  cbv zeta.
  pose proof (proj1 (analyze_products_renderable (SRPAnalyzer_new None)
                       (Some (collection [bond])) renderable_new)) as Hr.
  split; [exact Hr|].
  split; [vm_compute; reflexivity|].
  apply (proj1 (generate_report_sections 2024 (SRPAnalyzer_new None) renderable_new)).
  reflexivity.
Defined.

(** The claim as the specification states it fails on what the engine
    returns.  For a collection without records the document has no
    header and no statistics; for a collection with one record the
    breakdowns by product type and by month are not empty and have no
    section. *)
Lemma report_without_sections :
  let empty := fst (analyze_products (SRPAnalyzer_new None) (Some SRPProductList_new)) in
  let one := fst (analyze_products (SRPAnalyzer_new None) (Some (collection [bond]))) in
  generate_report 2024 empty = Ok NoData
  /\ dict_keys (by_product_type (self_analysis one)) = [BOND]
  /\ dict_keys (monthly_evolution (self_analysis one)) = ["2024-08"]
  /\ exists countries currencies risks issuers,
       generate_report 2024 one
       = Ok (Html [ Header 2024; GeneralStats 1 10000 10000;
                    CountrySection countries; CurrencySection currencies;
                    RiskSection risks; IssuersSection issuers ]).
Proof.
  cbv zeta. repeat split; try (vm_compute; reflexivity).
  do 4 eexists. vm_compute. reflexivity.
Qed.

(** ** Sorting in descending order *)

Section SortFacts.
Context {A K : Type} (lt : K -> K -> bool) (key : A -> K).

(** The keys that can be compared: among them [lt] is a strict weak
    order. *)
Variable comparable : K -> Prop.
Hypothesis lt_asym : forall a b, lt a b = true -> lt b a = false.
Hypothesis lt_false_trans :
  forall a b c, comparable a -> comparable b -> comparable c ->
    lt a b = false -> lt b c = false -> lt a c = false.

(** [x] may stand before [y]: its key is not the smaller one. *)
Definition not_below (x y : A) : Prop := lt (key x) (key y) = false.

(** [x] has a key that is neither smaller nor greater than [k]. *)
Definition tied (k : K) (x : A) : bool :=
  negb (lt (key x) k) && negb (lt k (key x)).

Lemma insert_desc_Permutation x l : insert_desc lt key x l ≡ₚ x :: l.
Proof.
  induction l as [|y l IH]; simpl; [done|].
  destruct (lt (key x) (key y)); [|done].
  rewrite IH. apply Permutation_swap.
Qed.

Lemma sorted_desc_Permutation l : sorted_desc lt key l ≡ₚ l.
Proof.
  induction l as [|x l IH]; simpl; [done|].
  by rewrite insert_desc_Permutation, IH.
Qed.

Lemma insert_desc_sorted x l :
  comparable (key x) -> Forall (fun y => comparable (key y)) l ->
  StronglySorted not_below l -> StronglySorted not_below (insert_desc lt key x l).
Proof.
  intros Hx Hl Hs. induction Hs as [|y l Hs IH Hy]; simpl.
  - repeat constructor.
  - inversion Hl as [|? ? Hcy Hcl]; subst.
    destruct (lt (key x) (key y)) eqn:E.
    + constructor; [by apply IH|].
      rewrite insert_desc_Permutation. constructor; [|done].
      by apply lt_asym.
    + constructor; [by constructor|]. constructor; [done|].
      rewrite Forall_forall in Hy, Hcl |- *. intros z Hz.
      apply (lt_false_trans _ (key y)); [done | done | by apply Hcl | done |].
      by apply Hy.
Qed.

Lemma sorted_desc_sorted l :
  Forall (fun y => comparable (key y)) l ->
  StronglySorted not_below (sorted_desc lt key l).
Proof.
  induction 1 as [|x l Hx Hl IH]; simpl; [constructor|].
  apply insert_desc_sorted; [done | | done].
  by rewrite sorted_desc_Permutation.
Qed.

Lemma insert_desc_tied k x l :
  comparable k -> comparable (key x) -> Forall (fun y => comparable (key y)) l ->
  List.filter (tied k) (insert_desc lt key x l) = List.filter (tied k) (x :: l).
Proof.
  intros Hk Hx Hl. induction Hl as [|y l Hy Hl IH]; [done|].
  simpl insert_desc. destruct (lt (key x) (key y)) eqn:E; [|done].
  change (List.filter (tied k) (y :: insert_desc lt key x l))
    with (if tied k y then y :: List.filter (tied k) (insert_desc lt key x l)
          else List.filter (tied k) (insert_desc lt key x l)).
  rewrite IH. simpl. destruct (tied k x) eqn:Tx, (tied k y) eqn:Ty; try done.
  (* both tied with [k], yet one below the other *)
  unfold tied in Tx, Ty.
  apply andb_true_iff in Tx as [Tx1 _]. apply andb_true_iff in Ty as [_ Ty2].
  apply negb_true_iff in Tx1, Ty2.
  rewrite (lt_false_trans (key x) k (key y)) in E; done.
Qed.

Lemma sorted_desc_stable k l :
  comparable k -> Forall (fun y => comparable (key y)) l ->
  List.filter (tied k) (sorted_desc lt key l) = List.filter (tied k) l.
Proof.
  intros Hk Hl. induction Hl as [|x l Hx Hl IH]; [done|].
  simpl sorted_desc. rewrite insert_desc_tied; try done.
  - simpl. by rewrite IH.
  - by rewrite sorted_desc_Permutation.
Qed.

End SortFacts.

Lemma StronglySorted_take {A} (R : A -> A -> Prop) n l :
  StronglySorted R l -> StronglySorted R (take n l).
Proof.
  intros Hs. revert n. induction Hs as [|x l Hs IH Hx]; intros [|n]; simpl;
    try constructor; [apply IH|].
  rewrite Forall_forall in Hx |- *. intros y Hy. apply Hx.
  eapply elem_of_prefix; [done | apply prefix_take].
Qed.

(** ** The issuer ranking *)

(** The names of a list in the order in which they are first met. *)
Fixpoint first_seen (l : list string) : list string :=
  match l with
  | [] => []
  | x :: l' => x :: List.filter (fun y => negb (String.eqb x y)) (first_seen l')
  end.

(** The records of an issuer: the issuer string is compared as it is. *)
Definition issued_by (name : string) (l : list SRPProduct) : list SRPProduct :=
  List.filter (fun p => String.eqb (issuer p) name) l.

(** The entry the specification asks for an issuer: the count, the total
    and the mean of the nominal values of its records, and the countries,
    currencies and product types seen among them. *)
Definition issuer_group (l : list SRPProduct) (name : string) : IssuerEntry :=
  let g := issued_by name l in
  {| e_issuer := name;
     e_count := len g;
     e_total_value := sum (nominal_values g);
     e_average_value := average (sum (nominal_values g)) (len g);
     e_countries := country_values g;
     e_currencies := currency_values g;
     e_product_types := product_type_values g |}.

Lemma elem_of_first_seen x l : x ∈ first_seen l <-> x ∈ l.
Proof.
  induction l as [|y l IH]; simpl; [done|].
  rewrite !elem_of_cons, <- IH, list_elem_of_In, filter_In, <- list_elem_of_In.
  destruct (String.eqb_spec y x) as [->|Hne]; simpl; [tauto|].
  split; [tauto|]. intros [->|H]; [done | tauto].
Qed.

Lemma first_seen_snoc l x :
  first_seen (l ++ [x])
  = if bool_decide (x ∈ l) then first_seen l else (first_seen l ++ [x])%list.
Proof.
  induction l as [|y l IH]; simpl; [done|].
  rewrite IH. destruct (decide (x = y)) as [->|Hne].
  - rewrite (bool_decide_true (y ∈ y :: l)) by apply list_elem_of_here.
    destruct (bool_decide (y ∈ l)); [done|].
    rewrite List.filter_app. simpl. rewrite String.eqb_refl. simpl.
    by rewrite app_nil_r.
  - assert (bool_decide (x ∈ y :: l) = bool_decide (x ∈ l)) as ->.
    { apply bool_decide_ext. rewrite elem_of_cons. tauto. }
    destruct (bool_decide (x ∈ l)); [done|].
    rewrite List.filter_app. simpl.
    destruct (String.eqb_spec y x) as [->|_]; [done|]. done.
Qed.

(** The accumulator of an issuer after its records [g]. *)
Definition group_acc (g : list SRPProduct) : IssuerAcc :=
  {| a_count := len g;
     a_total_value := sum (nominal_values g);
     a_countries := country_values g;
     a_currencies := currency_values g;
     a_product_types := product_type_values g |}.

Lemma set_of_snoc (l : list string) (x : string) : set_of (l ++ [x]) = {[ x ]} ∪ set_of l.
Proof. unfold set_of. rewrite list_to_set_snoc_L. apply union_comm_L. Qed.

Lemma group_acc_snoc g p :
  group_acc (g ++ [p])
  = {| a_count := a_count (group_acc g) + 1;
       a_total_value := PrimFloat.add (a_total_value (group_acc g)) (nominal_value p);
       a_countries := {[ value (country p) ]} ∪ a_countries (group_acc g);
       a_currencies := {[ value (currency p) ]} ∪ a_currencies (group_acc g);
       a_product_types := {[ value (product_type p) ]} ∪ a_product_types (group_acc g) |}.
Proof.
  unfold group_acc, country_values, currency_values, product_type_values, nominal_values, sum.
  rewrite !map_app. cbn [map]. rewrite !set_of_snoc, fold_left_app. cbn [fold_left].
  f_equal. unfold len. rewrite length_app. simpl. lia.
Qed.

Section DictOfNames.
Context {V : Type}.
Implicit Types (G : string -> V) (names : list string).

Lemma dict_get_names G names k :
  dict_get k (map (fun n => (n, G n)) names)
  = if bool_decide (k ∈ names) then Some (G k) else None.
Proof.
  induction names as [|n names IH]; simpl; [done|].
  destruct (decide (k = n)) as [->|Hne].
  - by rewrite bool_decide_true by apply list_elem_of_here.
  - rewrite IH. apply (f_equal (fun b : bool => if b then Some (G k) else None)).
    apply bool_decide_ext. rewrite elem_of_cons. tauto.
Qed.

Lemma dict_set_names G names k v :
  NoDup names ->
  dict_set k v (map (fun n => (n, G n)) names)
  = if bool_decide (k ∈ names)
    then map (fun n => (n, if decide (n = k) then v else G n)) names
    else (map (fun n => (n, G n)) names ++ [(k, v)])%list.
Proof.
  induction 1 as [|n names Hn Hnd IH]; simpl; [done|].
  destruct (decide (k = n)) as [->|Hne].
  - rewrite bool_decide_true by apply list_elem_of_here. simpl.
    rewrite decide_True by done. f_equal.
    apply map_ext_in. intros m Hm%list_elem_of_In.
    rewrite decide_False; [done | by intros ->].
  - rewrite IH.
    assert (bool_decide (k ∈ n :: names) = bool_decide (k ∈ names)) as ->.
    { apply bool_decide_ext. rewrite elem_of_cons. tauto. }
    destruct (bool_decide (k ∈ names)); simpl; [|done].
    rewrite decide_False; [done | by intros ->].
Qed.

End DictOfNames.

Lemma NoDup_first_seen l : NoDup (first_seen l).
Proof.
  induction l as [|x l IH]; simpl; constructor.
  - rewrite list_elem_of_In, filter_In. rewrite String.eqb_refl. simpl.
    intros [_ [=]].
  - apply NoDup_ListNoDup, List.NoDup_filter. by apply NoDup_ListNoDup.
Qed.

Lemma issued_by_snoc name l p :
  issued_by name (l ++ [p])
  = if String.eqb (issuer p) name then (issued_by name l ++ [p])%list
    else issued_by name l.
Proof.
  unfold issued_by. rewrite List.filter_app. simpl.
  destruct (String.eqb (issuer p) name); [done | by rewrite app_nil_r].
Qed.

Lemma issued_by_nil name l : name ∉ map issuer l -> issued_by name l = [].
Proof.
  intros Hn. induction l as [|p l IH]; [done|]. simpl in *.
  rewrite not_elem_of_cons in Hn. destruct Hn as [Hne Hn].
  unfold issued_by in *. simpl.
  destruct (String.eqb_spec (issuer p) name); [congruence | by apply IH].
Qed.

Lemma issuer_stats_snoc l p :
  issuer_stats (l ++ [p]) = issuer_step (issuer_stats l) p.
Proof. unfold issuer_stats. by rewrite fold_left_app. Qed.

(** The accumulation over the collection groups the records by issuer,
    the issuers in the order they are first met. *)
Lemma issuer_stats_groups l :
  issuer_stats l
  = map (fun name => (name, group_acc (issued_by name l))) (first_seen (map issuer l)).
Proof.
  induction l as [|p l IH] using rev_ind; [done|].
  rewrite issuer_stats_snoc, IH, map_app. cbn [map]. rewrite first_seen_snoc.
  unfold issuer_step. rewrite dict_get_names, dict_set_names by apply NoDup_first_seen.
  assert (default IssuerAcc_new
            (if bool_decide (issuer p ∈ first_seen (map issuer l))
             then Some (group_acc (issued_by (issuer p) l)) else None)
          = group_acc (issued_by (issuer p) l)) as ->.
  { destruct (bool_decide (issuer p ∈ first_seen (map issuer l))) eqn:E; [done|].
    apply bool_decide_eq_false in E. rewrite elem_of_first_seen in E.
    by rewrite issued_by_nil. }
  rewrite <- group_acc_snoc.
  assert (bool_decide (issuer p ∈ first_seen (map issuer l))
          = bool_decide (issuer p ∈ map issuer l)) as ->.
  { apply bool_decide_ext, elem_of_first_seen. }
  destruct (bool_decide (issuer p ∈ map issuer l)) eqn:E.
  - apply map_ext. intros name. rewrite issued_by_snoc.
    destruct (decide (name = issuer p)) as [->|Hne].
    + by rewrite String.eqb_refl.
    + destruct (String.eqb_spec (issuer p) name); [congruence | done].
  - apply bool_decide_eq_false in E. rewrite map_app. simpl. f_equal.
    + apply map_ext_in. intros name Hin.
      apply list_elem_of_In in Hin. rewrite elem_of_first_seen in Hin.
      rewrite issued_by_snoc.
      destruct (String.eqb_spec (issuer p) name) as [<-|]; done.
    + by rewrite issued_by_snoc, String.eqb_refl.
Qed.

Lemma issuer_entries_groups l :
  issuer_entries l = map (issuer_group l) (first_seen (map issuer l)).
Proof.
  unfold issuer_entries. rewrite issuer_stats_groups, map_map. done.
Qed.

(** The totals of valid records are not NaN. *)
Lemma issuer_group_total_not_nan l name :
  Forall (fun p => fgtb (nominal_value p) 0 = true) l ->
  is_nan (e_total_value (issuer_group l name)) = false.
Proof.
  intros Hl. apply FloatOrder.nonneg_not_nan. simpl. unfold sum.
  apply FloatOrder.fold_add_nonneg; [apply FloatOrder.nonneg_zero|].
  unfold nominal_values, issued_by. apply Forall_map.
  rewrite Forall_forall in Hl |- *. intros p Hp.
  apply Hl. apply list_elem_of_In in Hp. apply filter_In in Hp as [Hp _].
  by apply list_elem_of_In.
Qed.

(** The total nominal value orders the ranking. *)
Definition ranked_before : IssuerEntry -> IssuerEntry -> Prop :=
  not_below PrimFloat.ltb e_total_value.

Definition same_total (k : float) : IssuerEntry -> bool :=
  tied PrimFloat.ltb e_total_value k.

(** [top] ranks [groups]: it has at most ten entries, none with a
    smaller total than one that follows, and it is the first ten of an
    arrangement of all the groups that is ordered in the same way and in
    which the entries of equal total keep the order they have in
    [groups]. *)
Definition ranking_of (groups top : list IssuerEntry) : Prop :=
  (length top <= 10)%nat
  /\ StronglySorted ranked_before top
  /\ exists ranked,
       top = take 10 ranked
       /\ ranked ≡ₚ groups
       /\ StronglySorted ranked_before ranked
       /\ forall k, is_nan k = false ->
            List.filter (same_total k) ranked = List.filter (same_total k) groups.

Lemma ranked_issuers_ranking (l : list SRPProduct) :
  Forall (fun p => fgtb (nominal_value p) 0 = true) l ->
  ranking_of (map (issuer_group l) (first_seen (map issuer l))) (ranked_issuers l).
Proof.
  intros Hl. unfold ranked_issuers. rewrite issuer_entries_groups.
  set (groups := map (issuer_group l) (first_seen (map issuer l))).
  assert (Forall (fun e => is_nan (e_total_value e) = false) groups) as Hg.
  { apply Forall_map, Forall_forall. intros name _.
    by apply issuer_group_total_not_nan. }
  assert (StronglySorted ranked_before
            (sorted_desc PrimFloat.ltb e_total_value groups)) as Hs.
  { apply (sorted_desc_sorted _ _ (fun k => is_nan k = false));
      [apply FloatOrder.ltb_asym | apply FloatOrder.ltb_false_trans | done]. }
  split; [apply firstn_le_length|].
  split; [by apply StronglySorted_take|].
  exists (sorted_desc PrimFloat.ltb e_total_value groups). split; [done|].
  split; [apply sorted_desc_Permutation|]. split; [done|].
  - intros k Hk.
    apply (sorted_desc_stable _ _ (fun k => is_nan k = false));
      [apply FloatOrder.ltb_false_trans | done | done].
Qed.

(** The ranking a collection with records gets, from any state of the
    analyzer. *)
Lemma analyze_products_ranking (a : SRPAnalyzer) (l : SRPProductList) :
  products l <> [] ->
  Forall (fun p => fgtb (nominal_value p) 0 = true) (products l) ->
  ranking_of
    (map (issuer_group (products l)) (first_seen (map issuer (products l))))
    (top_issuers (snd (analyze_products a (Some l)))).
Proof.
  intros Hne Hl.
  destruct (analyze_products_nonempty a l Hne) as (_ & _ & _ & _ & _ & _ & _ & ->).
  by apply ranked_issuers_ranking.
Qed.

Lemma analyze_products_new_ranking (po : option SRPProductList) (l : SRPProductList) :
  Forall (fun p => fgtb (nominal_value p) 0 = true) (products l) ->
  ranking_of
    (map (issuer_group (products l)) (first_seen (map issuer (products l))))
    (top_issuers (snd (analyze_products (SRPAnalyzer_new po) (Some l)))).
Proof.
  intros Hl.
  assert (products l = [] \/ products l <> []) as [Hnil|Hne]
    by (destruct (products l); [by left | by right]).
  - rewrite analyze_products_new_empty by done. rewrite Hnil.
    by apply (ranked_issuers_ranking []).
  - by apply analyze_products_ranking.
Qed.

Lemma analyze_products_ranking_of_samples :
  let l := collection [bond; note; certificate] in
  Forall (fun p => fgtb (nominal_value p) 0 = true) (products l)
  /\ ranking_of
       (map (issuer_group (products l)) (first_seen (map issuer (products l))))
       (top_issuers (snd (analyze_products (SRPAnalyzer_new None) (Some l)))).
Proof.
  cbv zeta.
  assert (Forall (fun p => fgtb (nominal_value p) 0 = true)
            (products (collection [bond; note; certificate]))) as H.
  { repeat constructor. }
  split; [exact H|]. exact (analyze_products_new_ranking None _ H).
Defined.

(** C4. [top_issuers] is not always the ranking of the collection that
    was analysed.  For records with a positive nominal value it is, from
    any state of the analyzer when the collection has records and on a
    new analyzer for every collection: the groups of the full collection
    by issuer, the issuer strings compared as they are, at most ten
    entries in descending order of total nominal value, the issuers of
    equal total in the order they are first met, each entry with the
    count, the total, the mean and the countries, currencies and product
    types of its issuer.  But an analyzer that analysed a bond before
    returns, for a collection without records, the entry of the bond's
    issuer, which is no issuer of the collection. *)
Theorem top_issuers_ranking :
  (forall (a : SRPAnalyzer) (l : SRPProductList),
     products l <> [] ->
     Forall (fun p => fgtb (nominal_value p) 0 = true) (products l) ->
     ranking_of
       (map (issuer_group (products l)) (first_seen (map issuer (products l))))
       (top_issuers (snd (analyze_products a (Some l)))))
  /\ (forall (po : option SRPProductList) (l : SRPProductList),
        Forall (fun p => fgtb (nominal_value p) 0 = true) (products l) ->
        ranking_of
          (map (issuer_group (products l)) (first_seen (map issuer (products l))))
          (top_issuers (snd (analyze_products (SRPAnalyzer_new po) (Some l)))))
  /\ (let used :=
         fst (analyze_products (SRPAnalyzer_new None) (Some (collection [bond]))) in
       let l := SRPProductList_new in
       let r := snd (analyze_products used (Some l)) in
       map issuer (products l) = []
       /\ map e_issuer (top_issuers r) = ["Test Bank A"]
       /\ ~ ranking_of
             (map (issuer_group (products l)) (first_seen (map issuer (products l))))
             (top_issuers r)).
Proof.
  split; [exact analyze_products_ranking|]. split; [exact analyze_products_new_ranking|].
  cbv zeta. rewrite analyze_products_early_return by reflexivity.
  split; [reflexivity|].
  assert (map e_issuer
            (top_issuers
               (self_analysis
                  (fst (analyze_products (SRPAnalyzer_new None)
                          (Some (collection [bond]))))))
          = ["Test Bank A"]) as Htop by (vm_compute; reflexivity).
  split; [exact Htop|].
  intros (_ & _ & ranked & Hcut & Hperm & _).
  apply Permutation_nil_r in Hperm. rewrite Hperm in Hcut.
  rewrite Hcut in Htop. discriminate.
Qed.

(** The ranking of the three sample records: the greatest total first,
    then the two banks of equal total in the order of their first
    record. *)
Example top_issuers_of_samples :
  map (fun e => (e_issuer e, e_count e, e_total_value e))
    (top_issuers (snd (analyze_products (SRPAnalyzer_new None)
                         (Some (collection [bond; note; certificate])))))
  = [ ("Test Bank B", 1, 15000%float);
      ("Test Bank A", 1, 10000%float);
      ("Test Bank C", 1, 10000%float) ].
Proof. vm_compute. reflexivity. Qed.

(** * Further properties of the code *)

(** ** models.py: enumerations and construction *)

Lemma enum_of_value_sound {E} `{PyEnum E} (s : string) (m : E) :
  enum_of_value s = Some m -> value m = s.
Proof.
  unfold enum_of_value. intros Hf. apply find_some in Hf as [_ Hv].
  by apply String.eqb_eq.
Qed.

(** X1. An enumeration member is found again from its value, for each of
    the four enumerations, and a string is accepted only as the value of
    the member it yields: the values of an enumeration are distinct. *)
Theorem enum_value_round_trip :
  (forall m : Country, enum_of_value (value m) = Some m)
  /\ (forall m : Currency, enum_of_value (value m) = Some m)
  /\ (forall m : ProductType, enum_of_value (value m) = Some m)
  /\ (forall m : RiskLevel, enum_of_value (value m) = Some m)
  /\ (forall (s : string) (c : Country) (cu : Currency) (t : ProductType) (k : RiskLevel),
        (enum_of_value s = Some c -> value c = s)
        /\ (enum_of_value s = Some cu -> value cu = s)
        /\ (enum_of_value s = Some t -> value t = s)
        /\ (enum_of_value s = Some k -> value k = s)).
Proof.
  repeat split; try (by intros []); apply enum_of_value_sound.
Qed.

(** The errors pydantic records for the raw fields, field by field in the
    order of declaration. *)
Definition validation_errors (raw : RawFields) : list (string * string) :=
  (field_error "product_id" (required (raw_product_id raw))
   ++ field_error "product_name" (required (raw_product_name raw))
   ++ field_error "issuer" (required (raw_issuer raw))
   ++ field_error "country" (required_enum (E := Country) (raw_country raw))
   ++ field_error "currency" (required_enum (E := Currency) (raw_currency raw))
   ++ field_error "issue_date" (required (raw_issue_date raw))
   ++ field_error "maturity_date"
        (run_validator
           (validate_maturity_date (raw_maturity_date raw)
              (field_value (required (raw_issue_date raw)))))
   ++ field_error "nominal_value"
        match required (raw_nominal_value raw) with
        | inr v => run_validator (validate_nominal_value v)
        | inl msg => inl msg
        end
   ++ field_error "coupon_rate" (run_validator (validate_coupon_rate (raw_coupon_rate raw)))
   ++ field_error "product_type" (required_enum (E := ProductType) (raw_product_type raw))
   ++ field_error "risk_level" (required_enum (E := RiskLevel) (raw_risk_level raw)))%list.

Ltac some_error :=
  right; split; [reflexivity|];
  let H := fresh in
  intros H;
  repeat match goal with
         | H : (_ ++ _)%list = [] |- _ => apply app_eq_nil in H; destruct H
         end;
  discriminate.

Lemma SRPProduct_new_outcome now1 now2 raw :
  (exists p, SRPProduct_new now1 now2 raw = Ok p /\ validation_errors raw = [])
  \/ (SRPProduct_new now1 now2 raw = Raise (ValidationError (validation_errors raw))
      /\ validation_errors raw <> []).
Proof.
  unfold SRPProduct_new, validation_errors. cbv zeta.
  destruct (required (raw_product_id raw)); simpl; [some_error|].
  destruct (required (raw_product_name raw)); simpl; [some_error|].
  destruct (required (raw_issuer raw)); simpl; [some_error|].
  destruct (required_enum (raw_country raw)); simpl; [some_error|].
  destruct (required_enum (raw_currency raw)); simpl; [some_error|].
  destruct (required (raw_issue_date raw)); simpl; [some_error|].
  destruct (run_validator (validate_maturity_date _ _)); simpl; [some_error|].
  destruct (raw_nominal_value raw) as [v|]; simpl; [|some_error].
  destruct (run_validator (validate_nominal_value v)); simpl; [some_error|].
  destruct (run_validator (validate_coupon_rate _)); simpl; [some_error|].
  destruct (required_enum (raw_product_type raw)); simpl; [some_error|].
  destruct (required_enum (raw_risk_level raw)); simpl; [some_error|].
  left. by eexists.
Qed.

Lemma SRPProduct_new_rejected now1 now2 raw n msg :
  (n, msg) ∈ validation_errors raw ->
  SRPProduct_new now1 now2 raw = Raise (ValidationError (validation_errors raw)).
Proof.
  intros Hin. destruct (SRPProduct_new_outcome now1 now2 raw) as [(p & _ & H)|[H _]];
    [|done].
  rewrite H in Hin. by apply elem_of_nil in Hin.
Qed.

Lemma nominal_error raw v :
  raw_nominal_value raw = Some v -> PrimFloat.leb v 0 = true ->
  ("nominal_value", "La valeur nominale doit être positive") ∈ validation_errors raw.
Proof.
  intros Hv Hle. unfold validation_errors. rewrite Hv. simpl required.
  unfold validate_nominal_value. rewrite Hle. simpl.
  rewrite !elem_of_app. do 7 right. apply list_elem_of_here.
Qed.

(** X3. A nominal value that is zero or negative is always refused: the
    construction raises a [ValidationError] with an entry under
    [nominal_value], whatever the other fields are. *)
Theorem SRPProduct_new_rejects_nonpositive_nominal now1 now2 raw v :
  raw_nominal_value raw = Some v ->
  PrimFloat.leb v 0 = true ->
  exists errors,
    SRPProduct_new now1 now2 raw = Raise (ValidationError errors)
    /\ ("nominal_value", "La valeur nominale doit être positive") ∈ errors.
Proof.
  intros Hv Hle. exists (validation_errors raw).
  pose proof (nominal_error raw v Hv Hle) as Hin.
  split; [by eapply SRPProduct_new_rejected | done].
Qed.

Lemma SRPProduct_new_rejects_nonpositive_nominal_witness :
  raw_nominal_value (with_numbers raw_bond (-1000)%float None) = Some (-1000)%float
  /\ PrimFloat.leb (-1000) 0 = true
  /\ exists errors,
       SRPProduct_new 0 0 (with_numbers raw_bond (-1000)%float None)
       = Raise (ValidationError errors)
       /\ ("nominal_value", "La valeur nominale doit être positive") ∈ errors.
Proof.
  split; [reflexivity|]. split; [reflexivity|].
  apply (SRPProduct_new_rejects_nonpositive_nominal 0 0 _ (-1000)%float); reflexivity.
Defined.

Lemma maturity_error raw i m :
  raw_issue_date raw = Some i -> raw_maturity_date raw = Some m ->
  date_leb m i = true ->
  ("maturity_date", "La date d'échéance doit être postérieure à la date d'émission")
  ∈ validation_errors raw.
Proof.
  intros Hi Hm Hle. unfold validation_errors. rewrite Hi, Hm. simpl required.
  simpl field_value. unfold validate_maturity_date. rewrite Hle.
  simpl run_validator. simpl field_error.
  rewrite !elem_of_app. do 6 right. left. apply list_elem_of_here.
Qed.

(** X4. A maturity date that is the issue date or earlier is always
    refused, with an entry under [maturity_date]. *)
Theorem SRPProduct_new_rejects_early_maturity now1 now2 raw i m :
  raw_issue_date raw = Some i ->
  raw_maturity_date raw = Some m ->
  date_leb m i = true ->
  exists errors,
    SRPProduct_new now1 now2 raw = Raise (ValidationError errors)
    /\ ("maturity_date", "La date d'échéance doit être postérieure à la date d'émission")
       ∈ errors.
Proof.
  intros Hi Hm Hle. exists (validation_errors raw).
  pose proof (maturity_error raw i m Hi Hm Hle) as Hin.
  split; [by eapply SRPProduct_new_rejected | done].
Qed.

(** [raw] with another maturity date. *)
Definition with_maturity (raw : RawFields) (m : option date) : RawFields := {|
  raw_product_id := raw_product_id raw;
  raw_product_name := raw_product_name raw;
  raw_issuer := raw_issuer raw;
  raw_country := raw_country raw;
  raw_currency := raw_currency raw;
  raw_issue_date := raw_issue_date raw;
  raw_maturity_date := m;
  raw_nominal_value := raw_nominal_value raw;
  raw_coupon_rate := raw_coupon_rate raw;
  raw_product_type := raw_product_type raw;
  raw_underlying_asset := raw_underlying_asset raw;
  raw_risk_level := raw_risk_level raw;
  raw_rating := raw_rating raw;
  raw_isin := raw_isin raw;
  raw_cusip := raw_cusip raw;
  raw_min_investment := raw_min_investment raw;
  raw_max_investment := raw_max_investment raw;
  raw_liquidity := raw_liquidity raw;
  raw_fees := raw_fees raw;
  raw_created_at := raw_created_at raw;
  raw_updated_at := raw_updated_at raw
|}.

Lemma SRPProduct_new_rejects_early_maturity_witness :
  let raw := with_maturity raw_bond (Some (mkdate 2024 8 15)) in
  raw_issue_date raw = Some (mkdate 2024 8 15)
  /\ date_leb (mkdate 2024 8 15) (mkdate 2024 8 15) = true
  /\ exists errors,
       SRPProduct_new 0 0 raw = Raise (ValidationError errors)
       /\ ("maturity_date",
           "La date d'échéance doit être postérieure à la date d'émission") ∈ errors.
Proof.
  cbv zeta. split; [reflexivity|]. split; [reflexivity|].
  apply (SRPProduct_new_rejects_early_maturity 0 0 _ (mkdate 2024 8 15) (mkdate 2024 8 15));
    reflexivity.
Defined.

Lemma coupon_error raw c :
  raw_coupon_rate raw = Some c ->
  PrimFloat.ltb c 0 || fgtb c 100 = true ->
  ("coupon_rate", "Le taux de coupon doit être entre 0 et 100%") ∈ validation_errors raw.
Proof.
  intros Hc Hout. unfold validation_errors. rewrite Hc.
  unfold validate_coupon_rate. rewrite Hout. simpl run_validator. simpl field_error.
  rewrite !elem_of_app. do 8 right. left. apply list_elem_of_here.
Qed.

(** X5. A coupon rate below 0 or above 100 is always refused, with an
    entry under [coupon_rate]. *)
Theorem SRPProduct_new_rejects_coupon_out_of_range now1 now2 raw c :
  raw_coupon_rate raw = Some c ->
  PrimFloat.ltb c 0 || fgtb c 100 = true ->
  exists errors,
    SRPProduct_new now1 now2 raw = Raise (ValidationError errors)
    /\ ("coupon_rate", "Le taux de coupon doit être entre 0 et 100%") ∈ errors.
Proof.
  intros Hc Hout. exists (validation_errors raw).
  pose proof (coupon_error raw c Hc Hout) as Hin.
  split; [by eapply SRPProduct_new_rejected | done].
Qed.

Lemma SRPProduct_new_rejects_coupon_out_of_range_witness :
  let raw := with_numbers raw_bond 10000 (Some 100.5%float) in
  raw_coupon_rate raw = Some 100.5%float
  /\ PrimFloat.ltb 100.5 0 || fgtb 100.5 100 = true
  /\ exists errors,
       SRPProduct_new 0 0 raw = Raise (ValidationError errors)
       /\ ("coupon_rate", "Le taux de coupon doit être entre 0 et 100%") ∈ errors.
Proof.
  cbv zeta. split; [reflexivity|]. split; [reflexivity|].
  apply (SRPProduct_new_rejects_coupon_out_of_range 0 0 _ 100.5%float); reflexivity.
Defined.

(** ** models.py: the collection *)

(** What [add_product] keeps true of a collection that starts empty. *)
Definition consistent (c : SRPProductList) : Prop :=
  total_count c = len (products c)
  /\ NoDup (countries c)
  /\ (forall x, x ∈ countries c <-> exists p, p ∈ products c /\ country p = x)
  /\ NoDup (currencies c)
  /\ (forall x, x ∈ currencies c <-> exists p, p ∈ products c /\ currency p = x).

Lemma seen_snoc {A B} `{EqDecision B} (f : A -> B) (seen : list B) (l : list A) (p : A) :
  NoDup seen ->
  (forall x, x ∈ seen <-> exists q, q ∈ l /\ f q = x) ->
  let seen' := if bool_decide (f p ∈ seen) then seen else (seen ++ [f p])%list in
  NoDup seen'
  /\ (forall x, x ∈ seen' <-> exists q, q ∈ (l ++ [p])%list /\ f q = x).
Proof.
  intros Hnd Hseen. cbv zeta. destruct (bool_decide (f p ∈ seen)) eqn:E.
  - apply bool_decide_eq_true in E. split; [done|]. intros x. rewrite Hseen.
    split.
    + intros (q & Hq & <-). exists q. split; [|done]. apply elem_of_app. by left.
    + intros (q & Hq & <-). apply elem_of_app in Hq as [Hq|Hq]; [by exists q|].
      apply list_elem_of_singleton in Hq as ->. by apply Hseen.
  - apply bool_decide_eq_false in E. split.
    + apply NoDup_app. split; [done|]. split; [|apply NoDup_singleton].
      intros x Hx Hx'. apply list_elem_of_singleton in Hx' as ->. done.
    + intros x. rewrite elem_of_app, Hseen, list_elem_of_singleton. split.
      * intros [(q & Hq & <-)| ->].
        -- exists q. split; [|done]. apply elem_of_app. by left.
        -- exists p. split; [|done]. apply elem_of_app. right. apply list_elem_of_here.
      * intros (q & Hq & <-). apply elem_of_app in Hq as [Hq|Hq]; [left; by exists q|].
        apply list_elem_of_singleton in Hq as ->. by right.
Qed.

Lemma consistent_new : consistent SRPProductList_new.
Proof.
  unfold consistent. simpl. split_and!; try done; try apply NoDup_nil_2;
    intros x; (split; [by intros ?%elem_of_nil | by intros (p & ?%elem_of_nil & _)]).
Qed.

Lemma add_product_consistent c p : consistent c -> consistent (add_product c p).
Proof.
  intros (Hn & Hc1 & Hc2 & Hu1 & Hu2).
  destruct (seen_snoc country (countries c) (products c) p Hc1 Hc2) as [? ?].
  destruct (seen_snoc currency (currencies c) (products c) p Hu1 Hu2) as [? ?].
  unfold consistent, add_product. cbn [products total_count countries currencies].
  by split_and!.
Qed.

Lemma collection_invariant (l : list SRPProduct) :
  products (collection l) = l /\ consistent (collection l).
Proof.
  unfold collection.
  assert (forall c, consistent c ->
            products (fold_left add_product l c) = (products c ++ l)%list
            /\ consistent (fold_left add_product l c)) as H.
  { induction l as [|p l IH]; intros c Hc; simpl.
    - by rewrite app_nil_r.
    - destruct (IH (add_product c p) (add_product_consistent c p Hc)) as [-> H].
      split; [|done]. simpl. by rewrite <- app_assoc. }
  exact (H SRPProductList_new consistent_new).
Qed.

(** X6. A collection filled by [add_product] from the empty collection
    holds the records in the order they were added, its [total_count] is
    their number, and [countries] and [currencies] list, each once, the
    countries and the currencies that occur among the records. *)
Theorem collection_is_consistent (l : list SRPProduct) :
  products (collection l) = l
  /\ total_count (collection l) = len l
  /\ NoDup (countries (collection l))
  /\ (forall x, x ∈ countries (collection l) <-> exists p, p ∈ l /\ country p = x)
  /\ NoDup (currencies (collection l))
  /\ (forall x, x ∈ currencies (collection l) <-> exists p, p ∈ l /\ currency p = x).
Proof.
  destruct (collection_invariant l) as (Hl & Hn & Hc1 & Hc2 & Hu1 & Hu2).
  rewrite Hl in Hn, Hc2, Hu2. by split_and!.
Qed.

(** ** models.py: what a constructed record guarantees *)

Lemma required_enum_sound {E} `{PyEnum E} (v : option string) (m : E) :
  required_enum v = inr m -> v = Some (value m).
Proof.
  unfold required_enum. destruct v as [s|]; [|discriminate].
  destruct (enum_of_value s) as [m'|] eqn:Hs; [|discriminate].
  intros [= <-]. f_equal. symmetry. by apply enum_of_value_sound.
Qed.

(** X7. A record that was constructed holds the values it was given,
    unchanged: the enumeration fields are the members with the given
    values, and the numbers and dates are the given ones.  Its nominal
    value is not [<= 0], a coupon rate is neither below 0 nor above 100,
    a maturity date is later than the issue date, and the two time stamps
    are the given ones or else the readings of the clock. *)
Theorem SRPProduct_new_validated now1 now2 raw p :
  SRPProduct_new now1 now2 raw = Ok p ->
  (raw_product_id raw = Some (product_id p)
   /\ raw_product_name raw = Some (product_name p)
   /\ raw_issuer raw = Some (issuer p)
   /\ raw_country raw = Some (value (country p))
   /\ raw_currency raw = Some (value (currency p))
   /\ raw_product_type raw = Some (value (product_type p))
   /\ raw_risk_level raw = Some (value (risk_level p))
   /\ raw_issue_date raw = Some (issue_date p)
   /\ raw_maturity_date raw = maturity_date p
   /\ raw_nominal_value raw = Some (nominal_value p)
   /\ raw_coupon_rate raw = coupon_rate p)
  /\ PrimFloat.leb (nominal_value p) 0 = false
  /\ (forall c, coupon_rate p = Some c ->
        PrimFloat.ltb c 0 = false /\ fgtb c 100 = false)
  /\ (forall m, maturity_date p = Some m -> date_ltb (issue_date p) m = true)
  /\ created_at p = default now1 (raw_created_at raw)
  /\ updated_at p = default now2 (raw_updated_at raw).
Proof.
  unfold SRPProduct_new. intros H.
  destruct (raw_product_id raw); simpl in H; [|discriminate].
  destruct (raw_product_name raw); simpl in H; [|discriminate].
  destruct (raw_issuer raw); simpl in H; [|discriminate].
  destruct (required_enum (raw_country raw)) as [|c] eqn:Hc; simpl in H; [discriminate|].
  destruct (required_enum (raw_currency raw)) as [|cu] eqn:Hcu; simpl in H; [discriminate|].
  destruct (raw_issue_date raw) as [i|]; simpl in H; [|discriminate].
  destruct (validate_maturity_date (raw_maturity_date raw) (Some i)) as [m|e] eqn:Hm;
    simpl in H; [|destruct e; discriminate].
  destruct (raw_nominal_value raw) as [v|]; simpl in H; [|discriminate].
  destruct (validate_nominal_value v) as [v'|e] eqn:Hv; simpl in H;
    [|destruct e; discriminate].
  destruct (validate_coupon_rate (raw_coupon_rate raw)) as [cr|e] eqn:Hcr; simpl in H;
    [|destruct e; discriminate].
  destruct (required_enum (raw_product_type raw)) as [|pt] eqn:Hpt; simpl in H;
    [discriminate|].
  destruct (required_enum (raw_risk_level raw)) as [|rl] eqn:Hrl; simpl in H;
    [discriminate|].
  injection H as <-. simpl.
  apply required_enum_sound in Hc, Hcu, Hpt, Hrl.
  unfold validate_nominal_value in Hv.
  destruct (PrimFloat.leb v 0) eqn:Ev; [discriminate|]. injection Hv as <-.
  assert (raw_coupon_rate raw = cr
          /\ forall x, cr = Some x -> PrimFloat.ltb x 0 = false /\ fgtb x 100 = false)
    as [Hcr1 Hcr2].
  { unfold validate_coupon_rate in Hcr. destruct (raw_coupon_rate raw) as [x|].
    - destruct (PrimFloat.ltb x 0 || fgtb x 100) eqn:Ex; [discriminate|].
      injection Hcr as <-. split; [done|]. intros ? [= <-].
      by apply orb_false_iff in Ex.
    - injection Hcr as <-. split; [done|]. intros ? [=]. }
  assert (raw_maturity_date raw = m
          /\ forall x, m = Some x -> date_ltb i x = true) as [Hm1 Hm2].
  { unfold validate_maturity_date in Hm. destruct (raw_maturity_date raw) as [x|].
    - destruct (date_leb x i) eqn:Ex; [discriminate|].
      injection Hm as <-. split; [done|]. intros ? [= <-].
      by apply date_leb_false_ltb.
    - injection Hm as <-. split; [done|]. intros ? [=]. }
  split_and!; done.
Qed.

Lemma SRPProduct_new_validated_witness :
  SRPProduct_new 0 0 raw_bond = Ok bond
  /\ PrimFloat.leb (nominal_value bond) 0 = false.
Proof.
  split; [reflexivity|].
  apply (SRPProduct_new_validated 0 0 raw_bond bond). reflexivity.
Defined.

(** ** models.py: the selections of a collection *)

Section Selections.
Context {A E : Type} `{EqDecision E} (dim : A -> E).

Lemma filter_member_cons (m : E) (ms : list E) (l : list A) :
  m ∉ ms ->
  List.filter (fun p => bool_decide (dim p ∈ m :: ms)) l
  ≡ₚ (List.filter (fun p => bool_decide (dim p = m)) l
      ++ List.filter (fun p => bool_decide (dim p ∈ ms)) l)%list.
Proof.
  intros Hm. induction l as [|p l IH]; simpl; [done|].
  destruct (decide (dim p = m)) as [->|Hne].
  - rewrite (bool_decide_true (m ∈ m :: ms)) by apply list_elem_of_here.
    rewrite (bool_decide_true (m = m)) by done.
    rewrite (bool_decide_false (m ∈ ms)) by done.
    simpl. by rewrite IH.
  - rewrite (bool_decide_false (dim p = m)) by done.
    assert (bool_decide (dim p ∈ m :: ms) = bool_decide (dim p ∈ ms)) as ->.
    { apply bool_decide_ext. rewrite elem_of_cons. tauto. }
    destruct (bool_decide (dim p ∈ ms)); [|done].
    rewrite IH. by rewrite Permutation_middle.
Qed.

Lemma selections_Permutation (ms : list E) (l : list A) :
  NoDup ms ->
  concat (map (fun m => List.filter (fun p => bool_decide (dim p = m)) l) ms)
  ≡ₚ List.filter (fun p => bool_decide (dim p ∈ ms)) l.
Proof.
  induction 1 as [|m ms Hm Hnd IH]; simpl.
  - induction l as [|p l IHl]; simpl; [done|].
    destruct (bool_decide (dim p ∈ [])) eqn:Hp; [|done].
    apply bool_decide_eq_true in Hp. by apply elem_of_nil in Hp.
  - rewrite filter_member_cons by done. by rewrite IH.
Qed.

Lemma selections_cover (ms : list E) (l : list A) :
  NoDup ms -> (forall m, m ∈ ms) ->
  concat (map (fun m => List.filter (fun p => bool_decide (dim p = m)) l) ms) ≡ₚ l.
Proof.
  intros Hnd Hall. rewrite selections_Permutation by done.
  rewrite (List.filter_ext _ (fun _ => true)); [by rewrite filter_true|].
  intros p. by apply bool_decide_eq_true.
Qed.

End Selections.

(** X8. The selections of a collection by country, by currency and by
    risk level each split its records: a selection keeps the records in
    their order, and the selections for all the members of the
    enumeration hold, together, every record of the collection once. *)
Theorem get_products_by_split (c : SRPProductList) :
  ((forall x, get_products_by_country c x `sublist_of` products c)
   /\ concat (map (get_products_by_country c) members) ≡ₚ products c)
  /\ ((forall x, get_products_by_currency c x `sublist_of` products c)
      /\ concat (map (get_products_by_currency c) members) ≡ₚ products c)
  /\ ((forall x, get_products_by_risk_level c x `sublist_of` products c)
      /\ concat (map (get_products_by_risk_level c) members) ≡ₚ products c).
Proof.
  split_and!; try (intros x; apply filter_sublist).
  - apply (selections_cover country); apply Country_members_ok.
  - apply (selections_cover currency); apply Currency_members_ok.
  - apply (selections_cover risk_level); apply RiskLevel_members_ok.
Qed.

(** ** Dictionaries: keys *)

Section DictKeys.
Context {K V : Type} `{EqDecision K}.
Implicit Types (k : K) (v : V) (d : dict K V).

Lemma dict_set_new k v d : k ∉ dict_keys d -> dict_set k v d = (d ++ [(k, v)])%list.
Proof.
  induction d as [|[k' v'] d IH]; simpl; [done|].
  intros Hk. apply not_elem_of_cons in Hk as [Hne Hk].
  rewrite decide_False by done. by rewrite IH.
Qed.

Lemma dict_set_same k v d : dict_get k d = Some v -> dict_set k v d = d.
Proof.
  induction d as [|[k' v'] d IH]; simpl; [done|].
  destruct (decide (k = k')) as [->|Hne]; [by intros [= ->]|].
  intros Hd. by rewrite IH.
Qed.

Lemma dict_keys_set k v d :
  dict_keys (dict_set k v d)
  = if bool_decide (k ∈ dict_keys d) then dict_keys d else (dict_keys d ++ [k])%list.
Proof.
  induction d as [|[k' v'] d IH]; simpl; [done|].
  destruct (decide (k = k')) as [->|Hne]; simpl.
  - by rewrite bool_decide_true by apply list_elem_of_here.
  - rewrite IH.
    assert (bool_decide (k ∈ k' :: dict_keys d) = bool_decide (k ∈ dict_keys d)) as ->.
    { apply bool_decide_ext. rewrite elem_of_cons. tauto. }
    by destruct (bool_decide (k ∈ dict_keys d)).
Qed.

Lemma dict_keys_set_prefix k v d : dict_keys d `prefix_of` dict_keys (dict_set k v d).
Proof.
  rewrite dict_keys_set. destruct (bool_decide _); [done|]. by apply prefix_app_r.
Qed.

Lemma dict_get_None k d : dict_get k d = None <-> k ∉ dict_keys d.
Proof.
  induction d as [|[k' v'] d IH]; simpl.
  - split; [intros _; apply not_elem_of_nil | done].
  - rewrite not_elem_of_cons. destruct (decide (k = k')) as [->|Hne].
    + split; [done | by intros [? _]].
    + rewrite IH. tauto.
Qed.

Lemma dict_set_NoDup k v d : NoDup (dict_keys d) -> NoDup (dict_keys (dict_set k v d)).
Proof.
  intros Hnd. rewrite dict_keys_set. destruct (bool_decide _) eqn:E; [done|].
  apply bool_decide_eq_false in E. apply NoDup_app. split; [done|].
  split; [|apply NoDup_singleton].
  intros x Hx ->%list_elem_of_singleton. done.
Qed.

End DictKeys.

(** ** analyzer.py: the state after an analysis *)

Definition month_items (d : dict string Stats) (items : dict string MonthAcc)
    : dict string Stats :=
  fold_left (fun d item => dict_set (fst item) (month_bundle (snd item)) d) items d.

(** The analyzer after [analyze_products] holds the collection that was
    analysed and the analysis that was returned. *)
Lemma analyze_products_state (a : SRPAnalyzer) (arg : option SRPProductList) :
  fst (analyze_products a arg)
  = {| self_products := default (self_products a) arg;
       self_analysis := snd (analyze_products a arg) |}.
Proof.
  unfold analyze_products. cbv zeta.
  change (self_products
            {| self_products := default (self_products a) arg;
               self_analysis := self_analysis a |})
    with (default (self_products a) arg).
  destruct (products (default (self_products a) arg)); reflexivity.
Qed.

Lemma analyze_products_empty (a : SRPAnalyzer) (arg : option SRPProductList) :
  products (default (self_products a) arg) = [] ->
  snd (analyze_products a arg) = self_analysis a.
Proof.
  intros Hnil. unfold analyze_products. cbv zeta.
  change (self_products
            {| self_products := default (self_products a) arg;
               self_analysis := self_analysis a |})
    with (default (self_products a) arg).
  by rewrite Hnil.
Qed.

Lemma analyze_products_monthly (a : SRPAnalyzer) (arg : option SRPProductList) :
  let l := default (self_products a) arg in
  products l <> [] ->
  monthly_evolution (snd (analyze_products a arg))
  = month_items (monthly_evolution (self_analysis a)) (monthly_stats (products l)).
Proof.
  cbv zeta. intros Hne. unfold analyze_products. cbv zeta.
  change (self_products
            {| self_products := default (self_products a) arg;
               self_analysis := self_analysis a |})
    with (default (self_products a) arg).
  rewrite match_nonempty by done.
  change (snd (?x, ?y)) with y. reflexivity.
Qed.

Lemma SRPAnalysis_eta (r : SRPAnalysis) :
  r = {| total_products := total_products r;
         total_value := total_value r;
         average_nominal_value := average_nominal_value r;
         by_country := by_country r;
         by_currency := by_currency r;
         by_risk_level := by_risk_level r;
         by_product_type := by_product_type r;
         top_issuers := top_issuers r;
         monthly_evolution := monthly_evolution r |}.
Proof. by destruct r. Qed.

Lemma SRPAnalysis_ext (r r' : SRPAnalysis) :
  total_products r = total_products r' ->
  total_value r = total_value r' ->
  average_nominal_value r = average_nominal_value r' ->
  by_country r = by_country r' ->
  by_currency r = by_currency r' ->
  by_risk_level r = by_risk_level r' ->
  by_product_type r = by_product_type r' ->
  top_issuers r = top_issuers r' ->
  monthly_evolution r = monthly_evolution r' ->
  r = r'.
Proof. destruct r, r'; simpl; congruence. Qed.

(** ** analyzer.py: the breakdowns *)

Definition nonempty {A} (l : list A) : bool :=
  match l with [] => false | _ => true end.

Section BreakdownKeys.
Context {E : Type} `{EqDecision E} `{PyEnum E}.
Variables (dim : SRPProduct -> E) (stats : list SRPProduct -> Stats).
Implicit Types (l : list SRPProduct) (d : dict E Stats).

Definition bundles l (ms : list E) : dict E Stats :=
  map (fun m => (m, stats (partition_of dim l m)))
    (List.filter (fun m => nonempty (partition_of dim l m)) ms).

Lemma dict_keys_bundles l ms :
  dict_keys (bundles l ms) = List.filter (fun m => nonempty (partition_of dim l m)) ms.
Proof. unfold dict_keys, bundles. rewrite map_map. simpl. apply map_id. Qed.

Lemma breakdown_fold_new l ms d :
  NoDup ms -> (forall m, m ∈ ms -> m ∉ dict_keys d) ->
  fold_left (breakdown_step dim stats l) ms d = (d ++ bundles l ms)%list.
Proof.
  intros Hnd. revert d. induction Hnd as [|m ms Hm Hnd IH]; intros d Hd; simpl.
  - by rewrite app_nil_r.
  - unfold bundles. simpl. unfold breakdown_step at 2.
    destruct (partition_of dim l m) as [|q part] eqn:Hpart; simpl.
    + apply IH. intros m' Hm'. apply Hd. by apply list_elem_of_further.
    + rewrite dict_set_new by (apply Hd, list_elem_of_here).
      rewrite IH.
      * rewrite <- app_assoc. simpl. by rewrite Hpart.
      * intros m' Hm'. unfold dict_keys. rewrite map_app, elem_of_app. simpl.
        intros [Hin|Hin%list_elem_of_singleton].
        -- by apply (Hd m'); [apply list_elem_of_further|].
        -- congruence.
Qed.

(** From an empty dictionary, [breakdown] has one bundle for each member
    that has records, in the order of the enumeration. *)
Lemma breakdown_new l :
  NoDup (members (E := E)) -> breakdown dim stats l [] = bundles l members.
Proof.
  intros Hnd. unfold breakdown.
  change (fold_left (breakdown_step dim stats l) members [] = bundles l members).
  rewrite breakdown_fold_new; [done | done |]. intros m _. apply not_elem_of_nil.
Qed.

Lemma breakdown_fold_prefix l ms d :
  dict_keys d `prefix_of` dict_keys (fold_left (breakdown_step dim stats l) ms d).
Proof.
  revert d. induction ms as [|m ms IH]; intros d; simpl; [done|].
  etrans; [|apply IH]. unfold breakdown_step.
  destruct (partition_of dim l m); [done | apply dict_keys_set_prefix].
Qed.

(** [breakdown] keeps every key the dictionary had, in its place. *)
Lemma breakdown_prefix l d : dict_keys d `prefix_of` dict_keys (breakdown dim stats l d).
Proof. apply breakdown_fold_prefix. Qed.

Lemma breakdown_fold_fixed l ms d :
  (forall m, m ∈ ms -> partition_of dim l m <> [] ->
     dict_get m d = Some (stats (partition_of dim l m))) ->
  fold_left (breakdown_step dim stats l) ms d = d.
Proof.
  induction ms as [|m ms IH]; intros Hd; simpl; [done|].
  assert (breakdown_step dim stats l d m = d) as ->.
  { unfold breakdown_step.
    destruct (partition_of dim l m) as [|q part] eqn:Hpart; [done|].
    apply dict_set_same. rewrite <- Hpart. apply Hd; [apply list_elem_of_here|].
    by rewrite Hpart. }
  apply IH. intros m' Hm'. apply Hd. by apply list_elem_of_further.
Qed.

(** Running [breakdown] again on its own result changes nothing. *)
Lemma breakdown_idempotent l d :
  NoDup (members (E := E)) ->
  breakdown dim stats l (breakdown dim stats l d) = breakdown dim stats l d.
Proof.
  intros Hnd. unfold breakdown at 1.
  change (fold_left (breakdown_step dim stats l) members (breakdown dim stats l d)
          = breakdown dim stats l d).
  apply breakdown_fold_fixed. intros m Hm Hpart.
  rewrite (breakdown_get dim stats l d m Hnd Hm).
  by destruct (partition_of dim l m).
Qed.

End BreakdownKeys.

(** ** Dictionaries: storing the items of another dictionary *)

Section SetItems.
Context {K V W : Type} `{EqDecision K} (f : V -> W).

Definition set_items (d : dict K W) (items : dict K V) : dict K W :=
  fold_left (fun d item => dict_set (fst item) (f (snd item)) d) items d.

Lemma set_items_cons d k v items :
  set_items d ((k, v) :: items) = set_items (dict_set k (f v) d) items.
Proof. reflexivity. Qed.

Lemma set_items_prefix d items : dict_keys d `prefix_of` dict_keys (set_items d items).
Proof.
  revert d. induction items as [|[k v] items IH]; intros d; [done|].
  rewrite set_items_cons.
  etrans; [apply (dict_keys_set_prefix k (f v))|apply IH].
Qed.

Lemma set_items_new d items :
  NoDup (dict_keys items) -> (forall k, k ∈ dict_keys items -> k ∉ dict_keys d) ->
  set_items d items = (d ++ map (fun item => (fst item, f (snd item))) items)%list.
Proof.
  revert d. induction items as [|[k v] items IH]; intros d Hnd Hd.
  - simpl. by rewrite app_nil_r.
  - rewrite set_items_cons. simpl in Hnd. apply NoDup_cons in Hnd as [Hk Hnd].
    rewrite dict_set_new by (apply Hd, list_elem_of_here).
    rewrite IH; [by rewrite <- app_assoc | done |].
    intros k' Hk'. unfold dict_keys at 1. rewrite map_app, elem_of_app. simpl.
    intros [Hin|Hin%list_elem_of_singleton].
    + by apply (Hd k'); [apply list_elem_of_further|].
    + congruence.
Qed.

Lemma set_items_get_other d items k :
  k ∉ dict_keys items -> dict_get k (set_items d items) = dict_get k d.
Proof.
  revert d. induction items as [|[k' v] items IH]; intros d Hk; [done|].
  rewrite set_items_cons.
  simpl in Hk. apply not_elem_of_cons in Hk as [Hne Hk].
  rewrite IH by done. by apply dict_get_set_ne.
Qed.

Lemma set_items_get d items k v :
  NoDup (dict_keys items) -> (k, v) ∈ items ->
  dict_get k (set_items d items) = Some (f v).
Proof.
  revert d. induction items as [|[k' v'] items IH]; intros d Hnd Hin.
  - by apply elem_of_nil in Hin.
  - rewrite set_items_cons. simpl in Hnd. apply NoDup_cons in Hnd as [Hk Hnd].
    apply elem_of_cons in Hin as [[= <- <-]|Hin].
    + rewrite set_items_get_other by done. apply dict_get_set_eq.
    + by apply IH.
Qed.

Lemma set_items_fixed d items :
  (forall k v, (k, v) ∈ items -> dict_get k d = Some (f v)) -> set_items d items = d.
Proof.
  induction items as [|[k v] items IH]; intros Hd; [done|].
  rewrite set_items_cons.
  rewrite dict_set_same by (apply Hd, list_elem_of_here).
  apply IH. intros k' v' Hin. apply Hd. by apply list_elem_of_further.
Qed.

Lemma set_items_idempotent d items :
  NoDup (dict_keys items) -> set_items (set_items d items) items = set_items d items.
Proof.
  intros Hnd. apply set_items_fixed. intros k v Hin. by apply set_items_get.
Qed.

End SetItems.

(** ** Grouping by a key, as the loops over a [defaultdict] do *)

Section GroupBy.
Context {A Acc : Type} (key : A -> string).
Context (init : Acc) (step : Acc -> A -> Acc) (acc_of : list A -> Acc).
Hypothesis acc_nil : acc_of [] = init.
Hypothesis acc_snoc : forall g p, acc_of (g ++ [p]) = step (acc_of g) p.

Definition group_step (stats : dict string Acc) (p : A) : dict string Acc :=
  dict_set (key p) (step (default init (dict_get (key p) stats)) p) stats.

Definition keyed (k : string) (l : list A) : list A :=
  List.filter (fun p => String.eqb (key p) k) l.

Lemma keyed_snoc k l p :
  keyed k (l ++ [p])
  = if String.eqb (key p) k then (keyed k l ++ [p])%list else keyed k l.
Proof.
  unfold keyed. rewrite List.filter_app. simpl.
  destruct (String.eqb (key p) k); [done | by rewrite app_nil_r].
Qed.

Lemma keyed_nil k l : k ∉ map key l -> keyed k l = [].
Proof.
  intros Hn. induction l as [|p l IH]; [done|]. simpl in *.
  rewrite not_elem_of_cons in Hn. destruct Hn as [Hne Hn].
  destruct (String.eqb_spec (key p) k); [congruence | by apply IH].
Qed.

Lemma group_fold l :
  fold_left group_step l []
  = map (fun k => (k, acc_of (keyed k l))) (first_seen (map key l)).
Proof.
  induction l as [|p l IH] using rev_ind; [done|].
  rewrite fold_left_app. cbn [fold_left]. rewrite IH, map_app. cbn [map].
  rewrite first_seen_snoc.
  unfold group_step. rewrite dict_get_names, dict_set_names by apply NoDup_first_seen.
  assert (default init
            (if bool_decide (key p ∈ first_seen (map key l))
             then Some (acc_of (keyed (key p) l)) else None)
          = acc_of (keyed (key p) l)) as ->.
  { destruct (bool_decide (key p ∈ first_seen (map key l))) eqn:E; [done|].
    apply bool_decide_eq_false in E. rewrite elem_of_first_seen in E.
    by rewrite keyed_nil. }
  rewrite <- acc_snoc.
  assert (bool_decide (key p ∈ first_seen (map key l))
          = bool_decide (key p ∈ map key l)) as ->.
  { apply bool_decide_ext, elem_of_first_seen. }
  destruct (bool_decide (key p ∈ map key l)) eqn:E.
  - apply map_ext. intros k. rewrite keyed_snoc.
    destruct (decide (k = key p)) as [->|Hne].
    + by rewrite String.eqb_refl.
    + destruct (String.eqb_spec (key p) k); [congruence | done].
  - apply bool_decide_eq_false in E. rewrite map_app. simpl. f_equal.
    + apply map_ext_in. intros k Hin.
      apply list_elem_of_In in Hin. rewrite elem_of_first_seen in Hin.
      rewrite keyed_snoc.
      destruct (String.eqb_spec (key p) k) as [<-|]; done.
    + by rewrite keyed_snoc, String.eqb_refl.
Qed.

End GroupBy.

(** ** analyzer.py: the months *)

(** The records issued in the month with key [k]. *)
Definition issued_in (k : string) (l : list SRPProduct) : list SRPProduct :=
  keyed (fun p => month_key (issue_date p)) k l.

Definition months (l : list SRPProduct) : list string :=
  first_seen (map (fun p => month_key (issue_date p)) l).

Definition month_acc (g : list SRPProduct) : MonthAcc :=
  {| m_count := len g;
     m_total_value := sum (nominal_values g);
     m_countries := country_values g;
     m_currencies := currency_values g |}.

Lemma month_acc_snoc g p :
  month_acc (g ++ [p])
  = {| m_count := m_count (month_acc g) + 1;
       m_total_value := PrimFloat.add (m_total_value (month_acc g)) (nominal_value p);
       m_countries := {[ value (country p) ]} ∪ m_countries (month_acc g);
       m_currencies := {[ value (currency p) ]} ∪ m_currencies (month_acc g) |}.
Proof.
  unfold month_acc, country_values, currency_values, nominal_values, sum.
  rewrite !map_app. cbn [map]. rewrite !set_of_snoc, fold_left_app. cbn [fold_left].
  f_equal. unfold len. rewrite length_app. simpl. lia.
Qed.

(** The accumulation over the collection groups the records by month,
    the months in the order they are first met. *)
Lemma monthly_stats_groups l :
  monthly_stats l = map (fun k => (k, month_acc (issued_in k l))) (months l).
Proof.
  unfold monthly_stats, months, issued_in.
  rewrite <- (group_fold (fun p => month_key (issue_date p)) MonthAcc_new
                (fun acc p =>
                   {| m_count := m_count acc + 1;
                      m_total_value := PrimFloat.add (m_total_value acc) (nominal_value p);
                      m_countries := {[ value (country p) ]} ∪ m_countries acc;
                      m_currencies := {[ value (currency p) ]} ∪ m_currencies acc |})
                month_acc eq_refl month_acc_snoc).
  reflexivity.
Qed.

Lemma dict_keys_monthly_stats l : dict_keys (monthly_stats l) = months l.
Proof.
  rewrite monthly_stats_groups. unfold dict_keys. rewrite map_map. apply map_id.
Qed.

Lemma month_items_set_items d items : month_items d items = set_items month_bundle d items.
Proof. reflexivity. Qed.

(** ** analyzer.py: counting the records of the bundles *)

(** The [count] of a bundle. *)
Definition count_of (b : Stats) : Z :=
  match dict_get "count" b with
  | Some (VInt n) => n
  | _ => 0
  end.

(** The counts of the bundles of a dictionary, added up. *)
Definition counted {K} (d : dict K Stats) : Z :=
  foldr Z.add 0 (map (fun e => count_of (snd e)) d).

Lemma len_concat {A} (ls : list (list A)) :
  len (concat ls) = foldr Z.add 0 (map len ls).
Proof.
  unfold len. induction ls as [|l ls IH]; simpl; [done|].
  rewrite length_app. lia.
Qed.

Lemma len_Permutation {A} (l l' : list A) : l ≡ₚ l' -> len l = len l'.
Proof. intros Hp. unfold len. by rewrite Hp. Qed.

Section Counting.
Context {K : Type} (part : K -> list SRPProduct) (stats : list SRPProduct -> Stats).
Hypothesis stats_count : forall g, count_of (stats g) = len g.

Lemma counted_groups (ks : list K) :
  counted (map (fun k => (k, stats (part k))) ks) = len (concat (map part ks)).
Proof.
  unfold counted. rewrite len_concat, !map_map. simpl. f_equal.
  apply map_ext. intros k. apply stats_count.
Qed.

Lemma concat_nonempty (ks : list K) :
  concat (map part (List.filter (fun k => nonempty (part k)) ks)) = concat (map part ks).
Proof.
  induction ks as [|k ks IH]; simpl; [done|].
  destruct (part k) eqn:Hk; simpl; [done|]. by rewrite Hk, IH.
Qed.

End Counting.

Lemma counted_bundles {E} `{EqDecision E} `{PyEnum E}
    (dim : SRPProduct -> E) (stats : list SRPProduct -> Stats) (l : list SRPProduct) :
  (forall g, count_of (stats g) = len g) ->
  NoDup (members (E := E)) -> (forall m : E, m ∈ members) ->
  counted (bundles dim stats l members) = len l.
Proof.
  intros Hstats Hnd Hall. unfold bundles.
  rewrite (counted_groups (partition_of dim l) stats Hstats).
  rewrite concat_nonempty. apply len_Permutation.
  by apply (selections_cover dim).
Qed.

Lemma keyed_cover {A} (key : A -> string) (l : list A) :
  concat (map (fun k => keyed key k l) (first_seen (map key l))) ≡ₚ l.
Proof.
  unfold keyed.
  rewrite (map_ext _ (fun k => List.filter (fun p => bool_decide (key p = k)) l)).
  2:{ intros k. apply List.filter_ext. intros p.
      destruct (String.eqb_spec (key p) k) as [->|Hne].
      - by rewrite bool_decide_true.
      - by rewrite bool_decide_false. }
  rewrite (selections_Permutation key) by apply NoDup_first_seen.
  rewrite (List.filter_ext_in _ (fun _ => true)); [by rewrite filter_true|].
  intros p Hp. apply bool_decide_eq_true. rewrite elem_of_first_seen.
  apply list_elem_of_In, in_map_iff. by exists p.
Qed.

Lemma count_of_month_bundle acc : count_of (month_bundle acc) = m_count acc.
Proof. reflexivity. Qed.

Lemma counted_months (l : list SRPProduct) :
  counted (map (fun item => (fst item, month_bundle (snd item))) (monthly_stats l)) = len l.
Proof.
  rewrite monthly_stats_groups, map_map. simpl.
  rewrite (counted_groups (fun k => issued_in k l) (fun g => month_bundle (month_acc g)))
    by done.
  apply len_Permutation. apply keyed_cover.
Qed.

(** X9. On a new analyzer, each of the four dictionaries has exactly the
    members of its enumeration that have records in the collection, in
    the order of the enumeration, each with the bundle of its records;
    the selections by country, currency and risk level are the ones the
    collection itself returns. *)
Theorem analyze_products_new_breakdowns (po : option SRPProductList) (l : SRPProductList) :
  let r := snd (analyze_products (SRPAnalyzer_new po) (Some l)) in
  by_country r
  = map (fun c => (c, country_stats (get_products_by_country l c)))
      (List.filter (fun c => nonempty (get_products_by_country l c)) members)
  /\ by_currency r
     = map (fun c => (c, currency_stats (get_products_by_currency l c)))
         (List.filter (fun c => nonempty (get_products_by_currency l c)) members)
  /\ by_risk_level r
     = map (fun k => (k, risk_stats (get_products_by_risk_level l k)))
         (List.filter (fun k => nonempty (get_products_by_risk_level l k)) members)
  /\ by_product_type r
     = map (fun t => (t, type_stats (partition_of product_type (products l) t)))
         (List.filter (fun t => nonempty (partition_of product_type (products l) t))
            members).
Proof.
  cbv zeta.
  assert (products l = [] \/ products l <> []) as [Hl|Hne]
    by (destruct (products l); [by left | by right]).
  - rewrite analyze_products_new_empty by done.
    unfold get_products_by_country, get_products_by_currency, get_products_by_risk_level.
    rewrite Hl. repeat split; reflexivity.
  - destruct (analyze_products_nonempty (SRPAnalyzer_new po) l Hne)
      as (_ & _ & _ & H1 & H2 & H3 & H4 & _).
    rewrite H1, H2, H3, H4.
    change (by_country (self_analysis (SRPAnalyzer_new po))) with (@nil (Country * Stats)).
    change (by_currency (self_analysis (SRPAnalyzer_new po))) with (@nil (Currency * Stats)).
    change (by_risk_level (self_analysis (SRPAnalyzer_new po)))
      with (@nil (RiskLevel * Stats)).
    change (by_product_type (self_analysis (SRPAnalyzer_new po)))
      with (@nil (ProductType * Stats)).
    split_and!.
    + apply (breakdown_new country country_stats), Country_members_ok.
    + apply (breakdown_new currency currency_stats), Currency_members_ok.
    + apply (breakdown_new risk_level risk_stats), RiskLevel_members_ok.
    + apply (breakdown_new product_type type_stats), ProductType_members_ok.
Qed.

Lemma month_items_new (l : list SRPProduct) :
  month_items [] (monthly_stats l)
  = map (fun item => (fst item, month_bundle (snd item))) (monthly_stats l).
Proof.
  rewrite month_items_set_items, set_items_new; [done | |].
  - rewrite dict_keys_monthly_stats. apply NoDup_first_seen.
  - intros k _. apply not_elem_of_nil.
Qed.

(** X10. On a new analyzer, the counts of the bundles of each
    dictionary add up to [total_products]: every record is counted once
    under its country, once under its currency, once under its risk
    level, once under its product type and once under its month. *)
Theorem analyze_products_new_counts (po : option SRPProductList) (l : SRPProductList) :
  let r := snd (analyze_products (SRPAnalyzer_new po) (Some l)) in
  counted (by_country r) = total_products r
  /\ counted (by_currency r) = total_products r
  /\ counted (by_risk_level r) = total_products r
  /\ counted (by_product_type r) = total_products r
  /\ counted (monthly_evolution r) = total_products r.
Proof.
  cbv zeta.
  assert (products l = [] \/ products l <> []) as [Hl|Hne]
    by (destruct (products l); [by left | by right]).
  - rewrite analyze_products_new_empty by done. repeat split; reflexivity.
  - destruct (analyze_products_nonempty (SRPAnalyzer_new po) l Hne)
      as (H0 & _ & _ & H1 & H2 & H3 & H4 & _).
    rewrite H0, H1, H2, H3, H4.
    rewrite (analyze_products_monthly (SRPAnalyzer_new po) (Some l) Hne).
    change (by_country (self_analysis (SRPAnalyzer_new po))) with (@nil (Country * Stats)).
    change (by_currency (self_analysis (SRPAnalyzer_new po))) with (@nil (Currency * Stats)).
    change (by_risk_level (self_analysis (SRPAnalyzer_new po)))
      with (@nil (RiskLevel * Stats)).
    change (by_product_type (self_analysis (SRPAnalyzer_new po)))
      with (@nil (ProductType * Stats)).
    change (monthly_evolution (self_analysis (SRPAnalyzer_new po)))
      with (@nil (string * Stats)).
    change (default (self_products (SRPAnalyzer_new po)) (Some l)) with l.
    rewrite !breakdown_new
      by first [apply Country_members_ok | apply Currency_members_ok
               | apply RiskLevel_members_ok | apply ProductType_members_ok].
    rewrite month_items_new.
    split_and!.
    + apply counted_bundles; [done | apply Country_members_ok..].
    + apply counted_bundles; [done | apply Currency_members_ok..].
    + apply counted_bundles; [done | apply RiskLevel_members_ok..].
    + apply counted_bundles; [done | apply ProductType_members_ok..].
    + apply counted_months.
Qed.

(** The bundle of a month, with the mean always a quotient. *)
Definition month_figures (g : list SRPProduct) : Stats :=
  [ ("count", VInt (len g));
    ("total_value", VFloat (sum (nominal_values g)));
    ("average_value", VFloat (average (sum (nominal_values g)) (len g)));
    ("countries", VSet (country_values g));
    ("currencies", VSet (currency_values g)) ].

Lemma keyed_nonempty {A} (key : A -> string) (k : string) (l : list A) :
  k ∈ map key l -> keyed key k l <> [].
Proof.
  intros Hk. apply list_elem_of_In, in_map_iff in Hk as (p & Hp & Hin).
  assert (In p (keyed key k l)) as Hin'.
  { apply filter_In. split; [done|]. by apply String.eqb_eq. }
  intros Hnil. by rewrite Hnil in Hin'.
Qed.

Lemma month_bundle_figures (g : list SRPProduct) :
  g <> [] -> month_bundle (month_acc g) = month_figures g.
Proof.
  intros Hg. unfold month_bundle, month_figures. simpl.
  destruct g as [|p g]; [done|]. by rewrite len_pos.
Qed.

(** X11. On a new analyzer, [monthly_evolution] has one bundle for each
    month in which a record was issued, the months in the order they are
    first met in the collection and not in the order of the calendar.
    The bundle of a month holds the number of its records, the sum and
    the mean of their nominal values, and the countries and currencies
    seen; the mean is always the quotient, never the [0] the code keeps
    for a month without records. *)
Theorem analyze_products_new_months (po : option SRPProductList) (l : SRPProductList) :
  let r := snd (analyze_products (SRPAnalyzer_new po) (Some l)) in
  monthly_evolution r
  = map (fun k => (k, month_figures (issued_in k (products l)))) (months (products l)).
Proof.
  cbv zeta.
  assert (products l = [] \/ products l <> []) as [Hl|Hne]
    by (destruct (products l); [by left | by right]).
  - rewrite analyze_products_new_empty by done. by rewrite Hl.
  - rewrite (analyze_products_monthly (SRPAnalyzer_new po) (Some l) Hne).
    change (monthly_evolution (self_analysis (SRPAnalyzer_new po)))
      with (@nil (string * Stats)).
    change (default (self_products (SRPAnalyzer_new po)) (Some l)) with l.
    rewrite month_items_new, monthly_stats_groups, map_map. simpl.
    apply map_ext_in. intros k Hk. f_equal.
    apply month_bundle_figures, keyed_nonempty.
    apply list_elem_of_In in Hk. unfold months in Hk.
    by rewrite elem_of_first_seen in Hk.
Qed.

(** ** analyzer.py: an analyzer that is used again *)

(** X12. An analysis only adds to the five dictionaries the analyzer
    keeps: every key they had is still there, in its place, and the
    bundle of a member or of a month that has no record in the collection
    analysed is the one that was there before, if any. *)
Theorem analyze_products_accumulates (a : SRPAnalyzer) (arg : option SRPProductList) :
  let l := products (default (self_products a) arg) in
  let old := self_analysis a in
  let r := snd (analyze_products a arg) in
  (dict_keys (by_country old) `prefix_of` dict_keys (by_country r)
   /\ dict_keys (by_currency old) `prefix_of` dict_keys (by_currency r)
   /\ dict_keys (by_risk_level old) `prefix_of` dict_keys (by_risk_level r)
   /\ dict_keys (by_product_type old) `prefix_of` dict_keys (by_product_type r)
   /\ dict_keys (monthly_evolution old) `prefix_of` dict_keys (monthly_evolution r))
  /\ (forall c, partition_of country l c = [] ->
        dict_get c (by_country r) = dict_get c (by_country old))
  /\ (forall c, partition_of currency l c = [] ->
        dict_get c (by_currency r) = dict_get c (by_currency old))
  /\ (forall k, partition_of risk_level l k = [] ->
        dict_get k (by_risk_level r) = dict_get k (by_risk_level old))
  /\ (forall t, partition_of product_type l t = [] ->
        dict_get t (by_product_type r) = dict_get t (by_product_type old))
  /\ (forall m, issued_in m l = [] ->
        dict_get m (monthly_evolution r) = dict_get m (monthly_evolution old)).
Proof.
  cbv zeta.
  assert (products (default (self_products a) arg) = []
          \/ products (default (self_products a) arg) <> []) as [Hl|Hne]
    by (destruct (products _); [by left | by right]).
  - rewrite analyze_products_empty by done. by split_and!.
  - destruct (analyze_products_fields a arg Hne) as (_ & _ & _ & H1 & H2 & H3 & H4 & _).
    rewrite H1, H2, H3, H4, (analyze_products_monthly a arg Hne).
    rewrite month_items_set_items.
    split; [split_and!; try apply breakdown_prefix; apply set_items_prefix|].
    split_and!.
    + intros c Hc. rewrite breakdown_get by apply Country_members_ok.
      unfold partition_of in Hc |- *. by rewrite Hc.
    + intros c Hc. rewrite breakdown_get by apply Currency_members_ok.
      unfold partition_of in Hc |- *. by rewrite Hc.
    + intros c Hc. rewrite breakdown_get by apply RiskLevel_members_ok.
      unfold partition_of in Hc |- *. by rewrite Hc.
    + intros c Hc. rewrite breakdown_get by apply ProductType_members_ok.
      unfold partition_of in Hc |- *. by rewrite Hc.
    + intros m Hm. apply set_items_get_other.
      rewrite dict_keys_monthly_stats. unfold months. rewrite elem_of_first_seen.
      intros Hin. by apply (keyed_nonempty _ _ _ Hin).
Qed.

(** X13. Analysing the same collection again changes nothing: on the
    analyzer an analysis leaves, the analysis of the same collection,
    given again or taken from the analyzer, returns the same analysis and
    leaves the same analyzer. *)
Theorem analyze_products_idempotent (a : SRPAnalyzer) (l : SRPProductList) :
  let once := analyze_products a (Some l) in
  analyze_products (fst once) (Some l) = once
  /\ analyze_products (fst once) None = once.
Proof.
  cbv zeta.
  assert (forall arg, default (self_products (fst (analyze_products a (Some l)))) arg = l ->
            analyze_products (fst (analyze_products a (Some l))) arg
            = analyze_products a (Some l)) as Hsame.
  { intros arg Harg.
    set (a1 := fst (analyze_products a (Some l))) in *.
    assert (self_analysis a1 = snd (analyze_products a (Some l))) as Ha1
      by (unfold a1; by rewrite analyze_products_state).
    assert (snd (analyze_products a1 arg) = snd (analyze_products a (Some l))) as Hr.
    { assert (products l = [] \/ products l <> []) as [Hl|Hne]
        by (destruct (products l); [by left | by right]).
      - rewrite analyze_products_empty by (by rewrite Harg). done.
      - assert (products (default (self_products a1) arg) <> []) as Hne'
          by (by rewrite Harg).
        destruct (analyze_products_fields a1 arg Hne')
          as (H0 & H1 & H2 & H3 & H4 & H5 & H6 & H7).
        pose proof (analyze_products_monthly a1 arg Hne') as H8.
        rewrite Harg, Ha1 in *.
        destruct (analyze_products_nonempty a l Hne)
          as (G0 & G1 & G2 & G3 & G4 & G5 & G6 & G7).
        pose proof (analyze_products_monthly a (Some l) Hne) as G8.
        change (default (self_products a) (Some l)) with l in G8.
        apply SRPAnalysis_ext; try congruence.
        + rewrite H3, G3. apply breakdown_idempotent, Country_members_ok.
        + rewrite H4, G4. apply breakdown_idempotent, Currency_members_ok.
        + rewrite H5, G5. apply breakdown_idempotent, RiskLevel_members_ok.
        + rewrite H6, G6. apply breakdown_idempotent, ProductType_members_ok.
        + rewrite H8, G8, !month_items_set_items. apply set_items_idempotent.
          rewrite dict_keys_monthly_stats. apply NoDup_first_seen. }
    rewrite (surjective_pairing (analyze_products a1 arg)).
    rewrite (surjective_pairing (analyze_products a (Some l))).
    rewrite Hr. f_equal.
    rewrite analyze_products_state, Harg, Hr.
    fold a1. unfold a1. by rewrite analyze_products_state. }
  split; apply Hsame; by rewrite analyze_products_state.
Qed.

(** ** analyzer.py: the issuers of a bundle *)

Lemma fold_left_ext_eq {A B} (f g : A -> B -> A) (l : list B) (a : A) :
  (forall x y, f x y = g x y) -> fold_left f l a = fold_left g l a.
Proof.
  intros Hfg. revert a. induction l as [|y l IH]; intros a; simpl; [done|].
  by rewrite Hfg, IH.
Qed.

Lemma filter_map_comm {A B} (f : B -> bool) (g : A -> B) (l : list A) :
  List.filter f (map g l) = map g (List.filter (fun x => f (g x)) l).
Proof.
  induction l as [|x l IH]; simpl; [done|].
  destruct (f (g x)); simpl; by rewrite IH.
Qed.

(** The issuers of [l], each with the number of its records, in the
    order they are first met. *)
Definition issuer_counts (l : list SRPProduct) : list (string * Z) :=
  map (fun name => (name, len (issued_by name l))) (first_seen (map issuer l)).

Lemma Counter_groups (l : list string) :
  Counter l = map (fun k => (k, len (keyed id k l))) (first_seen l).
Proof.
  unfold Counter.
  rewrite (fold_left_ext_eq _ (group_step id 0 (fun n _ => n + 1))).
  2:{ intros c k. unfold Counter_incr, group_step, id.
      by destruct (dict_get k c). }
  rewrite (group_fold id 0 (fun n _ => n + 1) len eq_refl).
  - by rewrite map_id.
  - intros g p. unfold len. rewrite length_app. simpl. lia.
Qed.

Lemma Counter_issuers (l : list SRPProduct) : Counter (map issuer l) = issuer_counts l.
Proof.
  rewrite Counter_groups. unfold issuer_counts. apply map_ext. intros name.
  f_equal. unfold keyed, issued_by, id, len.
  by rewrite filter_map_comm, length_map.
Qed.

Lemma StronglySorted_impl {A} (R R' : A -> A -> Prop) (l : list A) :
  (forall x y, R x y -> R' x y) -> StronglySorted R l -> StronglySorted R' l.
Proof.
  intros HR. induction 1 as [|x l Hl IH Hx]; constructor; [done|].
  eapply List.Forall_impl; [|exact Hx]. intros y. apply HR.
Qed.

(** X14. [_get_top_issuers] returns at most [limit] pairs of an issuer
    and the number of its records in the list, taken from the front of
    the full list of issuers arranged by decreasing number of records,
    issuers with the same number of records in the order they are first
    met in the list. *)
Theorem get_top_issuers_ranking (l : list SRPProduct) (limit : nat) :
  (length (_get_top_issuers l limit) <= limit)%nat
  /\ exists ranked,
       _get_top_issuers l limit = take limit ranked
       /\ ranked ≡ₚ issuer_counts l
       /\ StronglySorted (fun x y => snd y <= snd x) ranked
       /\ forall n, List.filter (fun x => snd x =? n) ranked
                    = List.filter (fun x => snd x =? n) (issuer_counts l).
Proof.
  unfold _get_top_issuers, most_common. rewrite Counter_issuers.
  split; [rewrite length_take; lia|].
  exists (sorted_desc Z.ltb snd (issuer_counts l)).
  split; [done|]. split; [apply sorted_desc_Permutation|].
  assert (Forall (fun y : string * Z => True) (issuer_counts l)) as Hall
    by (apply Forall_forall; done).
  split.
  - eapply StronglySorted_impl;
      [|apply (sorted_desc_sorted Z.ltb snd (fun _ => True)); [| |exact Hall]].
    + unfold not_below. intros x y Hxy. apply Z.ltb_ge in Hxy. done.
    + intros x y Hxy. apply Z.ltb_lt in Hxy. apply Z.ltb_ge. lia.
    + intros x y z _ _ _ Hxy Hyz. apply Z.ltb_ge in Hxy, Hyz. apply Z.ltb_ge. lia.
  - intros n.
    pose proof (sorted_desc_stable Z.ltb (snd : string * Z -> Z) (fun _ => True)) as Hst.
    assert (forall x : string * Z, tied Z.ltb snd n x = (snd x =? n)) as Htied.
    { intros x. unfold tied.
      destruct (Z.ltb_spec (snd x) n), (Z.ltb_spec n (snd x)), (Z.eqb_spec (snd x) n);
        simpl; try done; lia. }
    rewrite <- !(List.filter_ext _ _ Htied).
    apply Hst; [|done|exact Hall].
    intros x y z _ _ _ Hxy Hyz. apply Z.ltb_ge in Hxy, Hyz. apply Z.ltb_ge. lia.
Qed.

(** X15. [_calculate_average_coupon] has no result exactly when no record
    of the list has a coupon rate; otherwise it is the mean of the rates
    that are present, in the order of the list, the records without a
    rate not counted. *)
Theorem calculate_average_coupon_present (l : list SRPProduct) :
  (_calculate_average_coupon l = None <-> Forall (fun p => coupon_rate p = None) l)
  /\ (forall x, _calculate_average_coupon l = Some x ->
        x = average (sum (omap coupon_rate l)) (len (omap coupon_rate l))
        /\ 0 < len (omap coupon_rate l) <= len l).
Proof.
  unfold _calculate_average_coupon. split.
  - split.
    + intros H. destruct (omap coupon_rate l) eqn:E; [|done].
      apply Forall_forall. intros p Hp.
      destruct (coupon_rate p) as [c|] eqn:Hc; [|done].
      assert (c ∈ omap coupon_rate l) as Hin by (apply list_elem_of_omap; by exists p).
      rewrite E in Hin. by apply elem_of_nil in Hin.
    + intros H. assert (omap coupon_rate l = []) as ->; [|done].
      induction H as [|p l Hp _ IH]; simpl; [done|]. by rewrite Hp.
  - intros x Hx. destruct (omap coupon_rate l) as [|c cs] eqn:E; [done|].
    injection Hx as <-. split; [done|].
    assert (forall l' : list SRPProduct,
              (length (omap coupon_rate l') <= length l')%nat) as Hle.
    { induction l' as [|p l' IH]; [done|]. cbn [omap list_omap].
      destruct (coupon_rate p); cbn [length]; lia. }
    specialize (Hle l). rewrite E in Hle. unfold len. cbn [length] in *. lia.
Qed.

(** ** analyzer.py: filters and the selections of the collection *)

(** The values of an enumeration tell its members apart. *)
Lemma value_inj {E} `{PyEnum E} (m m' : E) :
  enum_of_value (value m) = Some m -> enum_of_value (value m') = Some m' ->
  value m = value m' -> m = m'.
Proof. intros Hm Hm' Hv. rewrite Hv in Hm. congruence. Qed.

Lemma str_eq_value {E} `{EqDecision E} `{PyEnum E} (m m' : E) :
  (forall x : E, enum_of_value (value x) = Some x) ->
  str_eq (value m) (VStr (value m')) = bool_decide (m = m').
Proof.
  intros Hall. simpl. destruct (String.eqb_spec (value m) (value m')) as [Hv|Hv].
  - rewrite bool_decide_true; [done|]. by apply value_inj.
  - rewrite bool_decide_false; [done|]. by intros ->.
Qed.

Lemma well_typed_string_filter k v :
  k ∈ ["country"; "currency"; "product_type"; "risk_level"] ->
  well_typed {[ k := v ]}.
Proof.
  intros Hk. rewrite !elem_of_cons in Hk.
  unfold well_typed. split_and!; intros w Hw;
    apply lookup_singleton_Some in Hw as [Hw _]; subst k;
    destruct Hk as [Hk|[Hk|[Hk|[Hk|Hk]]]]; try discriminate; by apply elem_of_nil in Hk.
Qed.

(** X16. Filtering on the value of a country, of a currency or of a risk
    level alone returns what the collection's own selection returns for
    that member; a country value that belongs to no member returns no
    record, without an error. *)
Theorem get_filtered_products_by_member (lower : string -> string) (self : SRPAnalyzer) :
  (forall c : Country,
     get_filtered_products lower self (Some {[ "country" := VStr (value c) ]})
     = Ok (get_products_by_country (self_products self) c))
  /\ (forall c : Currency,
        get_filtered_products lower self (Some {[ "currency" := VStr (value c) ]})
        = Ok (get_products_by_currency (self_products self) c))
  /\ (forall k : RiskLevel,
        get_filtered_products lower self (Some {[ "risk_level" := VStr (value k) ]})
        = Ok (get_products_by_risk_level (self_products self) k))
  /\ (forall s : string,
        (forall c : Country, value c <> s) ->
        get_filtered_products lower self (Some {[ "country" := VStr s ]}) = Ok []).
Proof.
  split_and!.
  - intros c. rewrite get_filtered_products_typed
      by (apply well_typed_string_filter; set_solver).
    f_equal. apply List.filter_ext. intros p. unfold satisfies.
    rewrite lookup_singleton_eq. rewrite !lookup_singleton_ne by done. unfold holds.
    rewrite !andb_true_r. apply str_eq_value. by intros [].
  - intros c. rewrite get_filtered_products_typed
      by (apply well_typed_string_filter; set_solver).
    f_equal. apply List.filter_ext. intros p. unfold satisfies.
    rewrite lookup_singleton_eq. rewrite !lookup_singleton_ne by done. unfold holds.
    rewrite !andb_true_r. apply str_eq_value. by intros [].
  - intros c. rewrite get_filtered_products_typed
      by (apply well_typed_string_filter; set_solver).
    f_equal. apply List.filter_ext. intros p. unfold satisfies.
    rewrite lookup_singleton_eq. rewrite !lookup_singleton_ne by done. unfold holds.
    rewrite !andb_true_r. apply str_eq_value. by intros [].
  - intros s Hs. rewrite get_filtered_products_typed
      by (apply well_typed_string_filter; set_solver).
    f_equal. rewrite (List.filter_ext _ (fun _ => false)).
    { by induction (products (self_products self)). }
    intros p. unfold satisfies. rewrite lookup_singleton_eq.
    unfold holds at 1. unfold str_eq.
    destruct (String.eqb_spec (value (country p)) s) as [Hv|Hv]; [|done].
    by destruct (Hs (country p)).
Qed.

(** The four tests on strings, which cannot raise. *)
Definition passes_string_tests (filters : gmap string Val) (p : SRPProduct) : bool :=
  holds (filters !! "country") (str_eq (value (country p)))
  && holds (filters !! "currency") (str_eq (value (currency p)))
  && holds (filters !! "product_type") (str_eq (value (product_type p)))
  && holds (filters !! "risk_level") (str_eq (value (risk_level p))).

Lemma filterM_nil {A} (cond : A -> res bool) : filterM cond [] = Ok [].
Proof. reflexivity. Qed.

Lemma filterM_raises {A} (cond : A -> res bool) (x : A) (l : list A) (e : Exc) :
  cond x = Raise e -> filterM cond (x :: l) = Raise e.
Proof. intros Hx. simpl. by rewrite Hx. Qed.

Lemma float_ge_not_number x v : ~ is_number v -> float_ge x v = Raise TypeError.
Proof. by destruct v. Qed.

(** X17. A lower bound on the nominal value that is not a number is an
    error only when a record reaches the comparison: the call raises a
    [TypeError] when some record passes the tests on country, currency,
    product type and risk level, and returns no record, without an
    error, when none does, whatever the other filters are. *)
Theorem get_filtered_products_bad_bound
    (lower : string -> string) (self : SRPAnalyzer) (filters : gmap string Val) (v : Val) :
  filters !! "min_nominal_value" = Some v ->
  ~ is_number v ->
  get_filtered_products lower self (Some filters)
  = match List.filter (passes_string_tests filters) (products (self_products self)) with
    | [] => Ok []
    | _ => Raise TypeError
    end.
Proof.
  intros Hv Hnum. unfold get_filtered_products. simpl default. cbv zeta.
  rewrite !stage_pure, !filter_filter, Hv.
  rewrite (List.filter_ext _ (passes_string_tests filters))
    by (intros p; unfold passes_string_tests; by rewrite !andb_assoc).
  destruct (List.filter (passes_string_tests filters) (products (self_products self)))
    as [|p l].
  - simpl. by destruct (filters !! "max_nominal_value"), (filters !! "issuer").
  - by rewrite (filterM_raises _ p l TypeError) by (by apply float_ge_not_number).
Qed.

Lemma get_filtered_products_bad_bound_witness :
  let self := fst (analyze_products (SRPAnalyzer_new None) (Some (collection [bond; note]))) in
  let filters : gmap string Val :=
    <["country" := VStr "BE"]> {[ "min_nominal_value" := VStr "1000" ]} in
  filters !! "min_nominal_value" = Some (VStr "1000")
  /\ ~ is_number (VStr "1000")
  /\ get_filtered_products lower_ascii self (Some filters) = Raise TypeError
  /\ get_filtered_products lower_ascii self (Some (<["country" := VStr "DE"]> filters))
     = Ok [].
Proof.
  cbv zeta. split; [reflexivity|]. split; [intros []|]. split.
  - rewrite (get_filtered_products_bad_bound lower_ascii _ _ (VStr "1000"));
      [reflexivity | reflexivity | intros []].
  - reflexivity.
Defined.

(** ** analyzer.py: the report of an analyzer that was used *)

(** The analyzer after the analyses of the collections [ls], one after
    the other. *)
Definition analyses (a : SRPAnalyzer) (ls : list SRPProductList) : SRPAnalyzer :=
  fold_left (fun a l => fst (analyze_products a (Some l))) ls a.

Lemma generate_report_Ok (now : datetime) (self : SRPAnalyzer) :
  renderable (self_analysis self) ->
  exists report,
    generate_report now self = Ok report
    /\ (report = NoData <-> total_products (self_analysis self) = 0).
Proof.
  intros (Hc & Hcu & Hr). unfold generate_report.
  destruct (Z.eqb_spec (total_products (self_analysis self)) 0) as [H0|H0].
  - by exists NoData.
  - destruct (country_section_renders self Hc) as (cs & Hcs & _).
    destruct (currency_section_renders self Hcu) as (cus & Hcus & _).
    destruct (risk_section_renders self Hr) as (rs & Hrs & _).
    unfold _generate_html_report.
    rewrite (when_nonempty_Ok _ _ _ Hcs), (when_nonempty_Ok _ _ _ Hcus),
      (when_nonempty_Ok _ _ _ Hrs), (when_nonempty_Ok _ _ _ eq_refl).
    eexists. split; [reflexivity|]. split; [discriminate | done].
Qed.

Lemma analyses_invariant (a : SRPAnalyzer) (ls : list SRPProductList) :
  renderable (self_analysis a) ->
  renderable (self_analysis (analyses a ls))
  /\ (total_products (self_analysis (analyses a ls)) = 0
      <-> total_products (self_analysis a) = 0 /\ Forall (fun l => products l = []) ls).
Proof.
  revert a. induction ls as [|l ls IH]; intros a Ha; simpl.
  - split; [done|]. split; [by intros ? | by intros [? _]].
  - destruct (analyze_products_renderable a (Some l) Ha) as [Ha1 Hr1].
    destruct (IH _ Ha1) as [IH1 IH2]. split; [done|].
    rewrite IH2, Hr1, Forall_cons.
    assert (products l = [] \/ products l <> []) as [Hl|Hne]
      by (destruct (products l); [by left | by right]).
    + rewrite analyze_products_empty by done. tauto.
    + destruct (analyze_products_nonempty a l Hne) as (H0 & _). rewrite H0.
      assert (len (products l) <> 0).
      { destruct (products l); [done|]. unfold len. simpl length. lia. }
      tauto.
Qed.

(** X18. The report never fails on an analyzer that was created and then
    used for any number of analyses: [generate_report] returns a
    document, and it is the "no data" paragraph exactly when none of the
    collections analysed had a record. *)
Theorem generate_report_after_analyses
    (now : datetime) (po : option SRPProductList) (ls : list SRPProductList) :
  exists report,
    generate_report now (analyses (SRPAnalyzer_new po) ls) = Ok report
    /\ (report = NoData <-> Forall (fun l => products l = []) ls).
Proof.
  destruct (analyses_invariant (SRPAnalyzer_new po) ls renderable_new) as [Hr H0].
  destruct (generate_report_Ok now _ Hr) as (report & Hrep & Hno).
  exists report. split; [done|]. rewrite Hno, H0. simpl. tauto.
Qed.

(** ** analyzer.py: the summary *)

(** The order of dates, as a relation on the triples. *)
Definition date_lt (a b : date) : Prop :=
  year a < year b
  \/ (year a = year b /\ (month a < month b \/ (month a = month b /\ day a < day b))).

Lemma date_ltb_lt a b : date_ltb a b = true <-> date_lt a b.
Proof.
  unfold date_ltb, date_lt.
  rewrite !orb_true_iff, !andb_true_iff, !orb_true_iff, !andb_true_iff.
  rewrite !Z.ltb_lt, !Z.eqb_eq. tauto.
Qed.

Lemma date_leb_le a b : date_leb a b = true <-> date_lt a b \/ a = b.
Proof.
  unfold date_leb, date_eqb. rewrite orb_true_iff, date_ltb_lt, !andb_true_iff, !Z.eqb_eq.
  split; (intros [H|H]; [by left | right]).
  - destruct a, b; simpl in *. destruct H as [[-> ->] ->]. done.
  - by subst.
Qed.

Lemma date_ltb_ge a b : date_ltb a b = false -> date_leb b a = true.
Proof.
  intros H. apply date_leb_le.
  assert (~ date_lt a b) as Hn by (rewrite <- date_ltb_lt; congruence).
  unfold date_lt in *. destruct a as [y m d], b as [y' m' d']; simpl in *.
  destruct (decide (y = y' /\ m = m' /\ d = d')) as [(-> & -> & ->)|Hne]; [by right|].
  left. lia.
Qed.

Lemma date_leb_refl a : date_leb a a = true.
Proof. apply date_leb_le. by right. Qed.

Lemma date_leb_trans a b c :
  date_leb a b = true -> date_leb b c = true -> date_leb a c = true.
Proof.
  rewrite !date_leb_le. intros [Hab| ->] [Hbc| ->]; try (by left); try (by right).
  left. unfold date_lt in *. lia.
Qed.

Lemma date_ltb_leb a b : date_ltb a b = true -> date_leb a b = true.
Proof. intros H. unfold date_leb. by rewrite H. Qed.

Lemma min_date_least d ds :
  let lo := min_date d ds in
  lo ∈ d :: ds /\ forall x, x ∈ d :: ds -> date_leb lo x = true.
Proof.
  cbv zeta. unfold min_date. revert d.
  induction ds as [|y ds IH] using rev_ind; intros d.
  - simpl. split; [apply list_elem_of_here|].
    intros x ->%list_elem_of_singleton. apply date_leb_refl.
  - rewrite fold_left_app. simpl. destruct (IH d) as [Hin Hle].
    set (best := fold_left _ ds d) in *.
    change (d :: ds ++ [y]) with ((d :: ds) ++ [y])%list.
    destruct (date_ltb y best) eqn:Hy.
    + split; [apply elem_of_app; right; apply list_elem_of_here|].
      intros x [Hx| ->%list_elem_of_singleton]%elem_of_app; [|apply date_leb_refl].
      eapply date_leb_trans; [by apply date_ltb_leb | by apply Hle].
    + split; [apply elem_of_app; by left|].
      intros x [Hx| ->%list_elem_of_singleton]%elem_of_app; [by apply Hle|].
      by apply date_ltb_ge.
Qed.

Lemma max_date_greatest d ds :
  let hi := max_date d ds in
  hi ∈ d :: ds /\ forall x, x ∈ d :: ds -> date_leb x hi = true.
Proof.
  cbv zeta. unfold max_date. revert d.
  induction ds as [|y ds IH] using rev_ind; intros d.
  - simpl. split; [apply list_elem_of_here|].
    intros x ->%list_elem_of_singleton. apply date_leb_refl.
  - rewrite fold_left_app. simpl. destruct (IH d) as [Hin Hle].
    set (best := fold_left _ ds d) in *.
    change (d :: ds ++ [y]) with ((d :: ds) ++ [y])%list.
    destruct (date_ltb best y) eqn:Hy.
    + split; [apply elem_of_app; right; apply list_elem_of_here|].
      intros x [Hx| ->%list_elem_of_singleton]%elem_of_app; [|apply date_leb_refl].
      eapply date_leb_trans; [by apply Hle | by apply date_ltb_leb].
    + split; [apply elem_of_app; by left|].
      intros x [Hx| ->%list_elem_of_singleton]%elem_of_app; [by apply Hle|].
      by apply date_ltb_ge.
Qed.

(** X19. The summary is the empty dictionary exactly when the analyzer
    holds no record.  Otherwise its count, its total and its mean are
    the [total_products], the [total_value] and the
    [average_nominal_value] that [analyze_products] reports for the
    collection the analyzer holds, whatever the analyzer analysed
    before. *)
Theorem get_products_summary_agrees (self : SRPAnalyzer) :
  let s := get_products_summary self in
  let r := snd (analyze_products self None) in
  (s = [] <-> products (self_products self) = [])
  /\ (products (self_products self) <> [] ->
      dict_keys s = [ "total_count"; "date_range"; "countries"; "currencies";
                      "product_types"; "risk_levels"; "total_nominal_value";
                      "average_nominal_value" ]
      /\ dict_get "total_count" s = Some (SInt (total_products r))
      /\ dict_get "total_nominal_value" s = Some (SFloat (total_value r))
      /\ dict_get "average_nominal_value" s = Some (SFloat (average_nominal_value r))).
Proof.
  cbv zeta. split.
  - unfold get_products_summary. by destruct (products (self_products self)).
  - intros Hne.
    destruct (analyze_products_fields self None Hne) as (H0 & H1 & H2 & _).
    rewrite H0, H1, H2. simpl default.
    unfold get_products_summary. by destruct (products (self_products self)).
Qed.

(** X20. The dates of the summary are the earliest and the latest issue
    date of the records the analyzer holds, as [YYYY-MM-DD]. *)
Theorem get_products_summary_date_range (self : SRPAnalyzer) :
  products (self_products self) <> [] ->
  exists lo hi,
    dict_get "date_range" (get_products_summary self)
    = Some (SDict [ ("start", isoformat (issue_date lo));
                    ("end", isoformat (issue_date hi)) ])
    /\ lo ∈ products (self_products self)
    /\ hi ∈ products (self_products self)
    /\ forall p, p ∈ products (self_products self) ->
         date_leb (issue_date lo) (issue_date p) = true
         /\ date_leb (issue_date p) (issue_date hi) = true.
Proof.
  intros Hne. unfold get_products_summary.
  destruct (products (self_products self)) as [|p ps]; [done|].
  destruct (min_date_least (issue_date p) (map issue_date ps)) as [Hlo Hlo'].
  destruct (max_date_greatest (issue_date p) (map issue_date ps)) as [Hhi Hhi'].
  change (issue_date p :: map issue_date ps) with (map issue_date (p :: ps)) in *.
  apply list_elem_of_fmap in Hlo as (lo & Elo & Hlo).
  apply list_elem_of_fmap in Hhi as (hi & Ehi & Hhi).
  exists lo, hi. rewrite <- Elo, <- Ehi. split; [reflexivity|].
  split; [done|]. split; [done|].
  intros q Hq. split; [apply Hlo' | apply Hhi']; by apply list_elem_of_fmap_2.
Qed.

Lemma get_products_summary_date_range_witness :
  let self := SRPAnalyzer_new (Some (collection [certificate; bond; note])) in
  products (self_products self) <> []
  /\ exists lo hi,
       dict_get "date_range" (get_products_summary self)
       = Some (SDict [ ("start", isoformat (issue_date lo));
                       ("end", isoformat (issue_date hi)) ])
       /\ lo ∈ products (self_products self)
       /\ hi ∈ products (self_products self)
       /\ forall p, p ∈ products (self_products self) ->
            date_leb (issue_date lo) (issue_date p) = true
            /\ date_leb (issue_date p) (issue_date hi) = true.
Proof.
  cbv zeta. split; [discriminate|].
  apply (get_products_summary_date_range
           (SRPAnalyzer_new (Some (collection [certificate; bond; note])))).
  discriminate.
Defined.

(** The summary of the three sample records, the latest one first. *)
Example get_products_summary_of_samples :
  get_products_summary (SRPAnalyzer_new (Some (collection [certificate; bond; note])))
  = [ ("total_count", SInt 3);
      ("date_range", SDict [ ("start", "2024-08-15"); ("end", "2024-09-02") ]);
      ("countries", SSet {[ "FR"; "BE" ]});
      ("currencies", SSet {[ "EUR"; "USD" ]});
      ("product_types", SSet {[ "certificate"; "bond"; "note" ]});
      ("risk_levels", SSet (risk_level_values [certificate; bond; note]));
      ("total_nominal_value", SFloat 35000);
      ("average_nominal_value", SFloat (35000 / 3)) ].
Proof.
  unfold get_products_summary. simpl products.
  repeat (f_equal; try reflexivity); f_equal; apply set_eq; intros x;
    unfold country_values, currency_values, product_type_values, set_of; simpl;
    set_solver.
Qed.

(** X21. For a collection filled by [add_product], the countries and the
    currencies of the summary are the values of the members the
    collection lists in [countries] and in [currencies]. *)
Theorem get_products_summary_sets (l : list SRPProduct) :
  l <> [] ->
  let s := get_products_summary (SRPAnalyzer_new (Some (collection l))) in
  dict_get "countries" s
  = Some (SSet (set_of (map value (countries (collection l)))))
  /\ dict_get "currencies" s
     = Some (SSet (set_of (map value (currencies (collection l))))).
Proof.
  intros Hne. cbv zeta.
  destruct (collection_invariant l) as (Hl & _ & _ & Hc & _ & Hcu).
  unfold get_products_summary. simpl self_products. rewrite Hl.
  destruct l as [|p ps]; [done|].
  split; simpl dict_get; do 2 f_equal; apply set_eq; intros x.
  - rewrite elem_of_country_values. unfold set_of.
    rewrite elem_of_list_to_set, list_elem_of_fmap. split.
    + intros (q & Hq & <-). exists (country q). split; [done|].
      apply Hc. exists q. by rewrite Hl.
    + intros (c & -> & (q & Hq & <-)%Hc). exists q. by rewrite Hl in Hq.
  - rewrite elem_of_currency_values. unfold set_of.
    rewrite elem_of_list_to_set, list_elem_of_fmap. split.
    + intros (q & Hq & <-). exists (currency q). split; [done|].
      apply Hcu. exists q. by rewrite Hl.
    + intros (c & -> & (q & Hq & <-)%Hcu). exists q. by rewrite Hl in Hq.
Qed.

Lemma get_products_summary_sets_witness :
  [bond; note; certificate] <> []
  /\ dict_get "countries"
       (get_products_summary (SRPAnalyzer_new (Some (collection [bond; note; certificate]))))
     = Some (SSet (set_of (map value [FRANCE; BELGIUM]))).
Proof.
  split; [discriminate|].
  apply (get_products_summary_sets [bond; note; certificate]). discriminate.
Defined.

(** ** analyzer.py: the total of valid records *)

Lemma nonneg_ltb_zero x : FloatOrder.nonneg x -> PrimFloat.ltb x 0 = false.
Proof.
  unfold FloatOrder.nonneg. rewrite FloatAxioms.ltb_spec. unfold SFltb.
  change (Prim2SF 0) with (S754_zero false).
  by destruct (Prim2SF x) as [[]|[]| |[] m e].
Qed.

(** X22. When every record of the collection has a nominal value above
    zero, the [total_value] of the analysis is a number and is not
    negative, however many records are added up and even when the sum
    overflows. *)
Theorem analyze_products_total_not_negative (a : SRPAnalyzer) (l : SRPProductList) :
  products l <> [] ->
  Forall (fun p => fgtb (nominal_value p) 0 = true) (products l) ->
  let r := snd (analyze_products a (Some l)) in
  is_nan (total_value r) = false /\ PrimFloat.ltb (total_value r) 0 = false.
Proof.
  intros Hne Hpos. cbv zeta.
  destruct (analyze_products_nonempty a l Hne) as (_ & -> & _).
  assert (FloatOrder.nonneg (sum (nominal_values (products l)))) as Hsum.
  { unfold sum. apply FloatOrder.fold_add_nonneg; [apply FloatOrder.nonneg_zero|].
    unfold nominal_values. by apply Forall_map. }
  split; [by apply FloatOrder.nonneg_not_nan | by apply nonneg_ltb_zero].
Qed.

Lemma analyze_products_total_not_negative_witness :
  let l := collection [bond; note] in
  products l <> []
  /\ is_nan (total_value (snd (analyze_products (SRPAnalyzer_new None) (Some l)))) = false.
Proof.
  cbv zeta. split; [discriminate|].
  apply (analyze_products_total_not_negative (SRPAnalyzer_new None) (collection [bond; note]));
    [discriminate | repeat constructor].
Defined.

(** ** analyzer.py: the entries of the issuer ranking *)

Lemma issued_by_keyed name l : issued_by name l = keyed issuer name l.
Proof. reflexivity. Qed.

Lemma issued_by_nonempty name l : name ∈ map issuer l -> 1 <= len (issued_by name l).
Proof.
  intros Hin. pose proof (keyed_nonempty issuer name l Hin) as Hne.
  rewrite issued_by_keyed. destruct (keyed issuer name l); [done|].
  unfold len. simpl length. lia.
Qed.

Lemma issuer_counts_total (l : list SRPProduct) :
  foldr Z.add 0 (map e_count (map (issuer_group l) (first_seen (map issuer l)))) = len l.
Proof.
  rewrite map_map. simpl.
  rewrite <- (len_Permutation _ _ (keyed_cover issuer l)), len_concat, map_map.
  done.
Qed.

Lemma sum_Permutation (l l' : list Z) : l ≡ₚ l' -> foldr Z.add 0 l = foldr Z.add 0 l'.
Proof. induction 1; simpl; lia. Qed.

(** X23. Whatever the nominal values are, the issuer ranking of an
    analysis lists an issuer at most once; each entry is the group of an
    issuer of the collection, with at least one record; and when the
    collection has at most ten issuers the counts of the entries add up
    to [total_products]. *)
Theorem top_issuers_entries (a : SRPAnalyzer) (l : SRPProductList) :
  products l <> [] ->
  let r := snd (analyze_products a (Some l)) in
  NoDup (map e_issuer (top_issuers r))
  /\ Forall (fun e => e_issuer e ∈ map issuer (products l)
                      /\ e = issuer_group (products l) (e_issuer e)
                      /\ 1 <= e_count e) (top_issuers r)
  /\ ((length (first_seen (map issuer (products l))) <= 10)%nat ->
      foldr Z.add 0 (map e_count (top_issuers r)) = total_products r).
Proof.
  intros Hne. cbv zeta.
  destruct (analyze_products_nonempty a l Hne) as (-> & _ & _ & _ & _ & _ & _ & ->).
  unfold ranked_issuers. rewrite issuer_entries_groups.
  set (groups := map (issuer_group (products l)) (first_seen (map issuer (products l)))).
  pose proof (sorted_desc_Permutation PrimFloat.ltb e_total_value groups) as Hperm.
  set (ranked := sorted_desc PrimFloat.ltb e_total_value groups) in *.
  assert (map e_issuer groups = first_seen (map issuer (products l))) as Hnames.
  { unfold groups. rewrite map_map. simpl. apply map_id. }
  split_and!.
  - apply (sublist_NoDup _ (map e_issuer ranked)).
    + rewrite Hperm, Hnames. apply NoDup_first_seen.
    + change (map e_issuer) with (fmap (M := list) e_issuer).
      rewrite fmap_take. apply sublist_take.
  - apply Forall_forall. intros e He.
    assert (e ∈ groups) as Hin.
    { rewrite <- Hperm. eapply elem_of_prefix; [exact He|]. apply prefix_take. }
    unfold groups in Hin. apply list_elem_of_fmap in Hin as (name & -> & Hname).
    rewrite elem_of_first_seen in Hname. simpl.
    split_and!; [done | done | by apply issued_by_nonempty].
  - intros Hfew. rewrite take_ge.
    + rewrite (sum_Permutation _ (map e_count groups)) by (by rewrite Hperm).
      apply issuer_counts_total.
    + rewrite Hperm. unfold groups. by rewrite length_map.
Qed.

Lemma top_issuers_entries_witness :
  let l := collection [bond; note; certificate] in
  products l <> []
  /\ NoDup (map e_issuer (top_issuers (snd (analyze_products (SRPAnalyzer_new None) (Some l))))).
Proof.
  cbv zeta. split; [discriminate|].
  apply (top_issuers_entries (SRPAnalyzer_new None) (collection [bond; note; certificate])).
  discriminate.
Defined.

(** ** analyzer.py: one filter more *)

Lemma filter_implies_sublist {A} (f g : A -> bool) (l : list A) :
  (forall x, f x = true -> g x = true) -> List.filter f l `sublist_of` List.filter g l.
Proof.
  intros Hfg. induction l as [|x l IH]; simpl; [done|].
  destruct (f x) eqn:Hf.
  - rewrite (Hfg x Hf). by apply sublist_skip.
  - destruct (g x); [by apply sublist_cons | done].
Qed.

Lemma holds_insert (filters : gmap string Val) (k n : string) (v : Val) (test : Val -> bool) :
  filters !! k = None ->
  holds (<[k:=v]> filters !! n) test = true -> holds (filters !! n) test = true.
Proof.
  intros Hk. destruct (decide (k = n)) as [->|Hne].
  - by rewrite Hk.
  - by rewrite lookup_insert_ne.
Qed.

(** X24. A filter more never adds a record: when a key that was not in
    the filter dictionary is added to it, the records returned are among
    those returned before, in the same order. *)
Theorem get_filtered_products_narrows
    (lower : string -> string) (self : SRPAnalyzer) (filters : gmap string Val)
    (k : string) (v : Val) :
  well_typed filters ->
  well_typed (<[k:=v]> filters) ->
  filters !! k = None ->
  exists before after,
    get_filtered_products lower self (Some filters) = Ok before
    /\ get_filtered_products lower self (Some (<[k:=v]> filters)) = Ok after
    /\ after `sublist_of` before.
Proof.
  intros Hwt Hwt' Hk. do 2 eexists.
  split; [by apply get_filtered_products_typed|].
  split; [by apply get_filtered_products_typed|].
  apply filter_implies_sublist. intros p. unfold satisfies.
  rewrite !andb_true_iff.
  intros ((((((H1 & H2) & H3) & H4) & H5) & H6) & H7).
  split_and!; by eapply holds_insert.
Qed.

Lemma get_filtered_products_narrows_witness :
  let self := fst (analyze_products (SRPAnalyzer_new None) (Some (collection [bond; note]))) in
  well_typed sample_filters
  /\ sample_filters !! "currency" = None
  /\ exists before after,
       get_filtered_products lower_ascii self (Some sample_filters) = Ok before
       /\ get_filtered_products lower_ascii self
            (Some (<["currency" := VStr "USD"]> sample_filters)) = Ok after
       /\ after `sublist_of` before.
Proof.
  cbv zeta.
  assert (forall f : gmap string Val,
            f !! "min_nominal_value" = Some (VInt 1000) ->
            f !! "max_nominal_value" = None ->
            f !! "issuer" = Some (VStr "BANK") -> well_typed f) as Hwt.
  { intros f H1 H2 H3. unfold well_typed. rewrite H1, H2, H3.
    split_and!; intros w [= <-]; exact I. }
  split; [by apply Hwt|]. split; [reflexivity|].
  apply (get_filtered_products_narrows lower_ascii _ sample_filters "currency" (VStr "USD"));
    [by apply Hwt | by apply Hwt | reflexivity].
Defined.
